(** * Verification of the statement parser of AutomatedBudgeting

    This development embeds the pure core of
    [src/bankai/parser/hybrid_parser.py] (class [HybridPDFParser]) in Rocq
    and proves properties of it: the OCR date repair, the transaction-block
    parser, the merchant-name normaliser, the extraction validator, the
    dual-extraction reconciler and the income/expense classifier.

    Conventions of the embedding.
    - A Python [str] is a [string]; only ASCII text is modelled, so
      [upper], [isalpha], [\d], [\s] and friends are the ASCII restrictions
      of the Python ones.
    - A Python [float] is a binary64 [PrimFloat.float], with the
      operations of the hardware; [float(s)] rounds the decimal numeral to
      the nearest such number.
    - Regular expressions are kept as the pattern strings of the source and
      are interpreted by a backtracking matcher with the priorities of
      Python's [re] (leftmost, alternatives in order, greedy or lazy
      repetition).
    - A transaction dictionary is a record with one optional field per key
      the module reads or writes; a field that is [None] is an absent key,
      and the value [None] under an amount key is [NoneVal].
    - [self.merchant_cache] is a [gmap string string]; methods that
      write it return the parser object next to their result.
    - The language-model service is an oracle field of the parser object:
      the reply of the HTTP endpoint to the n-th prompt.
    - A raised [TypeError] is a result of its own ([outcome]); printing is
      left out. *)

From Stdlib Require Import Bool Arith ZArith Lia List Ascii String.
From Stdlib Require Import Floats DecimalString Permutation Sorted.
From stdpp Require Import gmap strings.
Import ListNotations.

Local Open Scope bool_scope.
Local Open Scope string_scope.
Local Open Scope nat_scope.

(** ** Characters (ASCII restriction of Python's [str] predicates) *)

Module Chr.

Definition code (c : ascii) : nat := nat_of_ascii c.

Definition between (lo hi : nat) (c : ascii) : bool :=
  (lo <=? code c)%nat && (code c <=? hi)%nat.

Definition isdigit (c : ascii) : bool := between 48 57 c.
Definition isupper (c : ascii) : bool := between 65 90 c.
Definition islower (c : ascii) : bool := between 97 122 c.
Definition isalpha (c : ascii) : bool := isupper c || islower c.

(** [str.isspace] on one character: TAB, LF, VT, FF, CR, FS, GS, RS, US
    and the blank. *)
Definition isspace (c : ascii) : bool :=
  between 9 13 c || between 28 31 c || (code c =? 32)%nat.

(** The class [\w] of [re]. *)
Definition isword (c : ascii) : bool :=
  isalpha c || isdigit c || (code c =? 95)%nat.

Definition upper (c : ascii) : ascii :=
  if islower c then ascii_of_nat (code c - 32) else c.
Definition lower (c : ascii) : ascii :=
  if isupper c then ascii_of_nat (code c + 32) else c.
Definition swapcase (c : ascii) : ascii :=
  if islower c then upper c else lower c.

Definition eqb (a b : ascii) : bool := (code a =? code b)%nat.

End Chr.

(** ** Strings as character lists *)

Abbreviation chars := (list ascii).

Definition explode (s : string) : chars := list_ascii_of_string s.
Definition implode (l : chars) : string := string_of_list_ascii l.

Module Str.

(** [len(s)] *)
Definition len (s : string) : nat := String.length s.

Definition any (p : ascii -> bool) (s : string) : bool := existsb p (explode s).

Definition map (f : ascii -> ascii) (s : string) : string :=
  implode (List.map f (explode s)).

Definition upper : string -> string := map Chr.upper.
Definition lower : string -> string := map Chr.lower.

(** [s.isupper()]: some cased character and no lowercase one. *)
Definition isupper (s : string) : bool :=
  any Chr.isupper s && negb (any Chr.islower s).

(** [s.isalpha()]: non-empty and only letters. *)
Definition isalpha (s : string) : bool :=
  negb (String.eqb s "") && forallb Chr.isalpha (explode s).

Fixpoint lstrip_by (p : ascii -> bool) (l : chars) : chars :=
  match l with
  | c :: tl => if p c then lstrip_by p tl else l
  | [] => []
  end.

Definition rstrip_by (p : ascii -> bool) (l : chars) : chars :=
  rev (lstrip_by p (rev l)).

(** [s.strip()] and [s.strip(chars)] *)
Definition strip_by (p : ascii -> bool) (s : string) : string :=
  implode (rstrip_by p (lstrip_by p (explode s))).
Definition strip : string -> string := strip_by Chr.isspace.
Definition lstrip_chr (c : ascii) (s : string) : string :=
  implode (lstrip_by (Chr.eqb c) (explode s)).

Fixpoint prefixb (p l : chars) : bool :=
  match p, l with
  | [], _ => true
  | a :: p', b :: l' => Chr.eqb a b && prefixb p' l'
  | _ :: _, [] => false
  end.

(** [s.startswith(p)], [s.endswith(p)] *)
Definition startswith (s p : string) : bool := prefixb (explode p) (explode s).
Definition endswith (s p : string) : bool :=
  prefixb (rev (explode p)) (rev (explode s)).

Fixpoint infixb (p l : chars) : bool :=
  prefixb p l || match l with [] => false | _ :: tl => infixb p tl end.

(** [p in s] *)
Definition contains (p s : string) : bool := infixb (explode p) (explode s).

(** [s[n:]] and [s[:n]] for [0 <= n] *)
Definition drop (n : nat) (s : string) : string := implode (skipn n (explode s)).
Definition take (n : nat) (s : string) : string := implode (firstn n (explode s)).
(** [s[a:b]] for [0 <= a] *)
Definition slice (a b : nat) (s : string) : string :=
  implode (firstn (b - a) (skipn a (explode s))).

(** [s[0]] as an option. *)
Definition head (s : string) : option ascii :=
  match s with String c _ => Some c | EmptyString => None end.

(** [s.split(sep)] for a one-character separator: the pieces between the
    separators, empty pieces kept. *)
Fixpoint split_chr (sep : ascii) (l : chars) : list chars :=
  match l with
  | [] => [[]]
  | c :: tl =>
      if Chr.eqb c sep then [] :: split_chr sep tl
      else match split_chr sep tl with
           | p :: ps => (c :: p) :: ps
           | [] => [[c]]
           end
  end.

Definition split_on (sep : ascii) (s : string) : list string :=
  List.map implode (split_chr sep (explode s)).

(** [sep.join(parts)] *)
Fixpoint join (sep : string) (parts : list string) : string :=
  match parts with
  | [] => ""
  | [p] => p
  | p :: ps => String.append p (String.append sep (join sep ps))
  end.

(** [s.split()]: the maximal runs of non-blank characters. *)
Fixpoint words_aux (cur : chars) (l : chars) : list chars :=
  match l with
  | [] => match cur with [] => [] | _ => [rev cur] end
  | c :: tl =>
      if Chr.isspace c
      then match cur with [] => words_aux [] tl | _ => rev cur :: words_aux [] tl end
      else words_aux (c :: cur) tl
  end.

Definition words (s : string) : list string :=
  List.map implode (words_aux [] (explode s)).

(** [s.replace(old, new)] for a one-character [old]. *)
Definition replace_chr (old : ascii) (new : string) (s : string) : string :=
  implode (flat_map (fun c => if Chr.eqb c old then explode new else [c]) (explode s)).

(** [s.replace(old, new)] for a non-empty [old], left to right. *)
Fixpoint replace_aux (fuel : nat) (old new : chars) (l : chars) : chars :=
  match fuel with
  | O => l
  | S fuel' =>
      match l with
      | [] => []
      | c :: tl =>
          if prefixb old l
          then new ++ replace_aux fuel' old new (skipn (List.length old) l)
          else c :: replace_aux fuel' old new tl
      end
  end.

Definition replace (old new : string) (s : string) : string :=
  implode (replace_aux (S (len s)) (explode old) (explode new) (explode s)).

(** [s.split(sep)[0]] for a non-empty [sep]: the text before the first
    occurrence. *)
Fixpoint before_aux (sep : chars) (l : chars) : chars :=
  match l with
  | [] => []
  | c :: tl => if prefixb sep l then [] else c :: before_aux sep tl
  end.

Definition before (sep s : string) : string :=
  implode (before_aux (explode sep) (explode s)).

(** [s.title()]: a letter that follows a letter is lowered, any other
    letter is raised. *)
Fixpoint title_aux (prev_cased : bool) (l : chars) : chars :=
  match l with
  | [] => []
  | c :: tl =>
      if Chr.isalpha c
      then (if prev_cased then Chr.lower c else Chr.upper c) :: title_aux true tl
      else c :: title_aux false tl
  end.

Definition title (s : string) : string := implode (title_aux false (explode s)).

(** [str(n)] for an integer. *)
Definition of_Z (z : Z) : string := NilZero.string_of_int (Z.to_int z).

(** [s.zfill(w)] for an unsigned numeral. *)
Definition zfill (w : nat) (s : string) : string :=
  String.append (implode (repeat "0"%char (w - len s))) s.

End Str.

(** ** Regular expressions

    The fragment of Python's [re] syntax that the parser module uses:
    literals, [.], classes [[...]] with ranges and negation, the escapes
    [\d \w \s \S \b], anchors [^] and [$], groups [(...)], [(?:...)],
    look-ahead [(?=...)], alternation, and the quantifiers
    [* + ? {m} {m,} {m,n}] with their lazy forms. *)

Module Regex.

Inductive regex : Type :=
| REps
| RSet (neg : bool) (ranges : list (nat * nat))
| RDot
| RSeq (a b : regex)
| RAlt (a b : regex)
| RRep (greedy : bool) (lo : nat) (hi : option nat) (a : regex)
| RGroup (n : nat) (a : regex)
| RLookahead (a : regex)
| RBol
| REol
| RWordB.

Definition digit_ranges : list (nat * nat) := [(48, 57)].
Definition word_ranges : list (nat * nat) := [(97, 122); (65, 90); (48, 57); (95, 95)].
Definition space_ranges : list (nat * nat) := [(9, 13); (28, 31); (32, 32)].

Definition single (c : ascii) : list (nat * nat) := [(Chr.code c, Chr.code c)].

(** *** Pattern syntax *)

Fixpoint parse_nat (acc : nat) (l : chars) : nat * chars :=
  match l with
  | c :: tl => if Chr.isdigit c then parse_nat (10 * acc + (Chr.code c - 48)) tl else (acc, l)
  | [] => (acc, l)
  end.

(** The ranges denoted by an escape inside or outside a class; [None]
    for the escapes that are not character sets. *)
Definition escape_ranges (c : ascii) : option (bool * list (nat * nat)) :=
  if Chr.eqb c "d" then Some (false, digit_ranges)
  else if Chr.eqb c "w" then Some (false, word_ranges)
  else if Chr.eqb c "s" then Some (false, space_ranges)
  else if Chr.eqb c "S" then Some (true, space_ranges)
  else if Chr.isalpha c || Chr.isdigit c then None
  else Some (false, single c).

(** Items of a class up to the closing bracket. *)
Fixpoint parse_class (fuel : nat) (acc : list (nat * nat)) (l : chars)
  : option (list (nat * nat) * chars) :=
  match fuel with
  | O => None
  | S fuel' =>
      match l with
      | [] => None
      | c :: tl =>
          if Chr.eqb c "]" then Some (acc, tl)
          else if Chr.eqb c "\" then
            match tl with
            | e :: tl' =>
                match escape_ranges e with
                | Some (false, rs) => parse_class fuel' (acc ++ rs) tl'
                | _ => None
                end
            | [] => None
            end
          else
            match tl with
            | d :: hi :: tl' =>
                if Chr.eqb d "-" && negb (Chr.eqb hi "]")
                then parse_class fuel' (acc ++ [(Chr.code c, Chr.code hi)]) tl'
                else parse_class fuel' (acc ++ single c) tl
            | _ => parse_class fuel' (acc ++ single c) tl
            end
      end
  end.

(** A quantifier after an atom, if there is one. *)
Definition parse_quant (a : regex) (l : chars) : option (regex * chars) :=
  let lazy (lo : nat) (hi : option nat) (tl : chars) :=
    match tl with
    | q :: tl' => if Chr.eqb q "?" then (RRep false lo hi a, tl') else (RRep true lo hi a, tl)
    | [] => (RRep true lo hi a, tl)
    end in
  match l with
  | c :: tl =>
      if Chr.eqb c "*" then Some (lazy 0 None tl)
      else if Chr.eqb c "+" then Some (lazy 1 None tl)
      else if Chr.eqb c "?" then Some (lazy 0 (Some 1) tl)
      else if Chr.eqb c "{" then
        let '(lo, r1) := parse_nat 0 tl in
        match r1 with
        | x :: r2 =>
            if Chr.eqb x "}" then Some (lazy lo (Some lo) r2)
            else if Chr.eqb x "," then
              match r2 with
              | y :: r3 =>
                  if Chr.eqb y "}" then Some (lazy lo None r3)
                  else
                    let '(hi, r4) := parse_nat 0 r2 in
                    match r4 with
                    | z :: r5 => if Chr.eqb z "}" then Some (lazy lo (Some hi) r5) else None
                    | [] => None
                    end
              | [] => None
              end
            else None
        | [] => None
        end
      else Some (a, l)
  | [] => Some (a, l)
  end.

(** Recursive descent; [g] is the number of the next capturing group. *)
Fixpoint parse_alt (fuel : nat) (g : nat) (l : chars) {struct fuel}
  : option (regex * nat * chars) :=
  match fuel with
  | O => None
  | S fuel' =>
      let parse_atom (g : nat) (l : chars) : option (regex * nat * chars) :=
        match l with
        | [] => None
        | c :: tl =>
            if Chr.eqb c "(" then
              match tl with
              | q :: k :: tl' =>
                  if Chr.eqb q "?" then
                    if Chr.eqb k ":" then
                      match parse_alt fuel' g tl' with
                      | Some (r, g', p :: rest) =>
                          if Chr.eqb p ")" then Some (r, g', rest) else None
                      | _ => None
                      end
                    else if Chr.eqb k "=" then
                      match parse_alt fuel' g tl' with
                      | Some (r, g', p :: rest) =>
                          if Chr.eqb p ")" then Some (RLookahead r, g', rest) else None
                      | _ => None
                      end
                    else None
                  else
                    match parse_alt fuel' (S g) tl with
                    | Some (r, g', p :: rest) =>
                        if Chr.eqb p ")" then Some (RGroup g r, g', rest) else None
                    | _ => None
                    end
              | _ =>
                  match parse_alt fuel' (S g) tl with
                  | Some (r, g', p :: rest) =>
                      if Chr.eqb p ")" then Some (RGroup g r, g', rest) else None
                  | _ => None
                  end
              end
            else if Chr.eqb c "[" then
              match tl with
              | n :: tl' =>
                  if Chr.eqb n "^" then
                    match parse_class (S (List.length tl')) [] tl' with
                    | Some (rs, rest) => Some (RSet true rs, g, rest)
                    | None => None
                    end
                  else
                    match parse_class (S (List.length tl)) [] tl with
                    | Some (rs, rest) => Some (RSet false rs, g, rest)
                    | None => None
                    end
              | [] => None
              end
            else if Chr.eqb c "\" then
              match tl with
              | e :: rest =>
                  if Chr.eqb e "b" then Some (RWordB, g, rest)
                  else match escape_ranges e with
                       | Some (neg, rs) => Some (RSet neg rs, g, rest)
                       | None => None
                       end
              | [] => None
              end
            else if Chr.eqb c "." then Some (RDot, g, tl)
            else if Chr.eqb c "^" then Some (RBol, g, tl)
            else if Chr.eqb c "$" then Some (REol, g, tl)
            else if Chr.eqb c "*" || Chr.eqb c "+" || Chr.eqb c "?" then None
            else Some (RSet false (single c), g, tl)
        end in
      let fix parse_seq (n : nat) (acc : regex) (g : nat) (l : chars) {struct n}
        : option (regex * nat * chars) :=
        match n with
        | O => None
        | S n' =>
            match l with
            | [] => Some (acc, g, l)
            | c :: _ =>
                if Chr.eqb c "|" || Chr.eqb c ")" then Some (acc, g, l)
                else
                  match parse_atom g l with
                  | Some (a, g', rest) =>
                      match parse_quant a rest with
                      | Some (q, rest') =>
                          parse_seq n' (match acc with REps => q | _ => RSeq acc q end) g' rest'
                      | None => None
                      end
                  | None => None
                  end
            end
        end in
      match parse_seq (S (List.length l)) REps g l with
      | Some (a, g', c :: rest) =>
          if Chr.eqb c "|" then
            match parse_alt fuel' g' rest with
            | Some (b, g'', rest') => Some (RAlt a b, g'', rest')
            | None => None
            end
          else Some (a, g', c :: rest)
      | other => other
      end
  end.

(** [re.compile(pattern)]; [None] stands for [re.error]. *)
Definition compile (pattern : string) : option regex :=
  match parse_alt (S (Str.len pattern)) 1 (explode pattern) with
  | Some (r, _, []) => Some r
  | _ => None
  end.

End Regex.

(** *** Matching *)

Module Match.
Import Regex.

(** A position in the subject: the character before it, its index, the
    text after it and the spans of the groups closed so far. *)
Record mstate : Type := MState {
  m_prev : option ascii;
  m_pos : nat;
  m_rest : chars;
  m_caps : list (nat * (nat * nat))
}.

Definition start_state (l : chars) : mstate := MState None 0 l [].

Definition advance (st : mstate) (c : ascii) (tl : chars) : mstate :=
  MState (Some c) (S (m_pos st)) tl (m_caps st).

Definition set_cap (st : mstate) (n from to : nat) : mstate :=
  MState (m_prev st) (m_pos st) (m_rest st) ((n, (from, to)) :: m_caps st).

Definition in_ranges (rs : list (nat * nat)) (c : ascii) : bool :=
  existsb (fun r => Chr.between (fst r) (snd r) c) rs.

(** Membership in a class; with [re.IGNORECASE] a letter also matches
    through its other case. *)
Definition set_mem (icase neg : bool) (rs : list (nat * nat)) (c : ascii) : bool :=
  xorb neg (in_ranges rs c || (icase && in_ranges rs (Chr.swapcase c))).

Definition wordish (o : option ascii) : bool :=
  match o with Some c => Chr.isword c | None => false end.

Definition below (n : nat) (hi : option nat) : bool :=
  match hi with Some h => (n <? h)%nat | None => true end.

(** Backtracking matcher in continuation-passing style: [k] is what has
    to match after [r]. The first success in priority order wins. *)
Fixpoint run (icase : bool) (r : regex) (st : mstate)
    (k : mstate -> option mstate) {struct r} : option mstate :=
  match r with
  | REps => k st
  | RSet neg rs =>
      match m_rest st with
      | c :: tl => if set_mem icase neg rs c then k (advance st c tl) else None
      | [] => None
      end
  | RDot =>
      match m_rest st with
      | c :: tl => if (Chr.code c =? 10)%nat then None else k (advance st c tl)
      | [] => None
      end
  | RSeq a b => run icase a st (fun st' => run icase b st' k)
  | RAlt a b =>
      match run icase a st k with
      | Some res => Some res
      | None => run icase b st k
      end
  | RRep greedy lo hi a =>
      (fix loop (fuel count : nat) (st : mstate) {struct fuel} : option mstate :=
         match fuel with
         | O => None
         | S fuel' =>
             let more (_ : unit) :=
               if below count hi
               then run icase a st (fun st' =>
                      if (m_pos st' =? m_pos st)%nat then None
                      else loop fuel' (S count) st')
               else None in
             let stop (_ : unit) := if (lo <=? count)%nat then k st else None in
             if greedy
             then match more tt with Some res => Some res | None => stop tt end
             else match stop tt with Some res => Some res | None => more tt end
         end) (S (List.length (m_rest st))) 0%nat st
  | RGroup n a => run icase a st (fun st' => k (set_cap st' n (m_pos st) (m_pos st')))
  | RLookahead a =>
      match run icase a st (fun st' => Some st') with
      | Some _ => k st
      | None => None
      end
  | RBol => if (m_pos st =? 0)%nat then k st else None
  | REol =>
      match m_rest st with
      | [] => k st
      | [c] => if (Chr.code c =? 10)%nat then k st else None
      | _ => None
      end
  | RWordB =>
      if xorb (wordish (m_prev st)) (wordish (List.head (m_rest st))) then k st else None
  end.

(** A match: its span and the spans of its groups. *)
Record found : Type := Found {
  f_start : nat;
  f_end : nat;
  f_caps : list (nat * (nat * nat))
}.

Definition at_state (icase : bool) (r : regex) (st : mstate) : option found :=
  match run icase r (MState (m_prev st) (m_pos st) (m_rest st) []) (fun st' => Some st') with
  | Some st' => Some (Found (m_pos st) (m_pos st') (m_caps st'))
  | None => None
  end.

(** First match at or after a position. *)
Fixpoint scan (icase : bool) (r : regex) (st : mstate) (fuel : nat) : option found :=
  match at_state icase r st with
  | Some f => Some f
  | None =>
      match fuel, m_rest st with
      | S fuel', c :: tl => scan icase r (advance st c tl) fuel'
      | _, _ => None
      end
  end.

(** The state at index [n] of a subject. *)
Fixpoint state_at (st : mstate) (n : nat) : mstate :=
  match n, m_rest st with
  | S n', c :: tl => state_at (advance st c tl) n'
  | _, _ => st
  end.

(** All non-overlapping matches from left to right. After an empty
    match the scan resumes one character further. *)
Fixpoint scan_all (icase : bool) (r : regex) (st : mstate) (fuel : nat) : list found :=
  match fuel with
  | O => []
  | S fuel' =>
      match scan icase r st (List.length (m_rest st)) with
      | None => []
      | Some f =>
          let st' := state_at st (f_end f - m_pos st) in
          if (f_end f =? f_start f)%nat
          then match m_rest st' with
               | c :: tl => f :: scan_all icase r (advance st' c tl) fuel'
               | [] => [f]
               end
          else f :: scan_all icase r st' fuel'
      end
  end.

(** The text of group [n] of a match ([m.group(n)]); group 0 is the
    whole match, a group that took no part is [None]. *)
Definition group (subject : chars) (f : found) (n : nat) : option chars :=
  match n with
  | O => Some (firstn (f_end f - f_start f) (skipn (f_start f) subject))
  | _ =>
      match List.find (fun e => (fst e =? n)%nat) (f_caps f) with
      | Some (_, (a, b)) => Some (firstn (b - a) (skipn a subject))
      | None => None
      end
  end.

End Match.

(** *** The functions of the [re] module *)

Module re.
Import Regex Match.

(** A match object: the subject and what was found in it. *)
Record match_obj : Type := MatchObj { mo_subject : chars; mo_found : found }.

Definition start_ (m : match_obj) : nat := f_start (mo_found m).
Definition end_ (m : match_obj) : nat := f_end (mo_found m).
Definition group (m : match_obj) (n : nat) : string :=
  match Match.group (mo_subject m) (mo_found m) n with
  | Some l => implode l
  | None => ""
  end.

(** [re.match(pattern, s, flags)] *)
Definition match_ (icase : bool) (pattern : string) (s : string) : option match_obj :=
  match compile pattern with
  | Some r =>
      match at_state icase r (start_state (explode s)) with
      | Some f => Some (MatchObj (explode s) f)
      | None => None
      end
  | None => None
  end.

(** [re.search(pattern, s, flags)] *)
Definition search (icase : bool) (pattern : string) (s : string) : option match_obj :=
  match compile pattern with
  | Some r =>
      match scan icase r (start_state (explode s)) (Str.len s) with
      | Some f => Some (MatchObj (explode s) f)
      | None => None
      end
  | None => None
  end.

(** [list(re.finditer(pattern, s))] *)
Definition finditer (icase : bool) (pattern : string) (s : string) : list match_obj :=
  match compile pattern with
  | Some r =>
      List.map (MatchObj (explode s))
        (scan_all icase r (start_state (explode s)) (S (Str.len s)))
  | None => []
  end.

(** Expansion of a replacement template: [\1] to [\9] stand for groups. *)
Fixpoint expand (m : match_obj) (repl : chars) : chars :=
  match repl with
  | [] => []
  | b :: rest =>
      match rest with
      | d :: tl =>
          if Chr.eqb b "\" && Chr.isdigit d
          then explode (group m (Chr.code d - 48)) ++ expand m tl
          else b :: expand m rest
      | [] => [b]
      end
  end.

(** The subject with every match replaced. *)
Fixpoint rebuild (subject : chars) (repl : chars) (from : nat) (ms : list match_obj) : chars :=
  match ms with
  | [] => skipn from subject
  | m :: ms' =>
      firstn (start_ m - from) (skipn from subject)
        ++ expand m repl ++ rebuild subject repl (end_ m) ms'
  end.

(** [re.sub(pattern, repl, s, flags)] *)
Definition sub (icase : bool) (pattern repl : string) (s : string) : string :=
  implode (rebuild (explode s) (explode repl) 0 (finditer icase pattern s)).

(** Truth value of a match result. *)
Definition matches (o : option match_obj) : bool :=
  match o with Some _ => true | None => false end.

End re.

(** ** Numbers *)

Module Num.

(** [int(s)]: blanks around the numeral are dropped, a sign is allowed,
    and single underscores may separate digits. [None] is [ValueError]. *)
Fixpoint digits (acc : Z) (after_digit : bool) (l : chars) : option Z :=
  match l with
  | [] => if after_digit then Some acc else None
  | c :: tl =>
      if Chr.isdigit c then digits (10 * acc + Z.of_nat (Chr.code c - 48)) true tl
      else if Chr.eqb c "_" && after_digit then digits acc false tl
      else None
  end.

Definition int (s : string) : option Z :=
  match explode (Str.strip s) with
  | c :: tl =>
      if Chr.eqb c "-" then option_map Z.opp (digits 0 false tl)
      else if Chr.eqb c "+" then digits 0 false tl
      else digits 0 false (c :: tl)
  | [] => None
  end.

(** The binary64 number nearest to [n / d], ties to even, for [0 <= n]
    and [0 < d]: what [float] returns for a decimal numeral. *)
Definition nearest (n d : Z) : float :=
  match n, d with
  | Zpos p, Zpos q =>
      SF2Prim (SFdiv prec emax (S754_finite false p 0) (S754_finite false q 0))
  | _, _ => PrimFloat.zero
  end.

Fixpoint all_digits (l : chars) : bool :=
  match l with
  | [] => true
  | c :: tl => Chr.isdigit c && all_digits tl
  end.

Fixpoint digits_value (acc : Z) (l : chars) : Z :=
  match l with
  | [] => acc
  | c :: tl => digits_value (10 * acc + Z.of_nat (Chr.code c - 48)) tl
  end.

(** [float(s)] on the numerals the amount patterns deliver: digits, a
    point, digits, with at least one digit after the point. [None] is
    [ValueError]. *)
Definition float_of_str (s : string) : option float :=
  match Str.split_chr "." (explode s) with
  | [ip; fp] =>
      if all_digits ip && all_digits fp && negb (Nat.eqb (List.length fp) 0)
      then Some (nearest (digits_value 0 (ip ++ fp)) (10 ^ Z.of_nat (List.length fp)))
      else None
  | _ => None
  end.

(** [0.02], the nearest binary64 number. *)
Definition two_cents : float := 0x1.47ae147ae147bp-6%float.

(** [x > 0] *)
Definition positive (x : float) : bool := PrimFloat.ltb PrimFloat.zero x.

(** Truth value of a float: anything but zero. *)
Definition truthy (x : float) : bool := negb (PrimFloat.eqb x PrimFloat.zero).

End Num.

(** ** Data model *)

(** The value under an amount key: a float, or Python's [None]. *)
Inductive num : Type :=
| NoneVal
| Num (x : float).

(** A transaction dictionary. A field is [None] when the key is absent. *)
Record Transaction : Type := mkTransaction {
  Transaction_Date : option string;
  Place : option string;
  Place_Original : option string;
  Amount : option num;
  Balance : option num;
  Debits : option num;
  Credits : option num;
  _extraction_method : option string;
  _manual_review : option bool
}.

Definition empty_dict : Transaction :=
  mkTransaction None None None None None None None None None.

Definition is_some {A} (o : option A) : bool :=
  match o with Some _ => true | None => false end.

(** Truth value of a dictionary: it has a key. *)
Definition dict_truthy (t : Transaction) : bool :=
  is_some (Transaction_Date t) || is_some (Place t) || is_some (Place_Original t)
  || is_some (Amount t) || is_some (Balance t) || is_some (Debits t)
  || is_some (Credits t) || is_some (_extraction_method t) || is_some (_manual_review t).

Definition set_Place (v : string) (t : Transaction) : Transaction :=
  mkTransaction (Transaction_Date t) (Some v) (Place_Original t) (Amount t) (Balance t)
    (Debits t) (Credits t) (_extraction_method t) (_manual_review t).

Definition set_Place_Original (v : string) (t : Transaction) : Transaction :=
  mkTransaction (Transaction_Date t) (Place t) (Some v) (Amount t) (Balance t)
    (Debits t) (Credits t) (_extraction_method t) (_manual_review t).

Definition set_extraction_method (v : string) (t : Transaction) : Transaction :=
  mkTransaction (Transaction_Date t) (Place t) (Place_Original t) (Amount t) (Balance t)
    (Debits t) (Credits t) (Some v) (_manual_review t).

Definition set_manual_review (v : bool) (t : Transaction) : Transaction :=
  mkTransaction (Transaction_Date t) (Place t) (Place_Original t) (Amount t) (Balance t)
    (Debits t) (Credits t) (_extraction_method t) (Some v).

(** [t.get(key, default)] *)
Definition get {A} (field : option A) (default : A) : A :=
  match field with Some v => v | None => default end.

(** The parser object. The configuration lists and the availability flag
    are fixed at construction; [merchant_cache] is the one attribute of
    this record that the modelled methods write. The attributes
    [pdf_converter] and [text_extractor], which [extract_text_dual_method]
    sets when it first runs OCR, belong to the production of the two
    texts and are not fields of the record; nothing below speaks of them.
    The last three fields are the environment:
    the text of the reply of the generation endpoint to prompt [idx] of
    [llm_clean_merchant_name] (no reply: [None]), the same for the prompt
    of [llm_classify_transaction], and the year of the clock. *)
Record HybridPDFParser : Type := mkParser {
  income_keywords : list string;
  transfer_keywords : list string;
  payment_apps : list string;
  llm_available : bool;
  merchant_cache : gmap string string;
  llm_generate : nat -> string -> num -> option string -> option string;
  llm_classify_reply : string -> num -> option string;
  current_year : Z
}.

Definition set_merchant_cache (c : gmap string string) (self : HybridPDFParser)
  : HybridPDFParser :=
  mkParser (income_keywords self) (transfer_keywords self) (payment_apps self)
    (llm_available self) c (llm_generate self) (llm_classify_reply self)
    (current_year self).

(** Raised exceptions. *)
Inductive outcome (A : Type) : Type :=
| Ok (a : A)
| TypeError.
Arguments Ok {A} a.
Arguments TypeError {A}.

(** ** Language-model assistance

    The three replies of the service come from [llm_generate]; what the
    module does with them is modelled from the source. *)

Definition dquote : ascii := ascii_of_nat 34.
Definition newline : ascii := ascii_of_nat 10.

(** The first element of a list that satisfies a test, as used by the
    [for ... if ...: ...; break] loops of the module. *)
Definition first_such {A} (p : A -> bool) (l : list A) : option A := List.find p l.

Definition _clean_llm_response (result original : string) : option string :=
  if Str.len result =? 0 then None else
  let result := Str.strip (Str.replace_chr "'" "" (Str.replace_chr dquote "" result)) in
  let result :=
    if Str.any (Chr.eqb newline) result
    then Str.strip (List.nth 0 (Str.split_on newline result) "")
    else result in
  let markers := [" Merchant:"; " Business:"; " Name:"; " Clean name:";
                  " Input:"; " Transaction:"; " Examples:"; " REMOVE"] in
  let result :=
    match first_such (fun marker => Str.contains marker result) markers with
    | Some marker => Str.strip (Str.before marker result)
    | None => result
    end in
  let artifact_prefixes :=
    ["SQ*"; "SQ *"; "TST*"; "TST *"; "WL*"; "WL *"; "YSI*"; "YSI *"; "XX"; "POS "] in
  let result :=
    fold_left (fun result prefix =>
                 if Str.startswith (Str.upper result) (Str.upper prefix)
                 then Str.strip (Str.drop (Str.len prefix) result)
                 else result)
      artifact_prefixes result in
  let result :=
    Str.strip (Str.strip_by (Chr.eqb "*")
      (Str.replace " *" " " (Str.replace "* " " " result))) in
  let words := Str.words result in
  let result :=
    if 4 <? List.length words then
      let known_chains := ["Home"; "Depot"; "Cash"; "App"; "Grand"; "Junction";
                           "Coborns"; "Coborn"; "Wine"; "More"] in
      match first_such
              (fun i => existsb (String.eqb (List.nth i words "")) known_chains && (2 <? i))
              (seq 2 (List.length words - 2)) with
      | Some i => Str.join " " (firstn i words)
      | None => result
      end
    else result in
  let prefixes_to_remove :=
    ["Output:"; "Answer:"; "Result:"; "Clean name:"; "Business:"; "Business name:";
     "Name:"; "The business name is:"; "Merchant:"; "Extract:"; "Transaction:";
     "Critical rules:"; "Critical Rules Applied:"; "Rules for extraction:";
     "Examples:"; "You are"; "Based on"; "Simplify:"; "Input:"; "REMOVE ALL:";
     "KEEP:"; "MUST REMOVE:"; "STANDARDIZE:"] in
  let result :=
    fold_left (fun result prefix =>
                 if Str.startswith (Str.lower result) (Str.lower prefix)
                 then Str.strip (Str.lstrip_chr ":" (Str.strip (Str.drop (Str.len prefix) result)))
                 else result)
      prefixes_to_remove result in
  if existsb (fun keyword => Str.contains keyword (Str.lower result))
       ["transaction text"; "extract the"; "business name"; "one line";
        "merchant name"; "simplify this"; "remove:"; "fix:"; "remove all";
        "must remove"; "keep:"; "standardize:"]
  then None
  else if negb (Str.len result =? 0) && (3 <=? Str.len result) && (Str.len result <=? 60)
          && Str.any Chr.isalpha result
  then if String.eqb (Str.lower result) (Str.lower original) then None else Some result
  else None.

Definition bool_Z (b : bool) (z : Z) : Z := if b then z else 0%Z.

Definition _calculate_confidence (result original : string) (prompt_idx : nat) : Z :=
  let confidence := 50%Z in
  let confidence :=
    if (3 <=? Str.len result) && (Str.len result <=? 30) then (confidence + 20)%Z
    else if 30 <? Str.len result then (confidence - 10)%Z
    else confidence in
  let confidence :=
    match Str.head result with
    | Some c => if Chr.isupper c then (confidence + 10)%Z else confidence
    | None => confidence
    end in
  let confidence :=
    if negb (String.eqb (Str.lower result) (Str.lower original))
    then (confidence + 15)%Z else confidence in
  let confidence := if Str.contains " " result then (confidence + 10)%Z else confidence in
  let bad_words := ["PURCHASE"; "RECUR"; "POS"; "ACH"; "WEB"; "PMTS"] in
  let confidence :=
    if negb (existsb (fun word => Str.contains word (Str.upper result)) bad_words)
    then (confidence + 15)%Z else (confidence - 20)%Z in
  let confidence := if prompt_idx =? 2 then (confidence + 10)%Z else confidence in
  Z.max 0 (Z.min 100 confidence).

(** [scores.index(max(scores))]: the position of the first greatest score. *)
Fixpoint index_of_max (scores : list Z) : nat :=
  match scores with
  | [] => 0
  | s :: rest =>
      if forallb (fun s' => (s' <=? s)%Z) rest then 0 else S (index_of_max rest)
  end.

Definition _cross_validate_merchant_names_weighted
    (results : list string) (confidences : list Z) (original : string) : string :=
  match results with
  | [] => original
  | first :: _ =>
      if List.length (nodup string_dec (List.map Str.lower results)) =? 1 then first
      else
        let score_of (idx : nat) (result : string) : Z :=
          let score := 0%Z in
          let score := (score + List.nth idx confidences 0)%Z in
          let location_words :=
            ["fargo"; "west"; "east"; "north"; "south"; "saint"; "st ";
             "albany"; "moorhead"; "alexandria"; "savage"; "oakland";
             " nd"; " mn"; " ca"; " wa"; " va"; " me"; " sd"; " ny"] in
          let score :=
            if existsb (fun loc => Str.contains loc (Str.lower result)) location_words
            then (score - 50)%Z else score in
          let score :=
            if existsb (fun word => Str.contains word (Str.upper result))
                 ["PURCHASE"; "RECUR"; "POS"; "WL*"]
            then (score - 30)%Z else score in
          let result_len := Str.len result in
          let score :=
            if (5 <=? result_len) && (result_len <=? 25) then (score + 15)%Z
            else if 35 <? result_len then (score - 10)%Z
            else score in
          let word_count := List.length (Str.words result) in
          let score :=
            if (2 <=? word_count) && (word_count <=? 3) then (score + 10)%Z
            else if 5 <? word_count then (score - 10)%Z
            else score in
          score in
        let scores :=
          List.map (fun p => score_of (fst p) (snd p))
            (combine (seq 0 (List.length results)) results) in
        List.nth (index_of_max scores) results original
  end.

Definition llm_clean_merchant_name (self : HybridPDFParser)
    (merchant : string) (amount : num) (date : option string) : string :=
  if negb (llm_available self) then merchant else
  let step (acc : list string * list Z) (idx : nat) : list string * list Z :=
    match llm_generate self idx merchant amount date with
    | Some response =>
        match _clean_llm_response (Str.strip response) merchant with
        | Some result =>
            ((fst acc ++ [result])%list, (snd acc ++ [_calculate_confidence result merchant idx])%list)
        | None => acc
        end
    | None => acc
    end in
  let '(results, confidences) := fold_left step [0; 1; 2] ([], []) in
  if 2 <=? List.length results
  then _cross_validate_merchant_names_weighted results confidences merchant
  else match results with
       | [r] => r
       | _ => merchant
       end.

(** ** Merchant-name normalisation *)

Definition _normalize_llm_output (name : string) : string :=
  if Str.len name =? 0 then name else
  let artifacts :=
    ["\(No location information.*?\)";
     "\(No location.*?\)";
     "No location information provided.*";
     "Yes, the transaction name is:?";
     "The transaction name is:?";
     "A fun one!";
     "A fun transaction!";
     "the transaction details:"] in
  let name := fold_left (fun name pattern => re.sub true pattern "" name) artifacts name in
  let name := Str.strip name in
  let name := re.sub false "^[,\s]+|[,\s]+$" "" name in
  let name :=
    if Str.isupper name && (3 <? Str.len name) then
      if (Str.len name <=? 4) && Str.isalpha name then name else Str.title name
    else name in
  let name := if Str.startswith (Str.upper name) "THE " then Str.drop 4 name else name in
  let name :=
    if negb (Str.contains " " name) && Str.any Chr.isupper (Str.drop 1 name)
    then re.sub false "([a-z])([A-Z])" "\1 \2" name
    else name in
  let extra_words :=
    ["Purchase"; "Supercenter"; "Store"; "Location"; "Branch";
     "Retailer"; "LLC"; "Inc"; "Corporation"; "Company"] in
  let name :=
    fold_left (fun name word =>
                 if Str.endswith name (String.append " " word)
                 then Str.strip (Str.take (Str.len name - Str.len word - 1) name)
                 else name)
      extra_words name in
  Str.strip name.

(** What a rule of the payment-processor table does. *)
Inductive processor_action : Type :=
| Return (value : string)
| Extract (pattern : string)
| Strip (pattern : string).

Definition processor_patterns : list (string * processor_action) :=
  [("^SQSP\s*\*", Return "Squarespace");
   ("^CASH\s+APP\s*\*", Return "Cash App");
   ("^BP[#\d]", Return "BP");
   ("^SQ\s*\*", Extract "SQ\s*\*\s*([A-Z][A-Z0-9&\s]+)");
   ("^WL\s*\*", Strip "^WL\s*\*\s*")].

(** The loop over the table: [inl v] when a rule returns [v] from the
    whole function, [inr name] when the function goes on with [name]. *)
Fixpoint apply_processors (table : list (string * processor_action)) (name : string)
  : string + string :=
  match table with
  | [] => inr name
  | (pattern, action) :: rest =>
      if re.matches (re.match_ true pattern name) then
        match action with
        | Return value => inl value
        | Extract value =>
            match re.search true value name with
            | Some m => inr (Str.strip (re.group m 1))
            | None => inr (Str.strip (re.sub true pattern "" name))
            end
        | Strip value => inr (Str.strip (re.sub true value "" name))
        end
      else apply_processors rest name
  end.

(** [name.split('*', 1)] when it has two parts. *)
Definition split_star (name : string) : option (string * string) :=
  if Str.contains "*" name
  then let before := Str.before "*" name in
       Some (before, Str.drop (S (Str.len before)) name)
  else None.

Definition _clean_merchant_name (self : HybridPDFParser) (name : string) : string :=
  if Str.len name <? 3 then name else
  let original := name in
  if re.matches (re.match_ false "^\$[\d,]+\.?\d*\s+AT\s+\d{1,2}:\d{2}" name)
  then "ATM Withdrawal" else
  let name := re.sub false "\bXX+\d{4}\b" "" name in
  let name := re.sub true "^(Gino|Jaison|jazionn)\s+" "" name in
  let name := re.sub true "^(Payment\.ACH|Payment\.|ACH\s+)" "" name in
  let name := re.sub false "^[=\-><]\s+" "" name in
  let name :=
    re.sub true "^(RECUR\.?\s*PURCHASE\.?\s*|POS\s+(?:PURCHASE\s+)?AT\s+|PURCHASE\s+AT\s+)"
      "" name in
  let name := re.sub true "\s+RECUR\s+PURCHASE\.?\s*" " " name in
  let name := re.sub false "^\d{1,2}\s+" "" name in
  let name := re.sub false "(\w)(\d{3,})(?=\s|$)" "\1" name in
  let name := re.sub false "\s+[A-Z0-9]{1,2}$" "" name in
  let name := re.sub false "\s*\d{3}-\d{3}-\d{4}" "" name in
  let name := re.sub false "\s+\d{10}\b" "" name in
  let name := re.sub false "\s+\d{3}-\d{7}" "" name in
  let name := re.sub false "\s+[A-Z0-9]{10,}\b" "" name in
  let name := re.sub false "\s+[a-f0-9]{8,}\b" "" name in
  let name := re.sub false "\s+\d{8,}\b" "" name in
  match apply_processors processor_patterns name with
  | inl value => value
  | inr name =>
      let name := re.sub true "\s+WEB[ _](?:PMTS?|PAY)\s+\S+" "" name in
      let name := re.sub false "\s*#\s*\d+" "" name in
      let name := re.sub false "[-\s]+[A-Z]{5,}$" "" name in
      let name := re.sub false "\s+\d{3}-\d{7}$" "" name in
      let name := re.sub false "%[^%]+%" "" name in
      let name := re.sub false "\s+\d{4,5}$" "" name in
      let name := re.sub false "\s+[A-Z][a-z]+\s+[A-Z]{2}$" "" name in
      let name := re.sub false "\s+[A-Z]{2}\s*\d*$" "" name in
      let name := re.sub true "^(?:TST|SQ|PAW)\s*-\s*" "" name in
      let name := re.sub false "\s+\d+\s+[A-Z]{2}\s+\d+$" "" name in
      let name := re.sub false "\s+\d{3}-\d+$" "" name in
      let name := re.sub true "\s+OIL$" "" name in
      let name :=
        match split_star name with
        | Some (p0, p1) => String.append (Str.strip p0) (String.append " " (Str.strip p1))
        | None => name
        end in
      let name := re.sub true "\s+Help\.\w+\.Com" "" name in
      let name := re.sub true "\s+Hwy\s+\d+" "" name in
      let name := re.sub false "\s+-\s*$" "" name in
      let name := re.sub false "^\s*-\s+" "" name in
      let name := re.sub false "\s+[A-Z]\d+[A-Z]$" "" name in
      let name := re.sub false "\s+[A-Z]{1,2}$" "" name in
      let name := Str.strip (re.sub false "\s+" " " name) in
      let name := re.sub false "\s+\d+$" "" name in
      let name :=
        if (15 <? Str.len name) && Str.isupper name && negb (Str.contains " " (Str.take 10 name))
        then re.sub false "([a-z])([A-Z])" "\1 \2"
               (re.sub false "([A-Z])AND([A-Z])" "\1 AND \2" name)
        else name in
      let llm_result :=
        if llm_available self && (3 <? Str.len name) then
          let cleaned := llm_clean_merchant_name self name NoneVal None in
          if negb (Str.len cleaned =? 0) && negb (String.eqb cleaned name)
             && (3 <=? Str.len cleaned)
          then Some cleaned else None
        else None in
      match llm_result with
      | Some cleaned => cleaned
      | None =>
          let name := re.sub false "([a-z])([A-Z])" "\1 \2" name in
          let words := Str.words name in
          let cleaned_words :=
            List.map (fun word =>
                        if existsb (String.eqb (Str.upper word))
                             ["ATM"; "POS"; "ACH"; "USA"; "LLC"; "INC"; "BP"; "ND"; "MN"]
                        then Str.upper word
                        else if (2 <? Str.len word) && Str.isupper word then Str.title word
                        else word)
              words in
          let name := Str.join " " cleaned_words in
          if Str.len name <? 3 then original else Str.strip name
      end
  end.

(** The key under which a raw name is cached: [name.upper().strip()]. *)
Definition cache_key_of (name : string) : string := Str.strip (Str.upper name).

(** The entry point of normalisation; it reads and writes the cache. *)
Definition _clean_merchant_name_with_context (self : HybridPDFParser)
    (name : string) (amount : num) (date : option string)
  : string * HybridPDFParser :=
  if Str.len name <? 3 then (name, self) else
  let original := name in
  let cache_key := cache_key_of name in
  match merchant_cache self !! cache_key with
  | Some cached => (cached, self)
  | None =>
      let name := _clean_merchant_name self name in
      let refined :=
        if llm_available self && (3 <? Str.len name) then
          let context_cleaned := llm_clean_merchant_name self name amount date in
          if negb (Str.len context_cleaned =? 0) && negb (String.eqb context_cleaned name)
             && (3 <=? Str.len context_cleaned)
          then
            let context_cleaned := _normalize_llm_output context_cleaned in
            if 3 <=? Str.len context_cleaned then Some context_cleaned else None
          else None
        else None in
      match refined with
      | Some context_cleaned =>
          (context_cleaned,
           set_merchant_cache (<[cache_key := context_cleaned]> (merchant_cache self)) self)
      | None =>
          if negb (String.eqb name original)
          then (name, set_merchant_cache (<[cache_key := name]> (merchant_cache self)) self)
          else (name, self)
      end
  end.

(** ** The transaction-block parser *)

Definition extract_statement_year (self : HybridPDFParser) (text : string) : Z :=
  let text_lower := Str.lower text in
  let patterns :=
    ["(?:billing cycle|statement).*?ending.*?\d{1,2}/\d{1,2}/(\d{4})";
     "statement closing date.*?\d{1,2}/\d{1,2}/(\d{2,4})";
     "statement date.*?\d{1,2}/\d{1,2}/(\d{4})";
     "forbilling cycleending \d{1,2}/\d{1,2}/(\d{2})";
     "for billing cycle ending \d{1,2}/\d{1,2}/(\d{2})"] in
  let fix go (ps : list string) : Z :=
    match ps with
    | [] => current_year self
    | pattern :: rest =>
        match re.search false pattern text_lower with
        | Some m =>
            let year_str := re.group m 1 in
            if Str.len year_str =? 2
            then (2000 + get (Num.int year_str) 0)%Z
            else get (Num.int year_str) 0%Z
        | None => go rest
        end
    end in
  go patterns.

(** The month corrections of the OCR repair. *)
Definition corrections (month : Z) : option Z :=
  if (month =? 42)%Z then Some 12%Z
  else if (month =? 41)%Z then Some 11%Z
  else if (month =? 40)%Z then Some 10%Z
  else if (month =? 14)%Z then Some 11%Z
  else if (month =? 13)%Z then Some 11%Z
  else None.

Definition _fix_ocr_date_errors (date_str : string) : string :=
  if negb (Str.contains "/" date_str) then date_str else
  let parts := Str.split_on "/" date_str in
  if List.length parts <? 2 then date_str else
  match Num.int (List.nth 0 parts "") with
  | None => date_str
  | Some month =>
      if (12 <? month)%Z then
        match corrections month with
        | Some corrected_month =>
            Str.join "/"
              (Str.zfill (if (10 <=? month)%Z then 2 else 1) (Str.of_Z corrected_month)
               :: List.tl parts)
        | None =>
            if (1 <? month / 10)%Z then
              let second_digit := (month mod 10)%Z in
              if (second_digit <=? 2)%Z
              then Str.join "/" (Str.of_Z (10 + second_digit) :: List.tl parts)
              else date_str
            else date_str
        end
      else date_str
  end.

Definition date_pattern_long : string := "^(\d{1,2}/\d{1,2}/\d{4})".
Definition date_pattern_short : string := "^(\d{1,2}/\d{1,2}/\d{2})".
Definition date_pattern_dash : string := "^(\d{1,2}-\d{1,2})\s".

(** The amounts of a line: every match of the currency pattern, read as a
    float after its commas are removed. *)
Definition extract_amounts (rest : string) : list float :=
  flat_map (fun m =>
              match Num.float_of_str (Str.replace_chr "," "" (re.group m 1)) with
              | Some x => [x]
              | None => []
              end)
    (re.finditer false "\$?([0-9,]+\.\d{2})" rest).

(** The text of a line between the matches of a list. *)
Fixpoint without_matches (description : string) (last_end : nat) (ms : list re.match_obj)
  : string :=
  match ms with
  | [] => Str.drop last_end description
  | m :: ms' =>
      String.append (Str.slice last_end (re.start_ m) description)
        (without_matches description (re.end_ m) ms')
  end.

Definition starts_with_date (line : string) : bool :=
  re.matches (re.match_ false date_pattern_long line)
  || re.matches (re.match_ false date_pattern_short line)
  || re.matches (re.match_ false date_pattern_dash line).

Definition non_empty (s : string) : bool := negb (Str.len s =? 0).

Definition _build_transaction (self : HybridPDFParser)
    (date : string) (description : string) (amounts : list float)
  : option Transaction * HybridPDFParser :=
  let description := Str.strip (Str.join " " (Str.words description)) in
  let desc_upper := Str.upper description in
  let garbage_patterns :=
    ["DATE AMOUNT"; "DESCRIPTION DEBITS CREDITS"; "POST DATE"; "TRANS DATE";
     "REFERENCE"; "PAGE"; "ACCOUNT STATEMENTS"; "STATEMENT ENDING";
     "CUSTOMER NUMBER"; "CHECKING ACCOUNT"; "SAVINGS ACCOUNT"; "DAILY BALANCE";
     "DATE AMOUNT DATE AMOUNT"; "BEGINNING BALANCE"; "ENDING BALANCE"] in
  if existsb (fun pattern => Str.contains pattern desc_upper) garbage_patterns
  then (None, self) else
  let words := Str.words description in
  if (List.length words =? 1) && (Str.len description <? 4) then (None, self) else
  if (Str.len description <? 3) || negb (Str.any Chr.isalpha description)
  then (None, self) else
  let original_description := description in
  let amount := match amounts with a :: _ => Num a | [] => NoneVal end in
  let '(description, self) :=
    _clean_merchant_name_with_context self description amount (Some date) in
  let trans (amount balance debits credits : option num) : Transaction :=
    mkTransaction (Some date) (Some description) (Some original_description)
      amount balance debits credits None None in
  let trans :=
    match amounts with
    | [] => trans None None None None
    | [a0] => trans (Some (Num a0)) None None None
    | [a0; a1] => trans (Some (Num a0)) (Some (Num a1)) None None
    | a0 :: a1 :: a2 :: _ =>
        trans None (Some (Num a2))
          (Some (if Num.positive a0 then Num a0 else NoneVal))
          (Some (if Num.positive a1 then Num a1 else NoneVal))
    end in
  (Some trans, self).

(** A line followed by more description text: letters, no dollar sign. *)
Definition is_continuation (line : string) : bool :=
  Str.any Chr.isalpha line && negb (Str.contains "$" line).

Definition parse_transaction_block (self : HybridPDFParser)
    (lines : list string) (start_idx : nat) (statement_year : option Z)
  : (option Transaction * nat) * HybridPDFParser :=
  let statement_year := get statement_year (current_year self) in
  if List.length lines <=? start_idx then ((None, 0), self) else
  let current_line := Str.strip (List.nth start_idx lines "") in
  if negb (non_empty current_line) then ((None, 1), self) else
  let dated : option (re.match_obj * string) :=
    match re.match_ false date_pattern_long current_line with
    | Some m => Some (m, re.group m 1)
    | None =>
        match re.match_ false date_pattern_short current_line with
        | Some m =>
            let date_parts := Str.split_on "/" (re.group m 1) in
            Some (m, Str.join "" [List.nth 0 date_parts ""; "/"; List.nth 1 date_parts "";
                                  "/20"; List.nth 2 date_parts ""])
        | None =>
            match re.match_ false date_pattern_dash current_line with
            | Some m =>
                let date_str := re.group m 1 in
                let month_day := Str.replace_chr "-" "/" date_str in
                Some (m, Str.join "" [month_day; "/"; Str.of_Z statement_year])
            | None => None
            end
        end
    end in
  match dated with
  | Some (date_match, trans_date) =>
      let trans_date :=
        if non_empty trans_date then _fix_ocr_date_errors trans_date else trans_date in
      let rest := Str.strip (Str.drop (re.end_ date_match) current_line) in
      let second_date_match :=
        match re.match_ false date_pattern_short rest with
        | Some m => Some m
        | None =>
            match re.match_ false date_pattern_long rest with
            | Some m => Some m
            | None => re.match_ false date_pattern_dash rest
            end
        end in
      let rest :=
        match second_date_match with
        | Some m => Str.strip (Str.drop (re.end_ m) rest)
        | None => rest
        end in
      let rest :=
        match re.match_ false "^(\d{17,})\s+" rest with
        | Some ref_match => Str.strip (Str.drop (re.end_ ref_match) rest)
        | None => rest
        end in
      let amounts := extract_amounts rest in
      let description := rest in
      let amount_matches := re.finditer false "\$?[0-9,]+\.\d{2}" description in
      let description :=
        match amount_matches with
        | [] => description
        | _ => without_matches description 0 amount_matches
        end in
      let description := re.sub false "\d{17,}" "" description in
      let description := Str.strip (Str.join " " (Str.words description)) in
      let description :=
        if negb (non_empty description) || (Str.len description <? 3)
           || negb (Str.any Chr.isalpha description)
        then
          if 0 <? start_idx then
            let prev_line := Str.strip (List.nth (start_idx - 1) lines "") in
            let has_date := starts_with_date prev_line in
            let is_time := re.matches (re.match_ false "^\d{1,2}:\d{2}$" prev_line) in
            if non_empty prev_line && negb has_date && negb is_time
               && Str.any Chr.isalpha prev_line && (5 <? Str.len prev_line)
            then prev_line else description
          else description
        else description in
      let '(description, lines_consumed) :=
        if start_idx + 1 <? List.length lines then
          let next_line := Str.strip (List.nth (start_idx + 1) lines "") in
          let has_date := starts_with_date next_line in
          if non_empty next_line && negb has_date && is_continuation next_line
          then (String.append description (String.append " " next_line), 2)
          else (description, 1)
        else (description, 1) in
      if negb (non_empty description) || (List.length amounts =? 0)
      then ((None, lines_consumed), self)
      else
        let '(trans, self) := _build_transaction self trans_date description amounts in
        ((trans, lines_consumed), self)
  | None =>
      if negb (Str.any Chr.isalpha current_line) then ((None, 1), self) else
      let description := current_line in
      let description := re.sub false "\s+\d{1,2}/\d{1,2}/\d{2,4}$" "" description in
      if List.length lines <=? start_idx + 1 then ((None, 1), self) else
      let next_line := Str.strip (List.nth (start_idx + 1) lines "") in
      match re.match_ false "^(\d{1,2}/\d{1,2}/\d{4})" next_line with
      | None => ((None, 1), self)
      | Some date_match =>
          let trans_date := re.group date_match 1 in
          let rest := Str.strip (Str.drop (re.end_ date_match) next_line) in
          let amounts := extract_amounts rest in
          if List.length amounts =? 0 then ((None, 2), self) else
          let '(description, lines_consumed) :=
            if start_idx + 2 <? List.length lines then
              let third_line := Str.strip (List.nth (start_idx + 2) lines "") in
              if non_empty third_line
                 && negb (re.matches (re.match_ false "^\d{1,2}/\d{1,2}/\d{4}" third_line))
                 && is_continuation third_line
              then (String.append description (String.append " " third_line), 3)
              else (description, 2)
            else (description, 2) in
          let '(trans, self) :=
            _build_transaction self trans_date description amounts in
          ((trans, lines_consumed), self)
      end
  end.

Definition any_in (markers : list string) (line : string) : bool :=
  existsb (fun marker => Str.contains marker line) markers.

Definition section_start_markers : list string :=
  ["ACCOUNT ACTIVITY"; "TRANSACTION HISTORY"; "TRANSACTIONS";
   "POST DATE"; "TRANS DATE"; "POSTING"; "DESCRIPTION OF TRANSACTION"].

Definition section_end_markers : list string :=
  ["TOTAL DEBITS"; "TOTAL CREDITS"; "INTEREST SUMMARY"; "FEES SUMMARY";
   "PAGE 2"; "PAGE 3"; "PAGE 4"; "STATEMENT CLOSING"; "IMPORTANT INFORMATION";
   "OVERDRAFT"; "DIRECT DEPOSIT"; "INTEREST RATE"; "DAILY BALANCES";
   "DAILY BALANCE"; "ENDING BALANCE"].

Definition summary_markers : list string :=
  ["BEGINNING BALANCE"; "ENDING BALANCE"; "CREDIT(S) THIS PERIOD";
   "DEBIT(S) THIS PERIOD"; "INTEREST PAID"; "ANNUAL PERCENTAGE";
   "INTEREST DAYS"; "INTEREST EARNED FROM"].

Definition header_markers : list string :=
  ["POST DATE DESCRIPTION"; "DATE DESCRIPTION DEBITS"; "TRANS DATE"; "REFERENCE"].

(** The [while i < len(lines)] loop of [parse_transactions]. Every turn
    moves [i] forward, so [fuel] turns are enough when [fuel] is the number
    of lines left; [None] means the fuel ran out. *)
Fixpoint parse_loop (fuel : nat) (self : HybridPDFParser) (lines : list string)
    (statement_year : Z) (i : nat) (in_transaction_section : bool)
    (transactions : list Transaction) {struct fuel}
  : option (list Transaction * HybridPDFParser) :=
  if List.length lines <=? i then Some (transactions, self) else
  match fuel with
  | O => None
  | S fuel' =>
      let line := Str.strip (List.nth i lines "") in
      let line_upper := Str.upper line in
      if any_in section_start_markers line_upper
      then parse_loop fuel' self lines statement_year (i + 1) true transactions
      else if in_transaction_section && any_in section_end_markers line_upper
      then parse_loop fuel' self lines statement_year (i + 1) false transactions
      else if any_in summary_markers line_upper
      then parse_loop fuel' self lines statement_year (i + 1)
             in_transaction_section transactions
      else if any_in header_markers line_upper
      then parse_loop fuel' self lines statement_year (i + 1)
             in_transaction_section transactions
      else if negb in_transaction_section
              && negb (re.matches (re.match_ false "^\d{1,2}[/-]\d{1,2}" line))
      then parse_loop fuel' self lines statement_year (i + 1)
             in_transaction_section transactions
      else
        let '((trans, consumed), self) :=
          parse_transaction_block self lines i (Some statement_year) in
        let transactions :=
          match trans with
          | Some t =>
              if dict_truthy t && non_empty (get (Place t) "")
              then (transactions ++ [t])%list else transactions
          | None => transactions
          end in
        parse_loop fuel' self lines statement_year
          (i + (if 0 <? consumed then consumed else 1))
          in_transaction_section transactions
  end.

Definition parse_transactions (self : HybridPDFParser)
    (text : string) (statement_year : option Z)
  : option (list Transaction * HybridPDFParser) :=
  let statement_year :=
    match statement_year with
    | Some y => y
    | None => extract_statement_year self text
    end in
  let lines := Str.split_on newline text in
  parse_loop (List.length lines) self lines statement_year 0 false [].

(** ** The extraction validator *)

(** What the validator can complain about; the source renders these as
    sentences with the ratio as a percentage. *)
Inductive issue : Type :=
| No_transactions_found
| Few_valid_dates (valid total : nat)
| Few_valid_amounts (valid total : nat)
| Few_valid_descriptions (valid total : nat)
| Very_few_transactions (total : nat)
| Many_duplicates (unique total : nat).

Record validation : Type := mkValidation {
  valid : bool;
  score : Z;
  transaction_count : nat;
  issues : list issue;
  method : option string
}.

(** [k / n < p / q] for counts [k], [n] and the decimal [p / q]. The
    source divides in binary64 and compares with the binary constant; the
    outcome is that of the exact comparison as long as [n] is below
    [10^15]. *)
Definition ratio_below (k n p q : nat) : bool := q * k <? p * n.

(** [sum(1 for t in transactions if test(t))] *)
Definition count_if (test : Transaction -> bool) (transactions : list Transaction) : nat :=
  List.length (List.filter test transactions).

Definition has_valid_date (t : Transaction) : bool :=
  match Transaction_Date t with
  | Some d => re.matches (re.match_ false "^\d{1,2}/\d{1,2}/\d{4}$" d)
  | None => false
  end.

(** [k in t and t[k] and t[k] > 0] *)
Definition positive_field (field : option num) : bool :=
  match field with
  | Some (Num x) => Num.truthy x && Num.positive x
  | _ => false
  end.

Definition has_valid_amount (t : Transaction) : bool :=
  existsb positive_field [Amount t; Credits t; Debits t].

Definition has_valid_description (t : Transaction) : bool :=
  match Place t with
  | Some p => (3 <=? Str.len p) && Str.any Chr.isalpha p
  | None => false
  end.

Definition validate_transactions (transactions : list Transaction) (method_ : string)
  : validation :=
  match transactions with
  | [] => mkValidation false 0 0 [No_transactions_found] None
  | _ =>
      let n := List.length transactions in
      let score := 100%Z in
      let issues := [] in
      let valid_dates := count_if has_valid_date transactions in
      let '(score, issues) :=
        if ratio_below valid_dates n 9 10
        then ((score - 20)%Z, (issues ++ [Few_valid_dates valid_dates n])%list)
        else (score, issues) in
      let transactions_with_amounts := count_if has_valid_amount transactions in
      let '(score, issues) :=
        if ratio_below transactions_with_amounts n 9 10
        then ((score - 30)%Z, (issues ++ [Few_valid_amounts transactions_with_amounts n])%list)
        else (score, issues) in
      let valid_descriptions := count_if has_valid_description transactions in
      let '(score, issues) :=
        if ratio_below valid_descriptions n 8 10
        then ((score - 30)%Z, (issues ++ [Few_valid_descriptions valid_descriptions n])%list)
        else (score, issues) in
      let '(score, issues) :=
        if n <? 3
        then ((score - 20)%Z, (issues ++ [Very_few_transactions n])%list)
        else (score, issues) in
      let descriptions := List.map (fun t => get (Place t) "") transactions in
      let unique := List.length (nodup string_dec descriptions) in
      let '(score, issues) :=
        if ratio_below unique (List.length descriptions) 1 2
        then ((score - 10)%Z, (issues ++ [Many_duplicates unique n])%list)
        else (score, issues) in
      mkValidation (50 <=? score)%Z (Z.max 0 score) n issues (Some method_)
  end.

(** ** The dual-extraction reconciler *)

Definition score_description (place original : string) : Z :=
  let score := 100%Z in
  let artifacts := ["PURCHASE"; "RECUR"; "WL*"; "WL "; "SQ*"; "TST*"; "Payment.";
                    "Gino "; "Jaison "; "XX"; "POS "; "ACH "] in
  let score :=
    fold_left (fun score artifact =>
                 if Str.contains artifact place || Str.contains artifact (Str.upper place)
                 then (score - 30)%Z else score)
      artifacts score in
  let score :=
    if 40 <? Str.len place then (score - 20)%Z
    else if 25 <? Str.len place then (score - 10)%Z
    else score in
  let word_count := List.length (Str.words place) in
  let score :=
    if 5 <? word_count then (score - 15)%Z
    else if 4 <? word_count then (score - 5)%Z
    else score in
  let first (p : ascii -> bool) : bool :=
    match Str.head place with Some c => p c | None => false end in
  let score := if first Chr.isupper then (score + 5)%Z else score in
  let score :=
    if first (fun c => Chr.islower c || Chr.isdigit c) then (score - 10)%Z else score in
  let score :=
    if first (fun c => existsb (Chr.eqb c) ["="; "-"; ">"; "<"]%char)
    then (score - 20)%Z else score in
  score.

Definition _select_best_description (place_a place_b orig_a orig_b : string) : string :=
  let score_a := score_description place_a orig_a in
  let score_b := score_description place_b orig_b in
  if (score_b <=? score_a)%Z then place_a else place_b.

(** The amount the reconciler compares:
    [t.get('Amount', t.get('Debits', t.get('Credits', 0)))]. *)
Definition match_amount (t : Transaction) : num :=
  get (Amount t) (get (Debits t) (get (Credits t) (Num PrimFloat.zero))).

Definition date_of (t : Transaction) : string := get (Transaction_Date t) "".

(** [abs(float(a) - float(b)) < 0.02]; [float(None)] raises. *)
Definition amounts_close (a b : num) : outcome bool :=
  match a with
  | NoneVal => TypeError
  | Num xa =>
      match b with
      | NoneVal => TypeError
      | Num xb => Ok (PrimFloat.ltb (PrimFloat.abs (PrimFloat.sub xa xb)) Num.two_cents)
      end
  end.

(** The inner loop: the first entry of B from position [idx] on that is
    not matched yet and agrees with [trans_a] on date and amount. *)
Fixpoint find_match (trans_a : Transaction) (transactions_b : list Transaction)
    (idx : nat) (matched_b : gset nat) : outcome (option (Transaction * nat)) :=
  match transactions_b with
  | [] => Ok None
  | trans_b :: rest =>
      if bool_decide (idx ∈ matched_b) then find_match trans_a rest (S idx) matched_b
      else if String.eqb (date_of trans_a) (date_of trans_b) then
        match amounts_close (match_amount trans_a) (match_amount trans_b) with
        | TypeError => TypeError
        | Ok true => Ok (Some (trans_b, idx))
        | Ok false => find_match trans_a rest (S idx) matched_b
        end
      else find_match trans_a rest (S idx) matched_b
  end.

(** The record emitted for a matched pair. *)
Definition merge_matched (self : HybridPDFParser) (trans_a best_match : Transaction)
    (method_a method_b : string) : Transaction * HybridPDFParser :=
  let place_a := get (Place trans_a) "" in
  let place_b := get (Place best_match) "" in
  let place_orig_a := get (Place_Original trans_a) place_a in
  let place_orig_b := get (Place_Original best_match) place_b in
  let selected_original :=
    _select_best_description place_orig_a place_orig_b place_orig_a place_orig_b in
  let amount := match_amount trans_a in
  let date := date_of trans_a in
  let '(cleaned_place, self) :=
    _clean_merchant_name_with_context self selected_original amount (Some date) in
  let merged_trans := trans_a in
  let merged_trans := set_Place cleaned_place merged_trans in
  let merged_trans := set_Place_Original selected_original merged_trans in
  let merged_trans :=
    set_extraction_method
      (Str.join "" [method_a; " (matched with "; method_b; ")"]) merged_trans in
  (merged_trans, self).

Definition only_tag (method_ : string) : string := String.append method_ " only".

(** Pass 1: one record for every entry of A. *)
Fixpoint pass1 (self : HybridPDFParser) (transactions_a transactions_b : list Transaction)
    (method_a method_b : string) (merged : list Transaction) (matched_b : gset nat)
  : outcome (list Transaction * gset nat * HybridPDFParser) :=
  match transactions_a with
  | [] => Ok (merged, matched_b, self)
  | trans_a :: rest =>
      match find_match trans_a transactions_b 0 matched_b with
      | TypeError => TypeError
      | Ok found =>
          match found with
          | Some (best_match, best_match_idx) =>
              if dict_truthy best_match then
                let matched_b := {[best_match_idx]} ∪ matched_b in
                let '(merged_trans, self) :=
                  merge_matched self trans_a best_match method_a method_b in
                pass1 self rest transactions_b method_a method_b
                  (merged ++ [merged_trans])%list matched_b
              else
                pass1 self rest transactions_b method_a method_b
                  (merged ++ [set_extraction_method (only_tag method_a) trans_a])%list
                  matched_b
          | None =>
              pass1 self rest transactions_b method_a method_b
                (merged ++ [set_extraction_method (only_tag method_a) trans_a])%list
                matched_b
          end
      end
  end.

(** Pass 2: the entries of B that no entry of A took. *)
Fixpoint pass2 (transactions_b : list Transaction) (idx : nat) (matched_b : gset nat)
    (method_b : string) : list Transaction :=
  match transactions_b with
  | [] => []
  | trans_b :: rest =>
      if bool_decide (idx ∈ matched_b)
      then pass2 rest (S idx) matched_b method_b
      else set_extraction_method (only_tag method_b) trans_b
             :: pass2 rest (S idx) matched_b method_b
  end.

Module Sort.

(** [a <= b] on strings: character by character, a prefix first. *)
Fixpoint leb (a b : string) : bool :=
  match a, b with
  | EmptyString, _ => true
  | String _ _, EmptyString => false
  | String x a', String y b' =>
      if Chr.code x <? Chr.code y then true
      else if Chr.code y <? Chr.code x then false
      else leb a' b'
  end.

Section By_key.
Context {A : Type} (key : A -> string).

(** [x] goes before the first element whose key is not smaller. *)
Fixpoint insert (x : A) (l : list A) : list A :=
  match l with
  | [] => [x]
  | y :: l' => if leb (key x) (key y) then x :: l else y :: insert x l'
  end.

(** [l.sort(key=key)]: the stable sort. *)
Fixpoint sort (l : list A) : list A :=
  match l with
  | [] => []
  | x :: l' => insert x (sort l')
  end.

End By_key.

End Sort.

Definition cross_reference_transactions (self : HybridPDFParser)
    (transactions_a transactions_b : list Transaction) (method_a method_b : string)
  : outcome (list Transaction * HybridPDFParser) :=
  match transactions_a, transactions_b with
  | [], [] => Ok ([], self)
  | [], _ => Ok (transactions_b, self)
  | _, [] => Ok (transactions_a, self)
  | _, _ =>
      match pass1 self transactions_a transactions_b method_a method_b [] ∅ with
      | TypeError => TypeError
      | Ok (merged, matched_b, self) =>
          let merged := (merged ++ pass2 transactions_b 0 matched_b method_b)%list in
          Ok (Sort.sort date_of merged, self)
      end
  end.

(** ** The classifier *)

Definition llm_classify_transaction (self : HybridPDFParser) (place : string) (amount : num)
  : string :=
  if negb (llm_available self) then "expense" else
  match amount with
  | NoneVal => "expense"
  | Num _ =>
      match llm_classify_reply self place amount with
      | Some response =>
          let result := Str.lower (Str.strip response) in
          if Str.contains "income" result then "income"
          else if Str.contains "expense" result then "expense"
          else "expense"
      | None => "expense"
      end
  end.

(** Where one transaction goes. *)
Inductive bucket : Type := To_income | To_expenses | To_neither.

Definition classify_one (self : HybridPDFParser) (is_bank_account : bool)
    (trans : Transaction) : Transaction * bucket :=
  let place := Str.upper (get (Place trans) "") in
  let place_original := Str.upper (get (Place_Original trans) place) in
  let amount := get (Amount trans) (get (Credits trans) (get (Debits trans) (Num PrimFloat.zero))) in
  let is_payment_app :=
    existsb (fun app => Str.contains app place || Str.contains app place_original)
      (payment_apps self) in
  let trans := if is_payment_app then set_manual_review true trans else trans in
  if is_bank_account then
    let has_credits := positive_field (Credits trans) in
    let has_debits := positive_field (Debits trans) in
    let has_amount := positive_field (Amount trans) in
    if has_credits then (trans, To_income)
    else if has_debits then (trans, To_expenses)
    else if has_amount then
      let is_income_keyword :=
        existsb (fun keyword => Str.contains keyword place_original) (income_keywords self) in
      if is_income_keyword then (trans, To_income)
      else if llm_available self && is_payment_app then
        if String.eqb (llm_classify_transaction self place amount) "income"
        then (trans, To_income) else (trans, To_expenses)
      else (trans, To_expenses)
    else (trans, To_neither)
  else (trans, To_expenses).

(** The two lists the method returns. The source flags payment-app
    transactions by writing [_manual_review] into the dictionary it was
    given, so the records below are the input objects after that write. *)
Fixpoint classify_transactions (self : HybridPDFParser)
    (transactions : list Transaction) (is_bank_account : bool)
  : list Transaction * list Transaction :=
  match transactions with
  | [] => ([], [])
  | trans :: rest =>
      let '(income, expenses) := classify_transactions self rest is_bank_account in
      match classify_one self is_bank_account trans with
      | (trans, To_income) => (trans :: income, expenses)
      | (trans, To_expenses) => (income, trans :: expenses)
      | (trans, To_neither) => (income, expenses)
      end
  end.

(** ** Sample objects

    Parser objects and statement data on which the results below are
    instantiated. *)

(** A parser without configuration, without language model and with an
    empty cache. *)
Definition offline_parser : HybridPDFParser :=
  mkParser [] [] [] false ∅ (fun _ _ _ _ => None) (fun _ _ => None) 2025%Z.

(** A parser whose language model echoes the name for the first two
    prompts and answers the validity question of the third with a word. *)
Definition echoing_parser : HybridPDFParser :=
  mkParser [] [] [] true ∅
    (fun idx merchant _ _ => if idx =? 2 then Some "Yes" else Some merchant)
    (fun _ _ => None) 2025%Z.

(** [45.23], [19.99], [91.99] and [1100.0] as binary64 numbers. *)
Definition f_45_23 : float := 0x1.69d70a3d70a3dp+5%float.
Definition f_19_99 : float := 0x1.3fd70a3d70a3dp+4%float.
Definition f_100 : float := 0x1.9p+6%float.
Definition f_1100 : float := 0x1.13p+10%float.

(** A parser whose cache holds a two-letter key and a longer one. *)
Definition cached_parser : HybridPDFParser :=
  mkParser [] [] [] false
    (<["AB" := "Abc Corp"]> (<["WALMART #4352" := "Walmart"]> ∅))
    (fun _ _ _ _ => None) (fun _ _ => None) 2025%Z.

(** Three well-formed transactions with different descriptions. *)
Definition sample_statement : list Transaction :=
  [mkTransaction (Some "01/15/2025") (Some "Walmart") (Some "WALMART #4352")
     (Some (Num f_45_23)) None None None None None;
   mkTransaction (Some "01/16/2025") (Some "Squarespace") (Some "SQSP* INV165866692")
     (Some (Num f_19_99)) None None None None None;
   mkTransaction (Some "1/31/2025") (Some "Interest") (Some "INTEREST PAYMENT")
     None (Some (Num f_1100)) (Some NoneVal) (Some (Num f_100)) None None].

(** [50.0] *)
Definition f_50 : float := 0x1.9p+5%float.

(** Every pattern that the modelled methods hand to [re]. *)
Definition source_patterns : list string :=
  ["^[,\s]+|[,\s]+$";
   "([a-z])([A-Z])";
   "^\$[\d,]+\.?\d*\s+AT\s+\d{1,2}:\d{2}";
   "\bXX+\d{4}\b";
   "^(Gino|Jaison|jazionn)\s+";
   "^(Payment\.ACH|Payment\.|ACH\s+)";
   "^[=\-><]\s+";
   "^(RECUR\.?\s*PURCHASE\.?\s*|POS\s+(?:PURCHASE\s+)?AT\s+|PURCHASE\s+AT\s+)";
   "\s+RECUR\s+PURCHASE\.?\s*";
   "^\d{1,2}\s+";
   "(\w)(\d{3,})(?=\s|$)";
   "\s+[A-Z0-9]{1,2}$";
   "\s*\d{3}-\d{3}-\d{4}";
   "\s+\d{10}\b";
   "\s+\d{3}-\d{7}";
   "\s+[A-Z0-9]{10,}\b";
   "\s+[a-f0-9]{8,}\b";
   "\s+\d{8,}\b";
   "\s+WEB[ _](?:PMTS?|PAY)\s+\S+";
   "\s*#\s*\d+";
   "[-\s]+[A-Z]{5,}$";
   "\s+\d{3}-\d{7}$";
   "%[^%]+%";
   "\s+\d{4,5}$";
   "\s+[A-Z][a-z]+\s+[A-Z]{2}$";
   "\s+[A-Z]{2}\s*\d*$";
   "^(?:TST|SQ|PAW)\s*-\s*";
   "\s+\d+\s+[A-Z]{2}\s+\d+$";
   "\s+\d{3}-\d+$";
   "\s+OIL$";
   "\s+Help\.\w+\.Com";
   "\s+Hwy\s+\d+";
   "\s+-\s*$";
   "^\s*-\s+";
   "\s+[A-Z]\d+[A-Z]$";
   "\s+[A-Z]{1,2}$";
   "\s+";
   "\s+\d+$";
   "([A-Z])AND([A-Z])";
   "\$?([0-9,]+\.\d{2})";
   "^(\d{17,})\s+";
   "\$?[0-9,]+\.\d{2}";
   "\d{17,}";
   "^\d{1,2}:\d{2}$";
   "\s+\d{1,2}/\d{1,2}/\d{2,4}$";
   "^(\d{1,2}/\d{1,2}/\d{4})";
   "^\d{1,2}/\d{1,2}/\d{4}";
   "^\d{1,2}[/-]\d{1,2}";
   "^\d{1,2}/\d{1,2}/\d{4}$";
   "^(\d{1,2}/\d{1,2}/\d{2})";
   "^(\d{1,2}-\d{1,2})\s";
   "\(No location information.*?\)";
   "\(No location.*?\)";
   "No location information provided.*";
   "Yes, the transaction name is:?";
   "The transaction name is:?";
   "A fun one!";
   "A fun transaction!";
   "the transaction details:";
   "(?:billing cycle|statement).*?ending.*?\d{1,2}/\d{1,2}/(\d{4})";
   "statement closing date.*?\d{1,2}/\d{1,2}/(\d{2,4})";
   "statement date.*?\d{1,2}/\d{1,2}/(\d{4})";
   "forbilling cycleending \d{1,2}/\d{1,2}/(\d{2})";
   "for billing cycle ending \d{1,2}/\d{1,2}/(\d{2})";
   "^SQSP\s*\*";
   "^CASH\s+APP\s*\*";
   "^BP[#\d]";
   "^SQ\s*\*";
   "SQ\s*\*\s*([A-Z][A-Z0-9&\s]+)";
   "^WL\s*\*";
   "^WL\s*\*\s*"].

(** ** Vocabulary of the statements *)

(** [k] out of [n] is fewer than [p] percent. *)
Definition fewer_than_percent (k n p : nat) : bool := 100 * k <? p * n.

(** A deduction that applies under a condition. *)
Definition deduction (applies : bool) (points : Z) : Z := if applies then points else 0%Z.

(** The descriptions the validator compares for duplicates. *)
Definition descriptions_of (transactions : list Transaction) : list string :=
  List.map (fun t => get (Place t) "") transactions.

(** The score of a non-empty list before it is clamped at zero, as the
    deductions of the specification add up. *)
Definition unclamped_score (transactions : list Transaction) : Z :=
  let n := List.length transactions in
  (100
   - deduction (fewer_than_percent (count_if has_valid_date transactions) n 90) 20
   - deduction (fewer_than_percent (count_if has_valid_amount transactions) n 90) 30
   - deduction (fewer_than_percent (count_if has_valid_description transactions) n 80) 30
   - deduction (Nat.ltb n 3) 20
   - deduction (fewer_than_percent
                  (List.length (nodup string_dec (descriptions_of transactions))) n 50) 10)%Z.

(** The month that replaces a misread month, in the words of the
    specification: nothing for a month up to 12; the table for 42, 41, 40,
    14 and 13; else, when the month without its last digit (the tens digit
    of a two-digit month) exceeds 1 and the last digit is at most 2, ten
    plus the last digit; nothing otherwise. *)
Definition corrected_month (month : Z) : option Z :=
  if (month <=? 12)%Z then None
  else if (month =? 42)%Z then Some 12%Z
  else if (month =? 41)%Z then Some 11%Z
  else if (month =? 40)%Z then Some 10%Z
  else if (month =? 14)%Z then Some 11%Z
  else if (month =? 13)%Z then Some 11%Z
  else if (1 <? month / 10)%Z && (month mod 10 <=? 2)%Z then Some (10 + month mod 10)%Z
  else None.

(** The repaired date, in the words of the specification: the text up to
    the first slash is the month; when it reads as a number that has a
    replacement, the replacement is written in its place and the rest of
    the string is kept; in every other case the string is kept whole. *)
Definition repaired_date (date_str : string) : string :=
  if negb (Str.contains "/" date_str) then date_str else
  let month_text := Str.before "/" date_str in
  let rest := Str.drop (S (Str.len month_text)) date_str in
  match Num.int month_text with
  | None => date_str
  | Some month =>
      match corrected_month month with
      | Some month' => String.append (Str.of_Z month') (String.append "/" rest)
      | None => date_str
      end
  end.

(** A list is in non-decreasing order of its date strings, compared
    character by character. *)
Definition date_le (x y : Transaction) : Prop :=
  Sort.leb (date_of x) (date_of y) = true.

(** The record of an entry that found no partner. *)
Definition tagged_only (method_ : string) (t : Transaction) : Transaction :=
  set_extraction_method (only_tag method_) t.

(** The tag of a merged record. *)
Definition matched_tag (method_a method_b : string) : string :=
  Str.join "" [method_a; " (matched with "; method_b; ")"].

(** The original description kept by a merge of [a] and [b]: the one of
    the two originals with the higher score, the one of [a] on a tie. A
    record without [Place_Original] stands in with its [Place]. *)
Definition selected_original (a b : Transaction) : string :=
  let orig_a := get (Place_Original a) (get (Place a) "") in
  let orig_b := get (Place_Original b) (get (Place b) "") in
  _select_best_description orig_a orig_b orig_a orig_b.

(** [r] is a merge of [a] with [b]: it is [a] with the matched tag, with
    the selected original and with some cleaned name as its [Place]. *)
Definition is_merge_of (method_a method_b : string) (a b r : Transaction) : Prop :=
  exists place : string,
    r = set_extraction_method (matched_tag method_a method_b)
          (set_Place_Original (selected_original a b) (set_Place place a)).

(** What pass 1 emitted for an entry [a] of A: with [None], the entry
    tagged as found by A's method only; with [Some j], a merge of [a] with
    the entry of B at index [j]. *)
Definition emitted_for (method_a method_b : string) (transactions_b : list Transaction)
    (a : Transaction) (p : option nat * Transaction) : Prop :=
  match fst p with
  | None => snd p = tagged_only method_a a
  | Some j =>
      exists b, nth_error transactions_b j = Some b
                /\ is_merge_of method_a method_b a b (snd p)
  end.

(** The indices of B that the merges took. *)
Definition matched_indices (recs : list (option nat * Transaction)) : list nat :=
  flat_map (fun p => match fst p with Some j => [j] | None => [] end) recs.

(** The entries of a list, counted from [idx], whose index is not in
    [js]. *)
Fixpoint entries_outside (js : list nat) (idx : nat) (l : list Transaction)
  : list Transaction :=
  match l with
  | [] => []
  | b :: rest =>
      if existsb (Nat.eqb idx) js
      then entries_outside js (S idx) rest
      else b :: entries_outside js (S idx) rest
  end.

(** Every entry of both lists is accounted for in [out], once: there is
    one record per entry of A, in the order of A, either the entry tagged
    as unique to A's method or a merge with an entry of B; no entry of B is
    merged twice; the entries of B that were not merged appear tagged as
    unique to B's method; [out] holds these records and no others, and so
    has [len(A) + len(B) - m] records for [m] merges. *)
Definition accounted (method_a method_b : string)
    (transactions_a transactions_b out : list Transaction) : Prop :=
  exists recs : list (option nat * Transaction),
    Forall2 (emitted_for method_a method_b transactions_b) transactions_a recs
    /\ List.NoDup (matched_indices recs)
    /\ Forall (fun j => j < List.length transactions_b) (matched_indices recs)
    /\ Permutation out
         (List.map snd recs
          ++ List.map (tagged_only method_b)
               (entries_outside (matched_indices recs) 0 transactions_b))%list
    /\ List.length out
       = List.length transactions_a + List.length transactions_b
         - List.length (matched_indices recs).

(** The interest line of a statement with debit, credit and balance
    columns, as both extraction methods read it, and what the block parser
    makes of it. *)
Definition interest_line : string := "01/31/2025 INTEREST PAYMENT 0.00 0.05 1,234.56".

Definition f_0_05 : float := 0x1.999999999999ap-5%float.
Definition f_1234_56 : float := 0x1.34a3d70a3d70ap+10%float.

Definition interest_transaction : Transaction :=
  mkTransaction (Some "01/31/2025") (Some "Interest") (Some "INTEREST PAYMENT")
    None (Some (Num f_1234_56)) (Some NoneVal) (Some (Num f_0_05)) None None.

(** Two extractions of one purchase, with a noisy and a clean
    description. *)
Definition walmart_noisy : Transaction :=
  mkTransaction (Some "03/01/2025") (Some "Wal-Mart Asdf") (Some "WAL-MART ASDF123")
    (Some (Num f_19_99)) None None None None None.
Definition walmart_clean : Transaction :=
  mkTransaction (Some "03/01/2025") (Some "Walmart") (Some "Walmart")
    (Some (Num f_19_99)) None None None None None.
Definition december_purchase : Transaction :=
  mkTransaction (Some "12/31/2024") (Some "Target") (Some "TARGET")
    (Some (Num f_45_23)) None None None None None.

(** The amount the reconciler compares is a number. *)
Definition numeric (t : Transaction) : Prop := match_amount t <> NoneVal.

(** ** Statement type, bank name and transfers *)

Definition is_credit_card (text : string) : bool :=
  let text_upper := Str.upper text in
  let bank_indicators :=
    ["CHECKING"; "SAVINGS"; "ACCOUNT ACTIVITY"; "BEGINNING BALANCE"; "ENDING BALANCE"] in
  if any_in bank_indicators text_upper then false else
  let credit_indicators :=
    ["VISA"; "MASTERCARD"; "AMEX"; "DISCOVER"; "CREDIT CARD"; "MINIMUM PAYMENT DUE";
     "CARD ACCOUNT"; "STATEMENT CLOSING"] in
  any_in credit_indicators text_upper.

(** The loop of [detect_bank_name] over the first lines of the text. *)
Fixpoint bank_of_lines (text : string) (lines : list string) : option string :=
  match lines with
  | [] => None
  | line :: rest =>
      let line_upper := Str.strip (Str.upper line) in
      if Str.contains "STEARNSBANK.COM" line_upper || Str.contains "STEARNS BANK" line_upper
      then Some "Stearns Bank"
      else if Str.contains "MYMAGNIFI.ORG" line_upper
              || Str.contains "MAGNIFI FINANCIAL" line_upper
      then Some "Magnifi Financial"
      else if Str.contains "ISSUED BY" line_upper
              && Str.contains "FIRST NATIONAL BANK" line_upper
      then
        let full_text_upper := Str.upper text in
        if Str.contains "SCHEELS" full_text_upper then Some "Scheels Visa"
        else Some "First National Bank of Omaha"
      else bank_of_lines text rest
  end.

(** The bank that a domain name stands for, if it is a known one. *)
Definition bank_of_domain (domain : string) : option string :=
  if Str.contains "stearns" domain then Some "Stearns Bank"
  else if Str.contains "magnifi" domain then Some "Magnifi Financial"
  else if Str.contains "scheels" domain || Str.contains "fnbo" domain
  then Some "Scheels Visa"
  else None.

Definition detect_bank_name (text : string) : string :=
  let text_upper := Str.upper text in
  let lines := Str.split_on newline text in
  match bank_of_lines text (firstn 50 lines) with
  | Some bank => bank
  | None =>
      let from_url :=
        match re.search false "www\.([a-zA-Z0-9-]+)\.(com|org|net)" (Str.lower text) with
        | Some m => bank_of_domain (re.group m 1)
        | None => None
        end in
      match from_url with
      | Some bank => bank
      | None =>
          if Str.contains "SCHEELS" text_upper
             && (Str.contains "VISA" text_upper || Str.contains "CARD" text_upper)
          then "Scheels Visa"
          else "Unknown"
      end
  end.

(** The text in which [filter_transfers] looks for a keyword. *)
Definition transfer_text (trans : Transaction) : string :=
  Str.upper (get (Place_Original trans) (get (Place trans) "")).

Definition is_transfer (self : HybridPDFParser) (trans : Transaction) : bool :=
  existsb (fun keyword => Str.contains keyword (transfer_text trans))
    (transfer_keywords self).

(** The pair (real transactions, transfers). *)
Fixpoint filter_transfers (self : HybridPDFParser) (transactions : list Transaction)
  : list Transaction * list Transaction :=
  match transactions with
  | [] => ([], [])
  | trans :: rest =>
      let '(real_transactions, transfers) := filter_transfers self rest in
      if is_transfer self trans
      then (real_transactions, trans :: transfers)
      else (trans :: real_transactions, transfers)
  end.

(** ** User corrections and the frequency table

    The place columns of the output files found on disk, in the order of
    the scan, are the input; reading the files is left out. *)

(** [counts[place] = counts.get(place, 0) + 1] on a dictionary kept in
    insertion order. *)
Fixpoint bump (place : string) (counts : list (string * nat)) : list (string * nat) :=
  match counts with
  | [] => [(place, 1)]
  | (p, c) :: rest =>
      if String.eqb p place then (p, S c) :: rest else (p, c) :: bump place rest
  end.

(** The table [merchant_counts] after the scan. *)
Definition count_merchants (files : list (list string)) : list (string * nat) :=
  fold_left (fun counts place => if 3 <=? Str.len place then bump place counts else counts)
    (concat files) [].

(** The second loop of [_load_user_corrections_from_csvs]: the cache after
    it; the frequency table it fills is the table of counts itself. *)
Definition store_corrections (counts : list (string * nat)) (cache : gmap string string)
  : gmap string string :=
  fold_left (fun cache entry =>
               let place := fst entry in
               let cache_key := cache_key_of place in
               match cache !! cache_key with
               | Some cached =>
                   if String.eqb cached place then cache else <[cache_key := place]> cache
               | None => <[cache_key := place]> cache
               end)
    counts cache.

Definition _load_user_corrections_from_csvs (self : HybridPDFParser)
    (files : list (list string)) : HybridPDFParser * list (string * nat) :=
  let merchant_counts := count_merchants files in
  (set_merchant_cache (store_corrections merchant_counts (merchant_cache self)) self,
   merchant_counts).

(** [name.upper().replace(' ', '').replace('-', '').replace('&', '')] *)
Definition similarity_key (name : string) : string :=
  Str.replace_chr "&" "" (Str.replace_chr "-" "" (Str.replace_chr " " "" (Str.upper name))).

(** [l.sort(key=..., reverse=True)] on pairs keyed by their count: the
    stable sort into non-increasing order. *)
Fixpoint insert_by_count (x : string * nat) (l : list (string * nat)) : list (string * nat) :=
  match l with
  | [] => [x]
  | y :: l' => if snd y <=? snd x then x :: l else y :: insert_by_count x l'
  end.

Fixpoint sort_by_count (l : list (string * nat)) : list (string * nat) :=
  match l with
  | [] => []
  | x :: l' => insert_by_count x (sort_by_count l')
  end.

Definition is_similar (name_norm : string) (entry : string * nat) : bool :=
  let merchant_norm := similarity_key (fst entry) in
  (Str.contains name_norm merchant_norm || Str.contains merchant_norm name_norm)
  && (3 <=? Str.len name_norm).

(** [merchant_frequency] is passed in as the table of the parser object. *)
Definition _get_similar_merchants (merchant_frequency : list (string * nat))
    (name : string) (limit : nat) : list string :=
  match merchant_frequency with
  | [] => []
  | _ =>
      let name_norm := similarity_key name in
      let similar := List.filter (is_similar name_norm) merchant_frequency in
      List.map fst (firstn limit (sort_by_count similar))
  end.

(** ** The two extractions of one document

    The texts that the two extraction methods deliver for the document are
    the inputs. Producing them is left out, and with it the page converter
    and the text extractor that the method creates on its first call and
    keeps in [self.pdf_converter] and [self.text_extractor], and an error
    of their construction. The parser object that the model returns shows
    what the call did to the attributes of the record. *)

Inductive raised : Type := Raised_TypeError | Raised_KeyError.

Inductive result (A : Type) : Type :=
| Returned (a : A)
| Raised (e : raised).
Arguments Returned {A} a.
Arguments Raised {A} e.

(** The validation dictionary of a method: the placeholder
    [{'valid': False, 'score': 0}] of a method that was not run, or a full
    record. *)
Inductive validation_dict : Type :=
| Unvalidated
| Validated (v : validation).

Definition dict_score (d : validation_dict) : Z :=
  match d with Unvalidated => 0%Z | Validated v => score v end.

(** [parse_transactions(text)]; its loop always finishes, so the default
    is never taken. *)
Definition run_parse (self : HybridPDFParser) (text : string)
  : list Transaction * HybridPDFParser :=
  match parse_transactions self text None with
  | Some res => res
  | None => ([], self)
  end.

(** Parsing and validating the text of one method, if it is long enough. *)
Definition parse_and_validate (self : HybridPDFParser) (text method_ : string)
  : (list Transaction * validation_dict) * HybridPDFParser :=
  if 100 <? Str.len (Str.strip text) then
    let '(transactions, self) := run_parse self text in
    ((transactions, Validated (validate_transactions transactions method_)), self)
  else (([], Unvalidated), self).

Definition nonempty {A} (l : list A) : bool :=
  match l with [] => false | _ => true end.

Definition extract_text_dual_method (self : HybridPDFParser) (text_pdf text_ocr : string)
  : result ((string * string * list Transaction * validation_dict) * HybridPDFParser) :=
  let '((transactions_pdf, validation_pdf), self) :=
    parse_and_validate self text_pdf "pdfplumber" in
  let '((transactions_ocr, validation_ocr), self) :=
    parse_and_validate self text_ocr "OCR" in
  if nonempty transactions_pdf && nonempty transactions_ocr then
    match cross_reference_transactions self transactions_pdf transactions_ocr
            "pdfplumber" "OCR" with
    | TypeError => Raised Raised_TypeError
    | Ok (merged_transactions, self) =>
        let '(best_text, best_method) :=
          if (dict_score validation_ocr <=? dict_score validation_pdf)%Z
          then (text_pdf, "pdfplumber + OCR (merged)")
          else (text_ocr, "OCR + pdfplumber (merged)") in
        Returned
          ((best_text, best_method, merged_transactions,
            Validated
              (mkValidation true
                 (Z.max (dict_score validation_pdf) (dict_score validation_ocr))
                 (List.length merged_transactions) [] (Some best_method))),
           self)
    end
  else if nonempty transactions_pdf then
    Returned ((text_pdf, "pdfplumber", transactions_pdf, validation_pdf), self)
  else if nonempty transactions_ocr then
    Returned ((text_ocr, "OCR", transactions_ocr, validation_ocr), self)
  else if (dict_score validation_ocr <=? dict_score validation_pdf)%Z then
    Returned ((text_pdf, "pdfplumber (low quality)", transactions_pdf, validation_pdf), self)
  else
    Returned ((text_ocr, "OCR (low quality)", transactions_ocr, validation_ocr), self).

(** What [parse_pdf] returns: the rows of the income frame, the rows of
    the expense frame (both get the bank name as their Statement column),
    the bank name and the account type. *)
Record parsed_pdf : Type := mkParsed {
  income_rows : list Transaction;
  expense_rows : list Transaction;
  bank_name : string;
  is_bank_account : bool
}.

Definition parse_pdf (self : HybridPDFParser) (text_pdf text_ocr : string)
  : result (parsed_pdf * HybridPDFParser) :=
  match extract_text_dual_method self text_pdf text_ocr with
  | Raised e => Raised e
  | Returned ((text, method_, transactions, validation), self) =>
      match validation with
      | Unvalidated => Raised Raised_KeyError
      | Validated _ =>
          let bank_name := detect_bank_name text in
          let is_bank_account := negb (is_credit_card text) in
          let '(transactions, self) :=
            if nonempty transactions then (transactions, self)
            else run_parse self text in
          let '(transactions, transfers) := filter_transfers self transactions in
          let '(income, expenses) :=
            classify_transactions self transactions is_bank_account in
          Returned (mkParsed income expenses bank_name is_bank_account, self)
      end
  end.

(** ** Vocabulary of the further properties *)

(** [self'] is [self] with a cache that holds every entry of the cache of
    [self]: no other attribute differs and no entry was removed or
    changed. *)
Definition cache_extended (self self' : HybridPDFParser) : Prop :=
  self' = set_merchant_cache (merchant_cache self') self
  /\ merchant_cache self ⊆ merchant_cache self'.

(** The two layouts of the amount keys that [_build_transaction] writes:
    [Amount] with an optional [Balance]; or [Debits], [Credits] and
    [Balance], where a debit or credit is a positive number or [None]. *)
Definition positive_or_none (field : option num) : Prop :=
  field = Some NoneVal \/ exists x, field = Some (Num x) /\ Num.positive x = true.

Definition amount_layout (t : Transaction) : Prop :=
  ((exists a, Amount t = Some (Num a))
   /\ (Balance t = None \/ exists b, Balance t = Some (Num b))
   /\ Debits t = None /\ Credits t = None)
  \/ (Amount t = None
      /\ (exists b, Balance t = Some (Num b))
      /\ positive_or_none (Debits t) /\ positive_or_none (Credits t)).

(** The words of table headers and page furniture that make
    [_build_transaction] reject a description. *)
Definition boilerplate : list string :=
  ["DATE AMOUNT"; "DESCRIPTION DEBITS CREDITS"; "POST DATE"; "TRANS DATE";
   "REFERENCE"; "PAGE"; "ACCOUNT STATEMENTS"; "STATEMENT ENDING";
   "CUSTOMER NUMBER"; "CHECKING ACCOUNT"; "SAVINGS ACCOUNT"; "DAILY BALANCE";
   "DATE AMOUNT DATE AMOUNT"; "BEGINNING BALANCE"; "ENDING BALANCE"].

(** What every transaction that the block parser builds looks like. *)
Definition built_transaction (t : Transaction) : Prop :=
  (exists date, Transaction_Date t = Some date)
  /\ (exists place, Place t = Some place)
  /\ (exists original,
        Place_Original t = Some original
        /\ 3 <= Str.len original
        /\ Str.any Chr.isalpha original = true
        /\ Str.strip original = original
        /\ any_in boilerplate (Str.upper original) = false)
  /\ amount_layout t
  /\ _extraction_method t = None
  /\ _manual_review t = None.

(** What a call of the block parser at a cursor guarantees: nothing is
    consumed past the end of the lines; inside them one to three lines
    are consumed and they exist; a block that builds no transaction
    leaves the parser object as it was; a built transaction has the shape
    above; and the cache only grows. *)
Definition block_facts (self : HybridPDFParser) (lines : list string) (start_idx : nat)
    (r : (option Transaction * nat) * HybridPDFParser) : Prop :=
  let '((t, consumed), self') := r in
  (List.length lines <= start_idx -> consumed = 0 /\ t = None)
  /\ (start_idx < List.length lines ->
      1 <= consumed <= 3 /\ start_idx + consumed <= List.length lines)
  /\ (t = None -> self' = self)
  /\ (forall trans, t = Some trans -> built_transaction trans)
  /\ cache_extended self self'.

(** A transaction that [parse_transactions] has appended to its list: it
    was built by the block parser and its [Place] is not empty. *)
Definition emitted_transaction (t : Transaction) : Prop :=
  built_transaction t /\ Place t <> Some "".

(** A line that the main loop passes over while it is outside a
    transaction section: it holds no section-start marker and does not
    begin with day and month digits. *)
Definition narrative_line (line : string) : bool :=
  let line := Str.strip line in
  negb (any_in section_start_markers (Str.upper line))
  && negb (re.matches (re.match_ false "^\d{1,2}[/-]\d{1,2}" line)).

(** Two lines of a letter: no section header, no line that opens with a
    date, though an amount occurs. *)
Definition narrative_text : string :=
  String.append "Dear customer,"
    (String newline "12 payments of 45.23 were made. Thank you.").

(** The points that the validator takes off for an issue. *)
Definition issue_points (i : issue) : Z :=
  match i with
  | No_transactions_found => 100
  | Few_valid_dates _ _ => 20
  | Few_valid_amounts _ _ => 30
  | Few_valid_descriptions _ _ => 30
  | Very_few_transactions _ => 20
  | Many_duplicates _ _ => 10
  end%Z.

Definition total_points (l : list issue) : Z :=
  fold_right (fun i acc => (issue_points i + acc)%Z) 0%Z l.

(** An entry of B that the reconciler accepts as a partner of [a]: the
    date strings are equal and the comparison of the amounts says that
    they are within two cents. *)
Definition candidate (a b : Transaction) : Prop :=
  date_of a = date_of b
  /\ amounts_close (match_amount a) (match_amount b) = Ok true.

(** The choices of partners are the greedy ones: the entries of A are
    served in order, [taken] holds the indices of B already given away,
    and each entry of A gets the first index of B outside [taken] that
    holds a candidate, or none when there is no such index. *)
Fixpoint greedy (transactions_b : list Transaction) (taken : list nat)
    (transactions_a : list Transaction) (choices : list (option nat)) : Prop :=
  match transactions_a, choices with
  | [], [] => True
  | a :: rest, choice :: choices' =>
      match choice with
      | Some j =>
          (exists b, nth_error transactions_b j = Some b /\ candidate a b)
          /\ ~ In j taken
          /\ (forall k b', k < j -> nth_error transactions_b k = Some b' ->
                           ~ In k taken -> ~ candidate a b')
          /\ greedy transactions_b (j :: taken) rest choices'
      | None =>
          (forall k b', nth_error transactions_b k = Some b' ->
                        ~ In k taken -> ~ candidate a b')
          /\ greedy transactions_b taken rest choices'
      end
  | _, _ => False
  end.

(** A record of the output comes from the input entry [t]: date, amount
    keys and review flag are those of [t], and it carries a tag. *)
Definition comes_from (r t : Transaction) : Prop :=
  Transaction_Date r = Transaction_Date t
  /\ Amount r = Amount t /\ Balance r = Balance t
  /\ Debits r = Debits t /\ Credits r = Credits t
  /\ _manual_review r = _manual_review t
  /\ is_some (_extraction_method r) = true.

(** The payment-app test of [classify_transactions] on one transaction:
    an app name occurs in the upper-cased [Place] or in the upper-cased
    [Place_Original]. *)
Definition is_payment_app (self : HybridPDFParser) (trans : Transaction) : bool :=
  let place := Str.upper (get (Place trans) "") in
  let place_original := Str.upper (get (Place_Original trans) place) in
  existsb (fun app => Str.contains app place || Str.contains app place_original)
    (payment_apps self).

(** The record that the classifier passes on for a transaction. *)
Definition reviewed (self : HybridPDFParser) (trans : Transaction) : Transaction :=
  if is_payment_app self trans then set_manual_review true trans else trans.

(** The text of a one-line bank statement, long enough to be parsed. *)
Definition statement_text : string :=
  String.append
    "Stearns Bank - Checking statement for January 2025. Thank you for banking with us, dear valued customer."
    (String newline "01/15/2025 WALMART #4352 $45.23").

(** The count that a table holds for a place, 0 when it holds none. *)
Definition table_count (place : string) (counts : list (string * nat)) : nat :=
  match List.find (fun e => String.eqb (fst e) place) counts with
  | Some e => snd e
  | None => 0
  end.

(** The files of two months in which the user wrote a name in two ways. *)
Definition corrected_files : list (list string) :=
  [["Walmart"; "Target"; "AB"]; ["Walmart"; "Cash Wise"]].

(** ** Proof steps

    Boolean comparisons of the source as facts about numbers; case
    analysis of a call of the block parser along its branches, outermost
    test first; and the pairs that [parse_pdf] takes apart. *)

Ltac nat_facts :=
  repeat match goal with
         | H : (_ <=? _) = true |- _ => apply Nat.leb_le in H
         | H : (_ <=? _) = false |- _ => apply Nat.leb_gt in H
         | H : (_ <? _) = true |- _ => apply Nat.ltb_lt in H
         | H : (_ <? _) = false |- _ => apply Nat.ltb_ge in H
         | H : (_ =? _) = true |- _ => apply Nat.eqb_eq in H
         | H : (_ =? _) = false |- _ => apply Nat.eqb_neq in H
         end.

Ltac head_scrutinee e :=
  lazymatch e with
  | match ?x with _ => _ end => head_scrutinee x
  | _ => e
  end.

Ltac step_block :=
  cbv beta iota zeta;
  lazymatch goal with
  | |- block_facts _ _ _ (match ?x with _ => _ end) =>
      let s := head_scrutinee x in destruct s eqn:?
  end.

Ltac finish_parse_pdf :=
  repeat match goal with
         | |- context [let '(_, _) := ?x in _] => destruct x
         end.

(** ** Sample texts around the Walmart line *)

Definition walmart_line : string := "01/15/2025 WALMART #4352 $45.23".




(** The line under a section header and a line about the card. *)
Definition walmart_in_section : string :=
  String.append "TRANSACTIONS"
    (String newline (String.append "Card ending in 1234" (String newline walmart_line))).

(** Every character of the string is an ASCII character. *)
Definition is_ascii (s : string) : bool :=
  forallb (fun c => Chr.code c <? 128) (explode s).

(** * Properties *)

(** ** Characters and strings *)

Lemma Chr_eqb_eq a b : Chr.eqb a b = true <-> a = b.
Proof.
  unfold Chr.eqb, Chr.code. rewrite Nat.eqb_eq. split; [|congruence].
  intros H. rewrite <- (ascii_nat_embedding a), <- (ascii_nat_embedding b).
  now rewrite H.
Qed.

Lemma Chr_eqb_refl a : Chr.eqb a a = true.
Proof. now apply Chr_eqb_eq. Qed.

Lemma implode_explode s : implode (explode s) = s.
Proof. apply string_of_list_ascii_of_string. Qed.

Lemma explode_implode l : explode (implode l) = l.
Proof. apply list_ascii_of_string_of_list_ascii. Qed.

Lemma explode_append a b : explode (String.append a b) = (explode a ++ explode b)%list.
Proof. induction a as [|c a IH]; simpl; [reflexivity|]. now rewrite <- IH. Qed.

Lemma implode_app a b : implode (a ++ b) = String.append (implode a) (implode b).
Proof. induction a as [|c a IH]; simpl; [reflexivity|]. now rewrite IH. Qed.

(** ** The classifier on credit-card statements *)

Lemma classify_one_credit_card self trans :
  snd (classify_one self false trans) = To_expenses /\
  (fst (classify_one self false trans) = trans \/
   fst (classify_one self false trans) = set_manual_review true trans).
Proof.
  unfold classify_one. simpl.
  destruct (existsb _ (payment_apps self)); simpl; auto.
Qed.

Lemma classify_credit_card_eq self transactions :
  classify_transactions self transactions false
  = ([], List.map (fun trans => fst (classify_one self false trans)) transactions).
Proof.
  induction transactions as [|trans rest IH]; simpl; [reflexivity|].
  rewrite IH.
  pose proof (classify_one_credit_card self trans) as [Hb _].
  destruct (classify_one self false trans) as [trans' b]. simpl in Hb.
  now subst b.
Qed.

(** C5. On a credit-card statement ([is_bank_account = false]) the
    classifier returns no income, and its expense list is the input list,
    entry by entry and in order: each entry is the input transaction,
    which at most gained the [_manual_review] flag. Nothing about a
    transaction (fields, keywords, payment app) changes that. *)
Theorem classify_credit_card_all_expenses (self : HybridPDFParser)
    (transactions : list Transaction) :
  fst (classify_transactions self transactions false) = [] /\
  List.length (snd (classify_transactions self transactions false))
    = List.length transactions /\
  Forall2 (fun trans expense => expense = trans \/ expense = set_manual_review true trans)
    transactions (snd (classify_transactions self transactions false)).
Proof.
  rewrite classify_credit_card_eq. simpl.
  split; [reflexivity|]. split; [apply length_map|].
  induction transactions as [|trans rest IH]; simpl; constructor; [|exact IH].
  apply classify_one_credit_card.
Qed.

(** ** Amount fields of a built transaction *)

(** C8. When [_build_transaction] accepts a block, the number of amounts
    decides the amount fields: one amount gives [Amount] only; two give
    [Amount] and [Balance]; three or more give [Debits] (the first amount
    if it is positive, else [None]), [Credits] (the second, likewise) and
    [Balance] (the third), and no [Amount]. *)
Theorem build_transaction_amount_fields (self self' : HybridPDFParser)
    (date description : string) (amounts : list float) (trans : Transaction) :
  _build_transaction self date description amounts = (Some trans, self') ->
  match amounts with
  | [] =>
      Amount trans = None /\ Balance trans = None
      /\ Debits trans = None /\ Credits trans = None
  | [a0] =>
      Amount trans = Some (Num a0) /\ Balance trans = None
      /\ Debits trans = None /\ Credits trans = None
  | [a0; a1] =>
      Amount trans = Some (Num a0) /\ Balance trans = Some (Num a1)
      /\ Debits trans = None /\ Credits trans = None
  | a0 :: a1 :: a2 :: _ =>
      Debits trans = Some (if Num.positive a0 then Num a0 else NoneVal)
      /\ Credits trans = Some (if Num.positive a1 then Num a1 else NoneVal)
      /\ Balance trans = Some (Num a2)
      /\ Amount trans = None
  end.
Proof.
  unfold _build_transaction. intros H.
  repeat match type of H with
         | context [if ?c then (None, _) else _] => destruct c; [discriminate|]
         end.
  destruct (_clean_merchant_name_with_context _ _ _ _) as [place self1].
  injection H as <- <-.
  destruct amounts as [|a0 [|a1 [|a2 more]]]; simpl; auto.
Qed.

Lemma build_transaction_amount_fields_witness :
  let trans :=
    mkTransaction (Some "01/31/2025") (Some "Interest") (Some "INTEREST PAYMENT")
      None (Some (Num f_1100)) (Some NoneVal) (Some (Num f_100)) None None in
  let self' :=
    set_merchant_cache (<["INTEREST PAYMENT" := "Interest"]> ∅) offline_parser in
  _build_transaction offline_parser "01/31/2025" "INTEREST PAYMENT"
    [PrimFloat.zero; f_100; f_1100] = (Some trans, self')
  /\ (Debits trans = Some NoneVal /\ Credits trans = Some (Num f_100)
      /\ Balance trans = Some (Num f_1100) /\ Amount trans = None).
Proof.
  intros trans self'. split; [vm_compute; reflexivity|].
  apply (build_transaction_amount_fields offline_parser self' "01/31/2025"
           "INTEREST PAYMENT" [PrimFloat.zero; f_100; f_1100] trans).
  vm_compute; reflexivity.
Defined.

(** ** Cache hits of the normaliser *)

Lemma clean_with_context_short self name amount date :
  Str.len name < 3 ->
  _clean_merchant_name_with_context self name amount date = (name, self).
Proof.
  intros H. unfold _clean_merchant_name_with_context.
  apply Nat.ltb_lt in H. now rewrite H.
Qed.

Lemma clean_with_context_hit self name amount date cached :
  3 <= Str.len name ->
  merchant_cache self !! cache_key_of name = Some cached ->
  _clean_merchant_name_with_context self name amount date = (cached, self).
Proof.
  intros Hlen Hhit. unfold _clean_merchant_name_with_context.
  destruct (Str.len name <? 3) eqn:E; [apply Nat.ltb_lt in E; lia|].
  simpl. now rewrite Hhit.
Qed.

(** C7, as stated, fails: a name of fewer than three characters is
    returned as it is, whatever the cache holds under its key. Here the
    key [AB] is cached as [Abc Corp] and the raw name [ab] comes back. *)
Lemma cache_hit_short_name_counterexample :
  ~ (forall (self : HybridPDFParser) (name : string) (amount : num)
       (date : option string) (cached : string),
        merchant_cache self !! cache_key_of name = Some cached ->
        _clean_merchant_name_with_context self name amount date = (cached, self)).
Proof.
  intros H.
  specialize (H cached_parser "ab" NoneVal None "Abc Corp").
  assert (Hhit : merchant_cache cached_parser !! cache_key_of "ab" = Some "Abc Corp")
    by (vm_compute; reflexivity).
  specialize (H Hhit).
  rewrite clean_with_context_short in H by (vm_compute; lia).
  discriminate H.
Qed.

(** C7, amended. When the uppercase-trimmed form of a raw name is a key
    of the cache, normalisation leaves the parser object, and so the
    cache, unchanged; it returns the cached value if the raw name has at
    least three characters and the raw name itself if it is shorter; and a
    second call with the same raw name, whatever the amount and date,
    returns the same result. *)
Theorem cache_hit_deterministic (self : HybridPDFParser) (name : string)
    (amount : num) (date : option string) (cached : string) :
  merchant_cache self !! cache_key_of name = Some cached ->
  _clean_merchant_name_with_context self name amount date
    = (if Str.len name <? 3 then name else cached, self)
  /\ forall (amount' : num) (date' : option string),
       _clean_merchant_name_with_context
         (snd (_clean_merchant_name_with_context self name amount date))
         name amount' date'
       = _clean_merchant_name_with_context self name amount date.
Proof.
  intros Hhit.
  assert (Hcall : forall a d,
             _clean_merchant_name_with_context self name a d
             = (if Str.len name <? 3 then name else cached, self)).
  { intros a d. destruct (Str.len name <? 3) eqn:E.
    - apply clean_with_context_short. now apply Nat.ltb_lt.
    - apply clean_with_context_hit; [|assumption].
      apply Nat.ltb_ge in E. lia. }
  split; [apply Hcall|].
  intros amount' date'. rewrite (Hcall amount date). simpl. now rewrite Hcall.
Qed.

Lemma cache_hit_deterministic_witness :
  merchant_cache cached_parser !! cache_key_of "walmart #4352 " = Some "Walmart"
  /\ _clean_merchant_name_with_context cached_parser "walmart #4352 " (Num f_45_23)
       (Some "01/15/2025") = ("Walmart", cached_parser).
Proof.
  split; [vm_compute; reflexivity|].
  apply (cache_hit_deterministic cached_parser "walmart #4352 " (Num f_45_23)
           (Some "01/15/2025") "Walmart").
  vm_compute; reflexivity.
Defined.

(** ** The validator *)

Lemma ratio_below_percent k n p q c :
  100 * p = c * q -> 0 < q ->
  ratio_below k n p q = fewer_than_percent k n c.
Proof.
  intros H Hq. unfold ratio_below, fewer_than_percent.
  destruct (q * k <? p * n) eqn:E1, (100 * k <? c * n) eqn:E2; try reflexivity.
  - apply Nat.ltb_lt in E1. apply Nat.ltb_ge in E2. nia.
  - apply Nat.ltb_ge in E1. apply Nat.ltb_lt in E2. nia.
Qed.

Lemma count_if_all test transactions :
  Forall (fun t => test t = true) transactions ->
  count_if test transactions = List.length transactions.
Proof.
  unfold count_if. induction 1 as [|t l Ht _ IH]; simpl; [reflexivity|].
  rewrite Ht. simpl. now rewrite IH.
Qed.

Lemma validate_nonempty transactions method_ :
  transactions <> [] ->
  validate_transactions transactions method_
  = mkValidation (50 <=? unclamped_score transactions)%Z
      (Z.max 0 (unclamped_score transactions))
      (List.length transactions)
      (issues (validate_transactions transactions method_))
      (Some method_).
Proof.
  intros Hne. destruct transactions as [|t l]; [congruence|].
  unfold validate_transactions, unclamped_score, descriptions_of.
  rewrite <- !(ratio_below_percent _ _ 9 10 90) by lia.
  rewrite <- (ratio_below_percent _ _ 8 10 80) by lia.
  rewrite <- (ratio_below_percent _ _ 1 2 50) by lia.
  rewrite length_map.
  set (n := List.length (t :: l)).
  destruct (ratio_below (count_if has_valid_date (t :: l)) n 9 10);
    destruct (ratio_below (count_if has_valid_amount (t :: l)) n 9 10);
    destruct (ratio_below (count_if has_valid_description (t :: l)) n 8 10);
    destruct (n <? 3);
    destruct (ratio_below _ n 1 2);
    reflexivity.
Qed.

(** C3. The validator gives an empty list the score 0 and [valid = false].
    For a non-empty list the score starts at 100 and loses 20 when fewer
    than 90% of the entries have a date of the form MM/DD/YYYY, 30 when
    fewer than 90% have a positive Amount, Credits or Debits, 30 when fewer
    than 80% have a description of at least 3 characters with a letter, 20
    when there are fewer than 3 entries, and 10 when fewer than 50% of the
    descriptions are distinct; the reported score is that number clamped
    at 0, and [valid] holds exactly when that number, before clamping, is
    at least 50. A list of at least 3 entries that all pass the three tests
    and have pairwise different descriptions scores 100. *)
Theorem validate_transactions_score :
  (forall method_ : string,
      score (validate_transactions [] method_) = 0%Z
      /\ valid (validate_transactions [] method_) = false)
  /\ (forall (transactions : list Transaction) (method_ : string),
        transactions <> [] ->
        score (validate_transactions transactions method_)
          = Z.max 0 (unclamped_score transactions)
        /\ (valid (validate_transactions transactions method_) = true
            <-> (50 <= unclamped_score transactions)%Z))
  /\ (forall (transactions : list Transaction) (method_ : string),
        3 <= List.length transactions ->
        Forall (fun t => has_valid_date t = true) transactions ->
        Forall (fun t => has_valid_amount t = true) transactions ->
        Forall (fun t => has_valid_description t = true) transactions ->
        List.NoDup (descriptions_of transactions) ->
        score (validate_transactions transactions method_) = 100%Z
        /\ valid (validate_transactions transactions method_) = true).
Proof.
  split; [intros; split; reflexivity|]. split.
  - intros transactions method_ Hne. rewrite (validate_nonempty _ _ Hne). simpl.
    split; [reflexivity|]. apply Z.leb_le.
  - intros transactions method_ Hlen Hd Ha Hp Hu.
    assert (Hne : transactions <> []) by (destruct transactions; simpl in *; [lia|congruence]).
    rewrite (validate_nonempty _ _ Hne). simpl.
    assert (Hs : unclamped_score transactions = 100%Z).
    { unfold unclamped_score.
      rewrite !count_if_all by assumption.
      rewrite (nodup_fixed_point string_dec Hu).
      unfold descriptions_of. rewrite length_map.
      unfold fewer_than_percent.
      destruct (_ <? 90 * _) eqn:E1; [apply Nat.ltb_lt in E1; lia|].
      destruct (_ <? 80 * _) eqn:E2; [apply Nat.ltb_lt in E2; lia|].
      destruct (_ <? 50 * _) eqn:E3; [apply Nat.ltb_lt in E3; lia|].
      destruct (_ <? 3) eqn:E4; [apply Nat.ltb_lt in E4; lia|].
      reflexivity. }
    rewrite Hs. split; reflexivity.
Qed.

Lemma validate_transactions_score_witness :
  (3 <= List.length sample_statement
   /\ Forall (fun t => has_valid_date t = true) sample_statement
   /\ Forall (fun t => has_valid_amount t = true) sample_statement
   /\ Forall (fun t => has_valid_description t = true) sample_statement
   /\ List.NoDup (descriptions_of sample_statement))
  /\ score (validate_transactions sample_statement "pdfplumber") = 100%Z
  /\ valid (validate_transactions sample_statement "pdfplumber") = true.
Proof.
  assert (H : 3 <= List.length sample_statement
              /\ Forall (fun t => has_valid_date t = true) sample_statement
              /\ Forall (fun t => has_valid_amount t = true) sample_statement
              /\ Forall (fun t => has_valid_description t = true) sample_statement
              /\ List.NoDup (descriptions_of sample_statement)).
  { split; [simpl; lia|].
    split; [repeat constructor; vm_compute; reflexivity|].
    split; [repeat constructor; vm_compute; reflexivity|].
    split; [repeat constructor; vm_compute; reflexivity|].
    unfold descriptions_of, sample_statement. simpl.
    repeat constructor; simpl; intuition discriminate. }
  split; [exact H|].
  destruct H as (H1 & H2 & H3 & H4 & H5).
  exact (proj2 (proj2 validate_transactions_score)
           sample_statement "pdfplumber" H1 H2 H3 H4 H5).
Defined.

(** ** The OCR date repair *)

Lemma Chr_eqb_sym a b : Chr.eqb a b = Chr.eqb b a.
Proof. unfold Chr.eqb. apply Nat.eqb_sym. Qed.

Lemma length_implode l : String.length (implode l) = List.length l.
Proof. induction l as [|c l IH]; simpl; [reflexivity|]. now rewrite IH. Qed.

Lemma split_chr_nonempty sep l : Str.split_chr sep l <> [].
Proof.
  destruct l as [|c tl]; simpl; [discriminate|].
  destruct (Chr.eqb c sep); [discriminate|].
  destruct (Str.split_chr sep tl); discriminate.
Qed.

Lemma join_cons sep x ps :
  ps <> [] -> Str.join sep (x :: ps) = String.append x (String.append sep (Str.join sep ps)).
Proof. destruct ps; [congruence|reflexivity]. Qed.

(** Joining the pieces of a split gives the string back. *)
Lemma join_split_chr sep l :
  Str.join (String sep "") (List.map implode (Str.split_chr sep l)) = implode l.
Proof.
  induction l as [|c tl IH]; [reflexivity|].
  simpl Str.split_chr. destruct (Chr.eqb c sep) eqn:E.
  - apply Chr_eqb_eq in E. subst c.
    rewrite map_cons, join_cons.
    + rewrite IH. reflexivity.
    + intros H. apply map_eq_nil in H. now apply split_chr_nonempty in H.
  - destruct (Str.split_chr sep tl) as [|p ps] eqn:S.
    + now apply split_chr_nonempty in S.
    + destruct ps as [|q qs].
      * simpl in *. now rewrite IH.
      * rewrite map_cons, join_cons by discriminate.
        rewrite map_cons, join_cons in IH by discriminate.
        change (implode (c :: p)) with (String c (implode p)).
        change (implode (c :: tl)) with (String c (implode tl)).
        rewrite <- IH. reflexivity.
Qed.

(** A string with a separator splits into the text before the first
    separator and at least one more piece; the other pieces join to the
    text after that separator. *)
Lemma split_chr_first sep l :
  Str.infixb [sep] l = true ->
  exists ps,
    Str.split_chr sep l = Str.before_aux [sep] l :: ps
    /\ ps <> []
    /\ Str.join (String sep "") (List.map implode ps)
       = implode (skipn (S (List.length (Str.before_aux [sep] l))) l).
Proof.
  induction l as [|c tl IH]; simpl; [discriminate|].
  rewrite (Chr_eqb_sym sep c). destruct (Chr.eqb c sep) eqn:E; simpl.
  - intros _. exists (Str.split_chr sep tl).
    split; [reflexivity|]. split; [apply split_chr_nonempty|].
    apply join_split_chr.
  - intros H. destruct (IH H) as (ps & Hs & Hne & Hj).
    exists ps. rewrite Hs. auto.
Qed.

Lemma split_on_first (s : string) :
  Str.contains "/" s = true ->
  exists ps,
    Str.split_on "/" s = Str.before "/" s :: ps
    /\ ps <> []
    /\ Str.join "/" ps = Str.drop (S (Str.len (Str.before "/" s))) s.
Proof.
  unfold Str.contains, Str.split_on, Str.before, Str.drop, Str.len. intros H.
  destruct (split_chr_first "/" (explode s) H) as (ps & Hs & Hne & Hj).
  exists (List.map implode ps). rewrite Hs, length_implode.
  split; [reflexivity|]. split; [|exact Hj].
  intros E. apply map_eq_nil in E. contradiction.
Qed.

Lemma corrections_table month c :
  corrections month = Some c ->
  (12 < month)%Z /\ corrected_month month = Some c
  /\ Str.zfill (if (10 <=? month)%Z then 2 else 1) (Str.of_Z c) = Str.of_Z c.
Proof.
  unfold corrections, corrected_month.
  repeat match goal with
         | |- context [(month =? ?k)%Z] =>
             destruct (Z.eqb_spec month k);
             [subst month; intros H; injection H as <-;
              split; [lia|split; reflexivity] |]
         end.
  discriminate.
Qed.

Lemma corrections_none month :
  (12 < month)%Z -> corrections month = None ->
  corrected_month month
  = if (1 <? month / 10)%Z && (month mod 10 <=? 2)%Z
    then Some (10 + month mod 10)%Z else None.
Proof.
  unfold corrections, corrected_month. intros Hm.
  destruct (Z.leb_spec month 12); [lia|].
  repeat match goal with
         | |- context [(month =? ?k)%Z] =>
             destruct (Z.eqb_spec month k); [discriminate|]
         end.
  reflexivity.
Qed.

(** C4. On every string the OCR date repair does what the specification
    says ([repaired_date], [corrected_month]): a string without a slash,
    with an unreadable month or with a month up to 12 comes back
    unchanged; the months 42, 41, 40, 14 and 13 become 12, 11, 10, 11 and
    11; any other month above 12 whose tens digit exceeds 1 and whose
    units digit is at most 2 becomes 10 plus the units digit; every other
    month is left as it is. In particular 42/29/2025 becomes 12/29/2025. *)
Theorem fix_ocr_date_errors_spec :
  (forall date_str : string, _fix_ocr_date_errors date_str = repaired_date date_str)
  /\ _fix_ocr_date_errors "42/29/2025" = "12/29/2025".
Proof.
  split; [|vm_compute; reflexivity].
  intros date_str. unfold _fix_ocr_date_errors, repaired_date.
  destruct (Str.contains "/" date_str) eqn:Hc; simpl; [|reflexivity].
  destruct (split_on_first date_str Hc) as (ps & Hs & Hne & Hj).
  destruct ps as [|p ps']; [congruence|].
  rewrite Hs. cbn [List.length List.nth List.tl].
  change (S (S (List.length ps')) <? 2) with false. cbv iota.
  destruct (Num.int (Str.before "/" date_str)) as [month|]; [|reflexivity].
  destruct (Z.ltb_spec 12 month) as [Hm|Hm].
  - destruct (corrections month) as [c|] eqn:Ec.
    + destruct (corrections_table month c Ec) as (_ & Hcm & Hz).
      rewrite Hcm, Hz, <- Hj. reflexivity.
    + rewrite (corrections_none month Hm Ec).
      destruct (1 <? month / 10)%Z; simpl andb; cbv iota; [|reflexivity].
      destruct (month mod 10 <=? 2)%Z; [|reflexivity].
      rewrite <- Hj. reflexivity.
  - unfold corrected_month.
    destruct (Z.leb_spec month 12); [reflexivity|lia].
Qed.

(** For a month of one or two digits, the quotient by ten that the repair
    tests is the tens digit. *)
Lemma tens_digit_of_month (month : Z) :
  (0 <= month < 100)%Z -> (month / 10 = (month / 10) mod 10)%Z.
Proof.
  intros H. symmetry. apply Z.mod_small.
  split; [apply Z.div_pos; lia | apply Z.div_lt_upper_bound; lia].
Qed.

(** Some repaired and some untouched dates. *)
Lemma fix_ocr_date_errors_examples :
  List.map _fix_ocr_date_errors
    ["42/29/2025"; "13/05/2025"; "31/05/2025"; "52/05/2025"; "19/05/2025";
     "33/05/2025"; "12/29/2025"; "1/2/2025"; "no date"; "xx/05/2025"]
  = ["12/29/2025"; "11/05/2025"; "11/05/2025"; "12/05/2025"; "19/05/2025";
     "33/05/2025"; "12/29/2025"; "1/2/2025"; "no date"; "xx/05/2025"].
Proof. vm_compute. reflexivity. Qed.

(** ** The Squarespace rule *)

(** The pattern phase turns the raw name into [Squarespace] whatever the
    parser object is: the rule for [SQSP*] returns before the phase asks
    the language model. *)
Lemma clean_merchant_name_squarespace (self : HybridPDFParser) :
  _clean_merchant_name self "SQSP* INV165866692" = "Squarespace".
Proof. destruct self. vm_compute. reflexivity. Qed.

(** Without a language model the entry point returns [Squarespace] on a
    cache miss, and caches it. *)
Lemma clean_with_context_squarespace_offline (self : HybridPDFParser)
    (amount : num) (date : option string) :
  llm_available self = false ->
  merchant_cache self !! cache_key_of "SQSP* INV165866692" = None ->
  fst (_clean_merchant_name_with_context self "SQSP* INV165866692" amount date)
  = "Squarespace".
Proof.
  intros Hllm Hmiss. unfold _clean_merchant_name_with_context.
  change (Str.len "SQSP* INV165866692" <? 3) with false. cbv iota.
  cbv zeta. rewrite Hmiss, clean_merchant_name_squarespace, Hllm. reflexivity.
Qed.

(** C2 fails on the code when the language model is available. The entry
    point hands the result of the pattern phase, [Squarespace], to the
    model again. Here the model repeats the name for the first two prompts
    and answers the third, which asks whether the name is valid, with
    [Yes]; that answer is the only candidate left, and it is returned and
    cached in place of [Squarespace]. *)
Theorem clean_with_context_squarespace_online :
  merchant_cache echoing_parser !! cache_key_of "SQSP* INV165866692" = None
  /\ _clean_merchant_name echoing_parser "SQSP* INV165866692" = "Squarespace"
  /\ llm_clean_merchant_name echoing_parser "Squarespace" (Num f_50) (Some "01/15/2025")
     = "Yes"
  /\ _clean_merchant_name_with_context echoing_parser "SQSP* INV165866692"
       (Num f_50) (Some "01/15/2025")
     = ("Yes",
        set_merchant_cache (<["SQSP* INV165866692" := "Yes"]> ∅) echoing_parser).
Proof. repeat split; vm_compute; reflexivity. Qed.

(** ** Sorting by date string *)

Lemma leb_refl a : Sort.leb a a = true.
Proof.
  induction a as [|c a IH]; simpl; [reflexivity|].
  now rewrite Nat.ltb_irrefl.
Qed.

Lemma leb_total a b : Sort.leb a b = false -> Sort.leb b a = true.
Proof.
  revert b. induction a as [|x a IH]; intros [|y b]; simpl; try discriminate; auto.
  destruct (Chr.code x <? Chr.code y) eqn:E1; [discriminate|].
  destruct (Chr.code y <? Chr.code x) eqn:E2; [reflexivity|]. apply IH.
Qed.

Lemma leb_trans a b c :
  Sort.leb a b = true -> Sort.leb b c = true -> Sort.leb a c = true.
Proof.
  revert b c. induction a as [|x a IH]; intros [|y b] [|z c]; simpl;
    try discriminate; auto.
  destruct (Chr.code x <? Chr.code y) eqn:E1, (Chr.code y <? Chr.code z) eqn:E2,
           (Chr.code y <? Chr.code x) eqn:E3, (Chr.code z <? Chr.code y) eqn:E4,
           (Chr.code x <? Chr.code z) eqn:E5, (Chr.code z <? Chr.code x) eqn:E6;
    try discriminate; try reflexivity;
    repeat match goal with
           | H : (_ <? _) = true |- _ => apply Nat.ltb_lt in H
           | H : (_ <? _) = false |- _ => apply Nat.ltb_ge in H
           end; try lia.
  apply IH.
Qed.

Section Sorting.
Context {A : Type} (key : A -> string).

Let le (x y : A) : Prop := Sort.leb (key x) (key y) = true.

Lemma insert_perm x l : Permutation (Sort.insert key x l) (x :: l).
Proof.
  induction l as [|y l IH]; simpl; [reflexivity|].
  destruct (Sort.leb (key x) (key y)); [reflexivity|].
  rewrite IH. apply perm_swap.
Qed.

Lemma sort_perm l : Permutation (Sort.sort key l) l.
Proof.
  induction l as [|x l IH]; simpl; [reflexivity|].
  rewrite insert_perm. now constructor.
Qed.

Lemma insert_Forall (P : A -> Prop) x l :
  P x -> Forall P l -> Forall P (Sort.insert key x l).
Proof.
  intros Hx. induction 1 as [|y l Hy Hl IH]; simpl.
  - constructor; [exact Hx|constructor].
  - destruct (Sort.leb (key x) (key y)); repeat constructor; assumption.
Qed.

Lemma insert_sorted x l :
  Sorted.StronglySorted le l -> Sorted.StronglySorted le (Sort.insert key x l).
Proof.
  induction 1 as [|y l Hl IH Hy]; simpl.
  - constructor; constructor.
  - destruct (Sort.leb (key x) (key y)) eqn:E.
    + constructor; [constructor; assumption|].
      constructor; [exact E|].
      eapply Forall_impl; [exact Hy|].
      intros z Hz. unfold le in *. eapply leb_trans; eassumption.
    + constructor; [exact IH|].
      apply insert_Forall; [|exact Hy]. apply leb_total. exact E.
Qed.

Lemma sort_sorted l : Sorted.StronglySorted le (Sort.sort key l).
Proof.
  induction l as [|x l IH]; simpl; [constructor|]. now apply insert_sorted.
Qed.

End Sorting.

(** ** The reconciler *)

Lemma find_match_some a B idx (M : gset nat) b j :
  find_match a B idx M = Ok (Some (b, j)) ->
  idx <= j /\ nth_error B (j - idx) = Some b /\ j ∉ M.
Proof.
  revert idx. induction B as [|b0 rest IH]; intros idx H; simpl in H; [discriminate|].
  assert (Hrec : find_match a rest (S idx) M = Ok (Some (b, j)) ->
                 idx <= j /\ nth_error (b0 :: rest) (j - idx) = Some b /\ j ∉ M).
  { intros H'. apply IH in H' as (Hle & Hn & Hm).
    split; [lia|]. split; [|exact Hm].
    replace (j - idx) with (S (j - S idx)) by lia. exact Hn. }
  destruct (bool_decide (idx ∈ M)) eqn:Em; [auto|].
  destruct (String.eqb (date_of a) (date_of b0)); [|auto].
  destruct (amounts_close (match_amount a) (match_amount b0)) as [[|]|];
    [|auto|discriminate].
  injection H as <- <-. rewrite Nat.sub_diag.
  split; [lia|]. split; [reflexivity|].
  now apply bool_decide_eq_false in Em.
Qed.

Lemma merge_matched_is_merge self a b ma mb r self1 :
  merge_matched self a b ma mb = (r, self1) -> is_merge_of ma mb a b r.
Proof.
  unfold merge_matched.
  destruct (_clean_merchant_name_with_context _ _ _ _) as [place s1].
  intros H. injection H as <- _. exists place. reflexivity.
Qed.

Lemma pass1_spec B ma mb A :
  forall self merged (M : gset nat) out (M' : gset nat) self',
    pass1 self A B ma mb merged M = Ok (out, M', self') ->
    exists recs : list (option nat * Transaction),
      out = (merged ++ List.map snd recs)%list
      /\ Forall2 (emitted_for ma mb B) A recs
      /\ (forall j, j ∈ M' <-> In j (matched_indices recs) \/ j ∈ M)
      /\ List.NoDup (matched_indices recs)
      /\ Forall (fun j => (j ∉ M) /\ j < List.length B) (matched_indices recs).
Proof.
  induction A as [|a rest IH]; intros self merged M out M' self' H; simpl in H.
  - injection H as <- <- _. exists []. simpl.
    rewrite app_nil_r. repeat split; try constructor; tauto.
  - assert (Hone : forall self1,
               pass1 self1 rest B ma mb
                 (merged ++ [set_extraction_method (only_tag ma) a])%list M
               = Ok (out, M', self') ->
               exists recs : list (option nat * Transaction),
                 out = (merged ++ List.map snd recs)%list
                 /\ Forall2 (emitted_for ma mb B) (a :: rest) recs
                 /\ (forall j, j ∈ M' <-> In j (matched_indices recs) \/ j ∈ M)
                 /\ List.NoDup (matched_indices recs)
                 /\ Forall (fun j => (j ∉ M) /\ j < List.length B) (matched_indices recs)).
    { intros self1 H1. apply IH in H1 as (recs & Ho & Hf & Hm & Hn & Hr).
      exists ((None, set_extraction_method (only_tag ma) a) :: recs).
      rewrite Ho, <- app_assoc. simpl.
      repeat split; try assumption; try apply Hm.
      constructor; [reflexivity|assumption]. }
    destruct (find_match a B 0 M) as [[[b j]|]|] eqn:Ef; [| eauto | discriminate].
    destruct (dict_truthy b); [|eauto].
    apply find_match_some in Ef as (_ & Hnth & HjM). rewrite Nat.sub_0_r in Hnth.
    destruct (merge_matched self a b ma mb) as [r self1] eqn:Emerge.
    apply merge_matched_is_merge in Emerge.
    apply IH in H as (recs & Ho & Hf & Hm & Hn & Hr).
    exists ((Some j, r) :: recs). rewrite Ho, <- app_assoc. simpl.
    split; [reflexivity|]. split.
    { constructor; [|assumption]. exists b. split; assumption. }
    split.
    { intros k. rewrite Hm. rewrite elem_of_union, elem_of_singleton.
      intuition congruence. }
    split.
    { constructor; [|assumption]. intros Hin.
      rewrite Forall_forall in Hr. apply list_elem_of_In, Hr in Hin.
      destruct Hin as [Hin _]. apply Hin.
      apply elem_of_union. left. now apply elem_of_singleton. }
    constructor.
    { split; [assumption|]. apply nth_error_Some. congruence. }
    eapply Forall_impl; [exact Hr|]. intros k [Hk Hlt]. split; [|assumption].
    intros HkM. apply Hk. apply elem_of_union. now right.
Qed.

Lemma existsb_eqb_In idx js : existsb (Nat.eqb idx) js = true <-> In idx js.
Proof.
  rewrite existsb_exists. split.
  - intros (x & Hin & He). apply Nat.eqb_eq in He. now subst.
  - intros H. exists idx. split; [assumption|apply Nat.eqb_refl].
Qed.

Lemma pass2_outside B mb (M : gset nat) js :
  (forall j, j ∈ M <-> In j js) ->
  forall idx,
    pass2 B idx M mb = List.map (tagged_only mb) (entries_outside js idx B).
Proof.
  intros HM. induction B as [|b rest IH]; intros idx; simpl; [reflexivity|].
  destruct (bool_decide (idx ∈ M)) eqn:Em.
  - apply bool_decide_eq_true in Em. apply HM, existsb_eqb_In in Em.
    rewrite Em. apply IH.
  - apply bool_decide_eq_false in Em.
    destruct (existsb (Nat.eqb idx) js) eqn:Ex.
    + apply existsb_eqb_In, HM in Ex. contradiction.
    + simpl. now rewrite IH.
Qed.

Lemma entries_outside_filter js B idx :
  List.length (entries_outside js idx B)
  = List.length (List.filter (fun k => negb (existsb (Nat.eqb k) js))
                   (seq idx (List.length B))).
Proof.
  revert idx. induction B as [|b rest IH]; intros idx; simpl; [reflexivity|].
  destruct (existsb (Nat.eqb idx) js); simpl; now rewrite IH.
Qed.

Lemma filter_split_length {X} (f : X -> bool) l :
  List.length (List.filter f l) + List.length (List.filter (fun x => negb (f x)) l)
  = List.length l.
Proof.
  induction l as [|x l IH]; simpl; [reflexivity|].
  destruct (f x); simpl; lia.
Qed.

Lemma entries_outside_length js B :
  List.NoDup js -> Forall (fun j => j < List.length B) js ->
  List.length (entries_outside js 0 B) = List.length B - List.length js.
Proof.
  intros Hnd Hlt. rewrite entries_outside_filter.
  pose proof (filter_split_length (fun k => existsb (Nat.eqb k) js)
                (seq 0 (List.length B))) as Hs.
  rewrite length_seq in Hs.
  assert (Hp : Permutation
                 (List.filter (fun k => existsb (Nat.eqb k) js) (seq 0 (List.length B)))
                 js).
  { apply Permutation.NoDup_Permutation; [apply List.NoDup_filter, seq_NoDup|exact Hnd|].
    intros k. rewrite filter_In, in_seq, existsb_eqb_In.
    rewrite Forall_forall in Hlt. split; [tauto|].
    intros Hin. split; [|assumption].
    apply list_elem_of_In, Hlt in Hin. lia. }
  apply Permutation_length in Hp. lia.
Qed.

Lemma cross_reference_nonempty self a A b B ma mb :
  cross_reference_transactions self (a :: A) (b :: B) ma mb
  = match pass1 self (a :: A) (b :: B) ma mb [] ∅ with
    | TypeError => TypeError
    | Ok (merged, matched_b, self') =>
        Ok (Sort.sort date_of (merged ++ pass2 (b :: B) 0 matched_b mb)%list, self')
    end.
Proof. reflexivity. Qed.

(** C9. When both lists are non-empty, the list the reconciler returns is
    in non-decreasing order of the date strings under character-wise
    string comparison: every record comes before all records after it in
    that order. *)
Theorem cross_reference_sorted_by_date_string (self self' : HybridPDFParser)
    (transactions_a transactions_b out : list Transaction) (method_a method_b : string) :
  transactions_a <> [] ->
  transactions_b <> [] ->
  cross_reference_transactions self transactions_a transactions_b method_a method_b
    = Ok (out, self') ->
  Sorted.StronglySorted date_le out.
Proof.
  intros Ha Hb H.
  destruct transactions_a as [|a A]; [congruence|].
  destruct transactions_b as [|b B]; [congruence|].
  rewrite cross_reference_nonempty in H.
  destruct (pass1 _ _ _ _ _ _ _) as [[[merged M] self1]|]; [|discriminate].
  injection H as <- _. apply (sort_sorted date_of).
Qed.

Lemma cross_reference_sorted_by_date_string_witness :
  let out :=
    [set_extraction_method "pdfplumber (matched with OCR)" walmart_noisy;
     set_extraction_method "pdfplumber only" december_purchase] in
  let self' :=
    set_merchant_cache (<["WAL-MART ASDF123" := "Wal-Mart Asdf"]> ∅) offline_parser in
  ([walmart_noisy; december_purchase] <> [] /\ [walmart_clean] <> []
   /\ cross_reference_transactions offline_parser [walmart_noisy; december_purchase]
        [walmart_clean] "pdfplumber" "OCR" = Ok (out, self'))
  /\ Sorted.StronglySorted date_le out.
Proof.
  intros out self'.
  assert (H : cross_reference_transactions offline_parser
                [walmart_noisy; december_purchase] [walmart_clean] "pdfplumber" "OCR"
              = Ok (out, self')) by (vm_compute; reflexivity).
  split; [split; [discriminate|split; [discriminate|exact H]]|].
  apply (cross_reference_sorted_by_date_string offline_parser self'
           [walmart_noisy; december_purchase] [walmart_clean] out "pdfplumber" "OCR");
    [discriminate|discriminate|exact H].
Defined.

(** The order is not the order of the calendar: the purchase of December
    2024 comes after the one of March 2025. *)
Lemma date_string_order_not_chronological :
  date_le walmart_noisy december_purchase
  /\ date_of walmart_noisy = "03/01/2025" /\ date_of december_purchase = "12/31/2024".
Proof. repeat split. Qed.

(** C10, as stated, fails when one list is empty: the other list is
    returned as it is, so its entries carry no tag of their method. *)
Lemma cross_reference_empty_list_counterexample :
  ~ (forall (self self' : HybridPDFParser)
       (transactions_a transactions_b out : list Transaction)
       (method_a method_b : string),
        cross_reference_transactions self transactions_a transactions_b
          method_a method_b = Ok (out, self') ->
        accounted method_a method_b transactions_a transactions_b out).
Proof.
  intros H.
  specialize (H offline_parser offline_parser [] [walmart_clean] [walmart_clean]
                "pdfplumber" "OCR" eq_refl).
  destruct H as (recs & Hf & _ & _ & Hp & _).
  inversion Hf; subst. simpl in Hp.
  apply Permutation_length_1 in Hp. discriminate Hp.
Qed.

(** C10, amended. Whenever the reconciler returns: if A is empty the
    result is B unchanged, if B is empty it is A unchanged (no record is
    tagged); if both are non-empty every entry is accounted for once, as
    [accounted] says: one record per entry of A (tagged as unique to A's
    method, or a merge with one entry of B), no entry of B merged twice,
    the unmerged entries of B tagged as unique to B's method, and
    [len(A) + len(B) - m] records for [m] merges. *)
Theorem cross_reference_accounts_for_all (self self' : HybridPDFParser)
    (transactions_a transactions_b out : list Transaction) (method_a method_b : string) :
  cross_reference_transactions self transactions_a transactions_b method_a method_b
    = Ok (out, self') ->
  (transactions_a = [] -> out = transactions_b)
  /\ (transactions_b = [] -> out = transactions_a)
  /\ (transactions_a <> [] -> transactions_b <> [] ->
      accounted method_a method_b transactions_a transactions_b out).
Proof.
  intros H. split; [|split].
  - intros ->. destruct transactions_b; simpl in H; now injection H as <- _.
  - intros ->. destruct transactions_a; simpl in H; now injection H as <- _.
  - intros Ha Hb.
    destruct transactions_a as [|a A]; [congruence|].
    destruct transactions_b as [|b B]; [congruence|].
    rewrite cross_reference_nonempty in H.
    remember (a :: A) as AA eqn:EA. remember (b :: B) as BB eqn:EB.
    destruct (pass1 _ _ _ _ _ _ _) as [[[merged M] self1]|] eqn:Ep; [|discriminate].
    injection H as <- _.
    apply pass1_spec in Ep as (recs & Ho & Hf & Hm & Hn & Hr).
    simpl in Ho. subst merged.
    assert (HM : forall j, j ∈ M <-> In j (matched_indices recs)).
    { intros j. rewrite Hm. split; [intros [?|Hj]; [assumption|]|tauto].
      now apply not_elem_of_empty in Hj. }
    assert (Hlt : Forall (fun j => j < List.length BB) (matched_indices recs)).
    { eapply Forall_impl; [exact Hr|]. now intros j [_ ?]. }
    rewrite (pass2_outside _ _ _ _ HM).
    exists recs. repeat split; try assumption.
    + apply sort_perm.
    + rewrite (Permutation_length (sort_perm date_of _)).
      rewrite length_app, !length_map, (entries_outside_length _ _ Hn Hlt).
      rewrite <- (Forall2_length _ _ _ Hf).
      assert (List.length (matched_indices recs) <= List.length BB).
      { apply NoDup_incl_length with (l' := seq 0 (List.length BB)) in Hn.
        - now rewrite length_seq in Hn.
        - intros j Hj. apply in_seq. rewrite Forall_forall in Hlt.
          apply list_elem_of_In, Hlt in Hj. lia. }
      lia.
Qed.

Lemma cross_reference_accounts_for_all_witness :
  let out :=
    [set_extraction_method "pdfplumber (matched with OCR)" walmart_noisy;
     set_extraction_method "pdfplumber only" december_purchase] in
  let self' :=
    set_merchant_cache (<["WAL-MART ASDF123" := "Wal-Mart Asdf"]> ∅) offline_parser in
  cross_reference_transactions offline_parser [walmart_noisy; december_purchase]
    [walmart_clean] "pdfplumber" "OCR" = Ok (out, self')
  /\ accounted "pdfplumber" "OCR" [walmart_noisy; december_purchase] [walmart_clean] out.
Proof.
  intros out self'.
  assert (H : cross_reference_transactions offline_parser
                [walmart_noisy; december_purchase] [walmart_clean] "pdfplumber" "OCR"
              = Ok (out, self')) by (vm_compute; reflexivity).
  split; [exact H|].
  apply (cross_reference_accounts_for_all offline_parser self'
           [walmart_noisy; december_purchase] [walmart_clean] out "pdfplumber" "OCR" H);
    discriminate.
Defined.

(** *** When the reconciler returns and when it raises *)

Lemma amounts_close_numeric a b :
  numeric a -> numeric b ->
  exists r, amounts_close (match_amount a) (match_amount b) = Ok r.
Proof.
  unfold numeric, amounts_close. intros Ha Hb.
  destruct (match_amount a); [congruence|].
  destruct (match_amount b); [congruence|]. eexists. reflexivity.
Qed.

Lemma find_match_returns a B idx (M : gset nat) :
  numeric a -> Forall numeric B -> exists found, find_match a B idx M = Ok found.
Proof.
  intros Ha HB. revert idx. induction HB as [|b rest Hb _ IH]; intros idx; simpl.
  - eexists. reflexivity.
  - destruct (bool_decide (idx ∈ M)); [apply IH|].
    destruct (String.eqb (date_of a) (date_of b)); [|apply IH].
    destruct (amounts_close_numeric a b Ha Hb) as [[|] ->]; [|apply IH].
    eexists. reflexivity.
Qed.

Lemma pass1_returns B ma mb A :
  Forall numeric A -> Forall numeric B ->
  forall self merged (M : gset nat),
  exists res, pass1 self A B ma mb merged M = Ok res.
Proof.
  intros HA HB. induction HA as [|a rest Ha _ IH]; intros self merged M; simpl.
  - eexists. reflexivity.
  - destruct (find_match_returns a B 0 M Ha HB) as [[[b j]|] ->]; [|apply IH].
    destruct (dict_truthy b); [|apply IH].
    destruct (merge_matched self a b ma mb). apply IH.
Qed.

(** X13. The reconciler returns a list whenever every amount it
    compares is a number. *)
Lemma cross_reference_returns self A B ma mb :
  Forall numeric A -> Forall numeric B ->
  exists out self', cross_reference_transactions self A B ma mb = Ok (out, self').
Proof.
  intros HA HB. unfold cross_reference_transactions.
  destruct A as [|a A]; [destruct B; eexists; eexists; reflexivity|].
  destruct B as [|b B]; [eexists; eexists; reflexivity|].
  destruct (pass1_returns (b :: B) ma mb (a :: A) HA HB self [] ∅) as [[[m M] s] ->].
  eexists. eexists. reflexivity.
Qed.

(** The example of the specification: the two extractions of one purchase
    give one merged record; the scores of the two originals tie, and the
    original of the first list is kept and cleaned again. *)
Lemma cross_reference_walmart_example :
  cross_reference_transactions offline_parser [walmart_noisy] [walmart_clean]
    "pdfplumber" "OCR"
  = Ok ([set_extraction_method "pdfplumber (matched with OCR)" walmart_noisy],
        set_merchant_cache (<["WAL-MART ASDF123" := "Wal-Mart Asdf"]> ∅) offline_parser)
  /\ score_description "WAL-MART ASDF123" "WAL-MART ASDF123" = 105%Z
  /\ score_description "Walmart" "Walmart" = 105%Z.
Proof. repeat split; vm_compute; reflexivity. Qed.

(** C1 fails on the code for a transaction with three amounts whose first
    amount is zero. Both extraction methods read the interest line of a
    statement; the block parser stores the zero debit as [Debits = None];
    the reconciler takes the value under [Debits] as the amount of the
    transaction, although the credit is 0.05 on both sides, and raises
    [TypeError] when it converts it. No output is produced, neither for
    this pair nor for a pair of ordinary purchases in the same lists. *)
Theorem cross_reference_raises_on_zero_debit :
  let parser1 :=
    set_merchant_cache (<["INTEREST PAYMENT" := "Interest"]> ∅) offline_parser in
  parse_transactions offline_parser interest_line None
    = Some ([interest_transaction], parser1)
  /\ parse_transactions parser1 interest_line None
     = Some ([interest_transaction], parser1)
  /\ Credits interest_transaction = Some (Num f_0_05)
  /\ match_amount interest_transaction = NoneVal
  /\ cross_reference_transactions parser1 [interest_transaction] [interest_transaction]
       "pdfplumber" "OCR" = TypeError
  /\ cross_reference_transactions parser1 [walmart_noisy; interest_transaction]
       [walmart_clean; interest_transaction] "pdfplumber" "OCR" = TypeError.
Proof. repeat split; vm_compute; reflexivity. Qed.

(** ** The parsing loop always finishes *)

Lemma parse_loop_returns fuel :
  forall self lines statement_year i in_section transactions,
    List.length lines - i <= fuel ->
    exists res,
      parse_loop fuel self lines statement_year i in_section transactions = Some res.
Proof.
  induction fuel as [|fuel IH]; intros self lines y i sec acc Hfuel.
  - simpl. destruct (List.length lines <=? i) eqn:E; [eexists; reflexivity|].
    apply Nat.leb_gt in E. lia.
  - simpl. destruct (List.length lines <=? i) eqn:E; [eexists; reflexivity|].
    apply Nat.leb_gt in E.
    repeat match goal with
           | |- context [if ?c then parse_loop _ _ _ _ _ _ _ else _] =>
               destruct c; [apply IH; lia|]
           end.
    destruct (parse_transaction_block self lines i (Some y)) as [[trans consumed] self1].
    apply IH. destruct (0 <? consumed) eqn:Ec; [apply Nat.ltb_lt in Ec|]; lia.
Qed.

(** [parse_transactions] returns a list for every text. *)
Lemma parse_transactions_returns self text statement_year :
  exists res, parse_transactions self text statement_year = Some res.
Proof. unfold parse_transactions. apply parse_loop_returns. lia. Qed.

(** ** The regular expressions of the module *)

(** Each pattern of the source is in the fragment that [Regex.compile]
    reads. *)
Lemma source_patterns_compile :
  forallb (fun pattern => is_some (Regex.compile pattern)) source_patterns = true.
Proof. vm_compute. reflexivity. Qed.

(** The matcher on cases that show the priorities of [re]: the leftmost
    match, greedy repetition under a look-ahead, lazy repetition, case
    folding, word boundaries and group references. *)
Lemma re_sub_examples :
  re.sub false "(\w)(\d{3,})(?=\s|$)" "\1" "WALMART #4352 Autozone6252 X12 9" = "WALMART #4 Autozone X12 9"
  /\ re.sub true "\s+RECUR\s+PURCHASE\.?\s*" " " "XX4297 recur purchase. YSI* MAPLE" = "XX4297 YSI* MAPLE"
  /\ re.sub true "\(No location.*?\)" "" "Depot (no location) (x)" = "Depot  (x)"
  /\ re.sub false "\s+[A-Z0-9]{10,}\b" "" "PIKEAND PINTGRILLINC ALEXANDRIA" = "PIKEAND"
  /\ re.sub false "\bXX+\d{4}\b" "" "XX4297 AXX1234 XXX12345" = " AXX1234 XXX12345"
  /\ re.sub false "([a-z])([A-Z])" "\1 \2" "CashWise" = "Cash Wise"
  /\ re.sub false "^[,\s]+|[,\s]+$" "" " ,, Walmart , " = "Walmart"
  /\ List.map (fun m => re.group m 1)
       (re.finditer false "\$?([0-9,]+\.\d{2})" "#4352 $45.23 1,234.56 7.8")
     = ["45.23"; "1,234.56"].
Proof. repeat split; vm_compute; reflexivity. Qed.

(** ** First match of the reconciler *)

(** The partner that [find_match] returns agrees with the entry of A on
    the date string, its amount is within two cents, and no earlier
    unmatched entry of B does both. *)
Lemma find_match_first a B idx (M : gset nat) b j :
  find_match a B idx M = Ok (Some (b, j)) ->
  String.eqb (date_of a) (date_of b) = true
  /\ amounts_close (match_amount a) (match_amount b) = Ok true
  /\ forall k b',
       idx <= k < j -> nth_error B (k - idx) = Some b' -> k ∉ M ->
       String.eqb (date_of a) (date_of b') = false
       \/ amounts_close (match_amount a) (match_amount b') = Ok false.
Proof.
  revert idx. induction B as [|b0 rest IH]; intros idx H; simpl in H; [discriminate|].
  assert (Hrec : find_match a rest (S idx) M = Ok (Some (b, j)) ->
                 (idx ∈ M
                  \/ String.eqb (date_of a) (date_of b0) = false
                  \/ amounts_close (match_amount a) (match_amount b0) = Ok false) ->
                 String.eqb (date_of a) (date_of b) = true
                 /\ amounts_close (match_amount a) (match_amount b) = Ok true
                 /\ forall k b',
                      idx <= k < j -> nth_error (b0 :: rest) (k - idx) = Some b' -> k ∉ M ->
                      String.eqb (date_of a) (date_of b') = false
                      \/ amounts_close (match_amount a) (match_amount b') = Ok false).
  { intros H' Hskip. apply IH in H' as (Hd & Hc & Hfirst).
    split; [exact Hd|]. split; [exact Hc|].
    intros k b' Hk Hn HkM.
    destruct (Nat.eq_dec k idx) as [->|Hne].
    - rewrite Nat.sub_diag in Hn. injection Hn as <-.
      destruct Hskip as [Hin|[?|?]]; [contradiction|auto|auto].
    - apply (Hfirst k b'); [lia| |exact HkM].
      replace (k - idx) with (S (k - S idx)) in Hn by lia. exact Hn. }
  destruct (bool_decide (idx ∈ M)) eqn:Em.
  { apply bool_decide_eq_true in Em. auto. }
  destruct (String.eqb (date_of a) (date_of b0)) eqn:Ed; [|auto].
  destruct (amounts_close (match_amount a) (match_amount b0)) as [[|]|] eqn:Ec;
    [|auto|discriminate].
  injection H as <- <-. split; [exact Ed|]. split; [exact Ec|].
  intros k b' Hk. lia.
Qed.

(** When [find_match] finds nothing, no unmatched entry of B agrees with
    the entry of A on date and amount. *)
Lemma find_match_none a B idx (M : gset nat) :
  find_match a B idx M = Ok None ->
  forall k b',
    nth_error B k = Some b' -> (idx + k) ∉ M ->
    String.eqb (date_of a) (date_of b') = false
    \/ amounts_close (match_amount a) (match_amount b') = Ok false.
Proof.
  revert idx. induction B as [|b0 rest IH]; intros idx H k b' Hn HkM.
  - destruct k; discriminate.
  - simpl in H.
    assert (Hrec : find_match a rest (S idx) M = Ok None ->
                   forall k', k = S k' ->
                   String.eqb (date_of a) (date_of b') = false
                   \/ amounts_close (match_amount a) (match_amount b') = Ok false).
    { intros H' k' ->. apply (IH (S idx) H' k' b'); [exact Hn|].
      now replace (S idx + k') with (idx + S k') by lia. }
    destruct k as [|k'].
    + simpl in Hn. injection Hn as <-. rewrite Nat.add_0_r in HkM.
      destruct (bool_decide (idx ∈ M)) eqn:Em.
      { apply bool_decide_eq_true in Em. contradiction. }
      destruct (String.eqb (date_of a) (date_of b0)); [|auto].
      destruct (amounts_close (match_amount a) (match_amount b0)) as [[|]|];
        [discriminate|auto|discriminate].
    + destruct (bool_decide (idx ∈ M)); [eauto|].
      destruct (String.eqb (date_of a) (date_of b0)); [|eauto].
      destruct (amounts_close (match_amount a) (match_amount b0)) as [[|]|];
        [discriminate|eauto|discriminate].
Qed.

(** * Further properties *)

(** ** The OCR date repair, continued *)

Lemma fix_ocr_date_errors_repaired (date_str : string) :
  _fix_ocr_date_errors date_str = repaired_date date_str.
Proof.
  unfold _fix_ocr_date_errors, repaired_date.
  destruct (Str.contains "/" date_str) eqn:Hc; simpl; [|reflexivity].
  destruct (split_on_first date_str Hc) as (ps & Hs & Hne & Hj).
  destruct ps as [|p ps']; [congruence|].
  rewrite Hs. cbn [List.length List.nth List.tl].
  change (S (S (List.length ps')) <? 2) with false. cbv iota.
  destruct (Num.int (Str.before "/" date_str)) as [month|]; [|reflexivity].
  destruct (Z.ltb_spec 12 month) as [Hm|Hm].
  - destruct (corrections month) as [c|] eqn:Ec.
    + destruct (corrections_table month c Ec) as (_ & Hcm & Hz).
      rewrite Hcm, Hz, <- Hj. reflexivity.
    + rewrite (corrections_none month Hm Ec).
      destruct (1 <? month / 10)%Z; simpl andb; cbv iota; [|reflexivity].
      destruct (month mod 10 <=? 2)%Z; [|reflexivity].
      rewrite <- Hj. reflexivity.
  - unfold corrected_month.
    destruct (Z.leb_spec month 12); [reflexivity|lia].
Qed.

Lemma corrected_month_range month month' :
  corrected_month month = Some month' ->
  (12 < month)%Z /\ (month' = 10 \/ month' = 11 \/ month' = 12)%Z.
Proof.
  unfold corrected_month.
  destruct (Z.leb_spec month 12); [discriminate|].
  repeat match goal with
         | |- context [(month =? ?k)%Z] =>
             destruct (Z.eqb_spec month k); [intros H'; injection H' as <-; lia|]
         end.
  destruct (1 <? month / 10)%Z; [|discriminate].
  destruct (Z.leb_spec (month mod 10) 2); [|discriminate].
  simpl. intros H'. injection H' as <-.
  pose proof (Z.mod_pos_bound month 10 ltac:(lia)). lia.
Qed.

(** A date that the repair has written is left alone by the repair. *)
Lemma repaired_date_fixed month' rest :
  (month' = 10 \/ month' = 11 \/ month' = 12)%Z ->
  repaired_date (String.append (Str.of_Z month') (String.append "/" rest))
  = String.append (Str.of_Z month') (String.append "/" rest).
Proof.
  intros [H|[H|H]]; subst month'; reflexivity.
Qed.

(** X1. The repair changes a date at most once: repairing a repaired date
    gives the same string. *)
Theorem fix_ocr_date_errors_idempotent (date_str : string) :
  _fix_ocr_date_errors (_fix_ocr_date_errors date_str) = _fix_ocr_date_errors date_str.
Proof.
  rewrite !fix_ocr_date_errors_repaired.
  unfold repaired_date at 2 3.
  destruct (negb (Str.contains "/" date_str)) eqn:Hc.
  - unfold repaired_date. now rewrite Hc.
  - destruct (Num.int (Str.before "/" date_str)) as [month|] eqn:Hi.
    + destruct (corrected_month month) as [month'|] eqn:Hm.
      * apply repaired_date_fixed. now apply corrected_month_range in Hm.
      * unfold repaired_date. now rewrite Hc, Hi, Hm.
    + unfold repaired_date. now rewrite Hc, Hi.
Qed.

(** X2. When the repair changes a date, the month it read was above 12, the
    new month is 10, 11 or 12, and the text after the first slash is the
    text that was there. *)
Theorem fix_ocr_date_errors_change (date_str : string) :
  _fix_ocr_date_errors date_str <> date_str ->
  exists month month' : Z,
    Num.int (Str.before "/" date_str) = Some month
    /\ (12 < month)%Z
    /\ (month' = 10 \/ month' = 11 \/ month' = 12)%Z
    /\ _fix_ocr_date_errors date_str
       = String.append (Str.of_Z month')
           (String.append "/"
              (Str.drop (S (Str.len (Str.before "/" date_str))) date_str)).
Proof.
  rewrite fix_ocr_date_errors_repaired. unfold repaired_date.
  destruct (negb (Str.contains "/" date_str)); [congruence|].
  destruct (Num.int (Str.before "/" date_str)) as [month|]; [|congruence].
  destruct (corrected_month month) as [month'|] eqn:Hm; [|congruence].
  intros _. apply corrected_month_range in Hm as [Hgt Hr].
  exists month, month'. auto.
Qed.

Lemma fix_ocr_date_errors_change_witness :
  _fix_ocr_date_errors "52/07/2025" <> "52/07/2025"
  /\ exists month month' : Z,
       Num.int (Str.before "/" "52/07/2025") = Some month
       /\ (12 < month)%Z
       /\ (month' = 10 \/ month' = 11 \/ month' = 12)%Z
       /\ _fix_ocr_date_errors "52/07/2025"
          = String.append (Str.of_Z month')
              (String.append "/"
                 (Str.drop (S (Str.len (Str.before "/" "52/07/2025"))) "52/07/2025")).
Proof.
  assert (H : _fix_ocr_date_errors "52/07/2025" <> "52/07/2025")
    by (vm_compute; discriminate).
  split; [exact H|]. exact (fix_ocr_date_errors_change "52/07/2025" H).
Defined.

(** ** The merchant cache only grows *)

Lemma cache_extended_refl self : cache_extended self self.
Proof. split; [now destruct self|reflexivity]. Qed.

Lemma cache_extended_trans self1 self2 self3 :
  cache_extended self1 self2 -> cache_extended self2 self3 ->
  cache_extended self1 self3.
Proof.
  intros [E1 S1] [E2 S2]. split.
  - rewrite E2 at 1. rewrite E1. reflexivity.
  - etrans; eassumption.
Qed.

Lemma cache_extended_insert self key value :
  merchant_cache self !! key = None ->
  cache_extended self (set_merchant_cache (<[key := value]> (merchant_cache self)) self).
Proof.
  intros Hmiss. split; [reflexivity|].
  simpl. now apply insert_subseteq.
Qed.

Lemma clean_with_context_extends self name amount date :
  cache_extended self (snd (_clean_merchant_name_with_context self name amount date)).
Proof.
  unfold _clean_merchant_name_with_context.
  destruct (Str.len name <? 3); [apply cache_extended_refl|].
  cbv zeta.
  destruct (merchant_cache self !! cache_key_of name) eqn:Hmiss;
    [apply cache_extended_refl|].
  match goal with
  | |- context [match ?r with Some _ => _ | None => _ end] => destruct r
  end.
  - now apply cache_extended_insert.
  - destruct (negb _); [now apply cache_extended_insert|apply cache_extended_refl].
Qed.

(** ** Stripping *)

Lemma lstrip_by_fixed p l : Str.lstrip_by p (Str.lstrip_by p l) = Str.lstrip_by p l.
Proof.
  induction l as [|c tl IH]; [reflexivity|].
  simpl. destruct (p c) eqn:E; [exact IH|]. simpl. now rewrite E.
Qed.

Lemma lstrip_by_snoc p l c :
  p c = false -> Str.lstrip_by p (l ++ [c]) = (Str.lstrip_by p l ++ [c])%list.
Proof.
  intros Hc. induction l as [|d tl IH]; simpl.
  - now rewrite Hc.
  - destruct (p d); [exact IH|reflexivity].
Qed.

Lemma lstrip_by_head p l :
  Str.lstrip_by p l = [] \/ exists c tl, Str.lstrip_by p l = c :: tl /\ p c = false.
Proof.
  induction l as [|c tl IH]; [now left|].
  simpl. destruct (p c) eqn:E; [exact IH|]. right. now exists c, tl.
Qed.

Lemma rstrip_by_fixed p l : Str.rstrip_by p (Str.rstrip_by p l) = Str.rstrip_by p l.
Proof.
  unfold Str.rstrip_by. now rewrite rev_involutive, lstrip_by_fixed.
Qed.

Lemma lstrip_rstrip_lstrip p l :
  Str.lstrip_by p (Str.rstrip_by p (Str.lstrip_by p l))
  = Str.rstrip_by p (Str.lstrip_by p l).
Proof.
  destruct (lstrip_by_head p l) as [->|(c & tl & -> & Hc)]; [reflexivity|].
  unfold Str.rstrip_by. simpl rev.
  rewrite lstrip_by_snoc by exact Hc.
  rewrite rev_app_distr. simpl. now rewrite Hc.
Qed.

(** A stripped string has nothing left to strip. *)
Lemma strip_by_fixed p s : Str.strip_by p (Str.strip_by p s) = Str.strip_by p s.
Proof.
  unfold Str.strip_by. rewrite explode_implode.
  now rewrite lstrip_rstrip_lstrip, rstrip_by_fixed.
Qed.

Lemma strip_fixed s : Str.strip (Str.strip s) = Str.strip s.
Proof. apply strip_by_fixed. Qed.

(** ** What the block parser builds *)

Lemma build_transaction_rejects self date description amounts self' :
  _build_transaction self date description amounts = (None, self') -> self' = self.
Proof.
  unfold _build_transaction. cbv zeta.
  repeat match goal with
         | |- context [if ?c then (None, self) else _] => destruct c; [congruence|]
         end.
  destruct (_clean_merchant_name_with_context _ _ _ _). discriminate.
Qed.

Lemma build_transaction_builds self date description amounts t self' :
  amounts <> [] ->
  _build_transaction self date description amounts = (Some t, self') ->
  built_transaction t /\ cache_extended self self'.
Proof.
  intros Hne. unfold _build_transaction. cbv zeta.
  destruct (existsb _ _) eqn:Hgarbage; [discriminate|].
  destruct (_ && _); [discriminate|].
  destruct (_ || _) eqn:Hok; [discriminate|].
  apply orb_false_elim in Hok as [Hlen Halpha].
  apply Nat.ltb_ge in Hlen. apply negb_false_iff in Halpha.
  match goal with
  | |- context [_clean_merchant_name_with_context ?s ?n ?a ?d] =>
      pose proof (clean_with_context_extends s n a d) as Hext;
      destruct (_clean_merchant_name_with_context s n a d) as [place self1]
  end.
  simpl in Hext. intros H. injection H as <- <-.
  split; [|exact Hext].
  unfold built_transaction.
  destruct amounts as [|a0 [|a1 [|a2 rest]]]; [congruence| | |]; simpl;
    (split; [now eexists|]); (split; [now eexists|]);
    (split; [eexists; split; [reflexivity|];
             split; [exact Hlen|]; split; [exact Halpha|];
             split; [apply strip_fixed|exact Hgarbage]|]);
    (split; [|split; reflexivity]).
  - left. repeat split; eauto.
  - left. repeat split; eauto.
  - right. unfold positive_or_none. simpl. split; [reflexivity|]. split; [eauto|].
    split.
    + destruct (Num.positive a0) eqn:E; [right; eauto|now left].
    + destruct (Num.positive a1) eqn:E; [right; eauto|now left].
Qed.

Lemma block_facts_none self lines start_idx consumed :
  (List.length lines <= start_idx -> consumed = 0) ->
  (start_idx < List.length lines ->
   1 <= consumed <= 3 /\ start_idx + consumed <= List.length lines) ->
  block_facts self lines start_idx ((None, consumed), self).
Proof.
  intros H0 H1. unfold block_facts.
  split; [|split; [|split; [|split]]]; auto; try congruence.
  apply cache_extended_refl.
Qed.

Lemma block_facts_build self lines start_idx consumed date description amounts t self' :
  List.length amounts <> 0 ->
  start_idx < List.length lines ->
  1 <= consumed <= 3 -> start_idx + consumed <= List.length lines ->
  _build_transaction self date description amounts = (t, self') ->
  block_facts self lines start_idx ((t, consumed), self').
Proof.
  intros Hne Hi Hc Hb Hbuild.
  assert (Hne' : amounts <> []) by (intros ->; now apply Hne).
  unfold block_facts. destruct t as [trans|].
  - destruct (build_transaction_builds _ _ _ _ _ _ Hne' Hbuild) as [Hbt Hext].
    split; [|split; [|split; [|split]]]; try lia; try congruence; try exact Hext.
  - apply build_transaction_rejects in Hbuild. subst self'.
    split; [|split; [|split; [|split]]]; try lia; try congruence.
    apply cache_extended_refl.
Qed.

(** The block parser on a cursor: what it consumes, what it builds and
    what it does to the parser object. *)
Lemma parse_transaction_block_facts self lines start_idx statement_year :
  block_facts self lines start_idx
    (parse_transaction_block self lines start_idx statement_year).
Proof.
  unfold parse_transaction_block.
  repeat step_block;
    repeat match goal with
           | H : (_ || _) = false |- _ => apply orb_false_elim in H as [? ?]
           end;
    nat_facts;
    first [ apply block_facts_none; intros; lia
          | eapply block_facts_build; [| | | |eassumption]; lia ].
Qed.

(** ** The main loop of the parser *)

Lemma non_empty_place t :
  non_empty (get (Place t) "") = true -> Place t <> Some "".
Proof. intros H E. rewrite E in H. discriminate H. Qed.

Lemma parse_loop_facts fuel :
  forall self lines statement_year i in_section transactions res self',
    parse_loop fuel self lines statement_year i in_section transactions
    = Some (res, self') ->
    exists new,
      res = (transactions ++ new)%list
      /\ Forall emitted_transaction new
      /\ List.length new <= List.length lines - i
      /\ cache_extended self self'.
Proof.
  induction fuel as [|fuel IH]; intros self lines y i sec acc res self'; simpl.
  - destruct (List.length lines <=? i) eqn:E; [|discriminate].
    intros H. injection H as <- <-. exists []. rewrite app_nil_r.
    split; [reflexivity|split; [constructor|split; [simpl; lia|apply cache_extended_refl]]].
  - destruct (List.length lines <=? i) eqn:E.
    { intros H. injection H as <- <-. exists []. rewrite app_nil_r.
      split; [reflexivity|split; [constructor|split; [simpl; lia|apply cache_extended_refl]]]. }
    apply Nat.leb_gt in E.
    assert (Hskip : forall sec',
               parse_loop fuel self lines y (i + 1) sec' acc = Some (res, self') ->
               exists new,
                 res = (acc ++ new)%list /\ Forall emitted_transaction new
                 /\ List.length new <= List.length lines - i
                 /\ cache_extended self self').
    { intros sec' H. destruct (IH _ _ _ _ _ _ _ _ H) as (new & -> & Hf & Hl & Hc).
      exists new. split; [reflexivity|split; [exact Hf|split; [lia|exact Hc]]]. }
    repeat match goal with
           | |- context [if ?c then parse_loop _ _ _ _ _ _ _ else _] =>
               destruct c; [apply Hskip|]
           end.
    pose proof (parse_transaction_block_facts self lines i (Some y)) as Hb.
    destruct (parse_transaction_block self lines i (Some y)) as [[trans consumed] self1].
    destruct Hb as (_ & Hcur & _ & Hbuilt & Hext).
    specialize (Hcur E). intros H.
    destruct (IH _ _ _ _ _ _ _ _ H) as (new & -> & Hf & Hl & Hc).
    assert (Hadv : List.length lines - (i + (if 0 <? consumed then consumed else 1))
                   < List.length lines - i)
      by (destruct (0 <? consumed) eqn:Ec; [apply Nat.ltb_lt in Ec|]; lia).
    assert (Hext' : cache_extended self self')
      by (eapply cache_extended_trans; eassumption).
    destruct trans as [t|].
    + destruct (dict_truthy t && non_empty (get (Place t) "")) eqn:Ek.
      * apply andb_prop in Ek as [_ Hp].
        exists (t :: new). rewrite <- app_assoc. simpl.
        split; [reflexivity|split; [|split; [simpl; lia|exact Hext']]].
        constructor; [|exact Hf].
        split; [now apply Hbuilt|now apply non_empty_place].
      * exists new. split; [reflexivity|split; [exact Hf|split; [lia|exact Hext']]].
    + exists new. split; [reflexivity|split; [exact Hf|split; [lia|exact Hext']]].
Qed.

Lemma parse_loop_narrative fuel :
  forall self lines statement_year i transactions,
    List.length lines - i <= fuel ->
    (forall j, i <= j < List.length lines ->
               narrative_line (List.nth j lines "") = true) ->
    parse_loop fuel self lines statement_year i false transactions
    = Some (transactions, self).
Proof.
  induction fuel as [|fuel IH]; intros self lines y i acc Hfuel Hn; cbn [parse_loop].
  - destruct (List.length lines <=? i) eqn:E; [reflexivity|].
    apply Nat.leb_gt in E. lia.
  - destruct (List.length lines <=? i) eqn:E; [reflexivity|].
    apply Nat.leb_gt in E.
    assert (Hnext : parse_loop fuel self lines y (i + 1) false acc = Some (acc, self)).
    { apply IH; [lia|]. intros j Hj. apply Hn. lia. }
    specialize (Hn i ltac:(lia)). unfold narrative_line in Hn. cbv zeta in Hn.
    apply andb_prop in Hn as [Hs Hd].
    apply negb_true_iff in Hs. cbv zeta. rewrite Hs, Hd. cbn [andb negb].
    repeat match goal with
           | |- context [if ?c then parse_loop _ _ _ _ _ _ _ else _] => destruct c
           end; exact Hnext.
Qed.

(** X3. A call of the block parser consumes nothing at or past the end of the
    lines and builds nothing there; inside the lines it consumes one, two
    or three lines, all of which exist; and a call that builds no
    transaction returns the parser object it was given. *)
Theorem parse_transaction_block_cursor self lines start_idx statement_year :
  let '((t, consumed), self') :=
    parse_transaction_block self lines start_idx statement_year in
  (List.length lines <= start_idx -> consumed = 0 /\ t = None)
  /\ (start_idx < List.length lines ->
      1 <= consumed <= 3 /\ start_idx + consumed <= List.length lines)
  /\ (t = None -> self' = self).
Proof.
  pose proof (parse_transaction_block_facts self lines start_idx statement_year) as H.
  destruct (parse_transaction_block self lines start_idx statement_year)
    as [[t consumed] self'].
  destruct H as (H0 & H1 & H2 & _). auto.
Qed.

(** X4. Every transaction in the list that [parse_transactions] returns has a
    date, a non-empty [Place], a trimmed [Place_Original] of at least
    three characters with a letter in it and without any of the
    header words that mark boilerplate, one of the two layouts of the
    amount keys, and neither of the two tags. *)
Theorem parse_transactions_emitted self text statement_year :
  exists transactions self',
    parse_transactions self text statement_year = Some (transactions, self')
    /\ Forall emitted_transaction transactions.
Proof.
  destruct (parse_transactions_returns self text statement_year) as [[ts self'] H].
  exists ts, self'. split; [exact H|].
  unfold parse_transactions in H.
  apply parse_loop_facts in H as (new & -> & Hf & _). exact Hf.
Qed.

(** X5. [parse_transactions] returns at most one transaction for each line of
    the text, and the parser object it returns differs from the one it
    was given in the cache only, which holds every entry it held
    before. *)
Theorem parse_transactions_bounded self text statement_year :
  exists transactions self',
    parse_transactions self text statement_year = Some (transactions, self')
    /\ List.length transactions <= List.length (Str.split_on newline text)
    /\ cache_extended self self'.
Proof.
  destruct (parse_transactions_returns self text statement_year) as [[ts self'] H].
  exists ts, self'. split; [exact H|].
  unfold parse_transactions in H.
  apply parse_loop_facts in H as (new & -> & _ & Hl & Hc).
  split; [simpl; lia|exact Hc].
Qed.

(** X6. A text without a section-start marker in which no line opens with day
    and month digits gives the empty list and leaves the parser object
    unchanged, whatever amounts its lines hold. *)
Theorem parse_transactions_narrative self text statement_year :
  forallb narrative_line (Str.split_on newline text) = true ->
  parse_transactions self text statement_year = Some ([], self).
Proof.
  intros H. unfold parse_transactions.
  apply parse_loop_narrative; [lia|].
  intros j Hj. rewrite forallb_forall in H. apply H. apply nth_In. lia.
Qed.

Lemma parse_transactions_narrative_witness :
  forallb narrative_line (Str.split_on newline narrative_text) = true
  /\ parse_transactions offline_parser narrative_text None = Some ([], offline_parser).
Proof.
  split; [vm_compute; reflexivity|].
  apply (parse_transactions_narrative offline_parser narrative_text None).
  vm_compute; reflexivity.
Defined.

(** ** The cache of cleaned names *)

(** X7. A call of the cleaning entry point changes the parser object in the
    cache only, and there at most under the key of the name it was given:
    every entry that was cached is still cached with the same value, and
    no other key appears. *)
Theorem clean_with_context_frame self name amount date :
  let self' := snd (_clean_merchant_name_with_context self name amount date) in
  cache_extended self self'
  /\ forall key, key <> cache_key_of name ->
                 merchant_cache self' !! key = merchant_cache self !! key.
Proof.
  cbv zeta. split; [apply clean_with_context_extends|].
  intros key Hkey. unfold _clean_merchant_name_with_context.
  destruct (Str.len name <? 3); [reflexivity|]. cbv zeta.
  destruct (merchant_cache self !! cache_key_of name); [reflexivity|].
  match goal with
  | |- context [match ?r with Some _ => _ | None => _ end] => destruct r
  end.
  - simpl. now rewrite lookup_insert_ne.
  - destruct (negb _); [|reflexivity]. simpl. now rewrite lookup_insert_ne.
Qed.

(** X8. When the entry point returns, for a name of three characters or more,
    a string other than that name, the string is cached under the key of
    the name, and every later call with the same name returns it without
    changing the parser, whatever amount and date are passed. *)
Theorem clean_with_context_sticky self name amount date cleaned self' :
  3 <= Str.len name ->
  _clean_merchant_name_with_context self name amount date = (cleaned, self') ->
  cleaned <> name ->
  merchant_cache self' !! cache_key_of name = Some cleaned
  /\ forall amount' date',
       _clean_merchant_name_with_context self' name amount' date' = (cleaned, self').
Proof.
  intros Hlen Hcall Hne.
  assert (Hhit : merchant_cache self' !! cache_key_of name = Some cleaned).
  { revert Hcall. unfold _clean_merchant_name_with_context.
    destruct (Str.len name <? 3) eqn:E; [apply Nat.ltb_lt in E; lia|]. cbv zeta.
    destruct (merchant_cache self !! cache_key_of name) eqn:Hc.
    { intros H. injection H as <- <-. exact Hc. }
    match goal with
    | |- context [match ?r with Some _ => _ | None => _ end] => destruct r
    end.
    - intros H. injection H as <- <-. simpl. apply lookup_insert_eq.
    - destruct (negb _) eqn:En; intros H; injection H as <- <-.
      + simpl. apply lookup_insert_eq.
      + apply negb_false_iff, String.eqb_eq in En. congruence. }
  split; [exact Hhit|].
  intros amount' date'. now apply clean_with_context_hit.
Qed.

Lemma clean_with_context_sticky_witness :
  3 <= Str.len "SQSP* INV165866692"
  /\ _clean_merchant_name_with_context offline_parser "SQSP* INV165866692" NoneVal None
     = ("Squarespace",
        set_merchant_cache (<["SQSP* INV165866692" := "Squarespace"]> ∅) offline_parser)
  /\ "Squarespace" <> "SQSP* INV165866692"
  /\ forall amount' date',
       _clean_merchant_name_with_context
         (set_merchant_cache (<["SQSP* INV165866692" := "Squarespace"]> ∅) offline_parser)
         "SQSP* INV165866692" amount' date'
       = ("Squarespace",
          set_merchant_cache (<["SQSP* INV165866692" := "Squarespace"]> ∅) offline_parser).
Proof.
  assert (H1 : 3 <= Str.len "SQSP* INV165866692") by (vm_compute; lia).
  assert (H2 : _clean_merchant_name_with_context offline_parser "SQSP* INV165866692"
                 NoneVal None
               = ("Squarespace",
                  set_merchant_cache (<["SQSP* INV165866692" := "Squarespace"]> ∅)
                    offline_parser))
    by (vm_compute; reflexivity).
  assert (H3 : "Squarespace" <> "SQSP* INV165866692") by discriminate.
  split; [exact H1|]. split; [exact H2|]. split; [exact H3|].
  apply (clean_with_context_sticky _ _ _ _ _ _ H1 H2 H3).
Defined.

(** ** The validator, continued *)

Lemma nodup_nonempty (l : list string) :
  l <> [] -> 1 <= List.length (nodup string_dec l).
Proof.
  destruct l as [|x l]; [congruence|]. intros _.
  assert (H : In x (nodup string_dec (x :: l))) by (apply nodup_In; now left).
  destruct (nodup string_dec (x :: l)); [destruct H|simpl; lia].
Qed.

Lemma few_and_duplicated (descriptions : list string) :
  descriptions <> [] ->
  List.length descriptions < 3 ->
  ratio_below (List.length (nodup string_dec descriptions))
    (List.length descriptions) 1 2 = false.
Proof.
  intros Hne Hlen. apply nodup_nonempty in Hne.
  unfold ratio_below. apply Nat.ltb_ge. lia.
Qed.

(** X9. The fields of the validator's report agree with each other for every
    list: the score is 100 less the points of the reported issues, so it
    lies between 0 and 100 without the clamp ever acting; [valid] holds
    exactly when the reported score is at least 50; the score is 100
    exactly when no issue is reported; and the count is the length of the
    list. *)
Theorem validate_transactions_report (transactions : list Transaction) (method_ : string) :
  let v := validate_transactions transactions method_ in
  score v = (100 - total_points (issues v))%Z
  /\ (0 <= score v <= 100)%Z
  /\ (valid v = true <-> (50 <= score v)%Z)
  /\ (issues v = [] <-> score v = 100%Z)
  /\ transaction_count v = List.length transactions.
Proof.
  cbv zeta. destruct transactions as [|t l].
  { simpl. repeat split; try lia; try discriminate. }
  assert (Hne : descriptions_of (t :: l) <> []) by discriminate.
  pose proof (few_and_duplicated _ Hne) as Hdup.
  unfold descriptions_of in Hdup. rewrite length_map in Hdup.
  unfold validate_transactions. rewrite length_map.
  set (n := List.length (t :: l)) in *.
  destruct (n <? 3) eqn:Efew.
  - apply Nat.ltb_lt in Efew. rewrite (Hdup Efew).
    destruct (ratio_below (count_if has_valid_date (t :: l)) n 9 10);
      destruct (ratio_below (count_if has_valid_amount (t :: l)) n 9 10);
      destruct (ratio_below (count_if has_valid_description (t :: l)) n 8 10);
      simpl; repeat split; try lia; try discriminate; try reflexivity.
  - destruct (ratio_below (count_if has_valid_date (t :: l)) n 9 10);
      destruct (ratio_below (count_if has_valid_amount (t :: l)) n 9 10);
      destruct (ratio_below (count_if has_valid_description (t :: l)) n 8 10);
      destruct (ratio_below _ n 1 2);
      simpl; repeat split; try lia; try discriminate; try reflexivity.
Qed.

Lemma count_if_perm test l l' :
  Permutation l l' -> count_if test l = count_if test l'.
Proof.
  unfold count_if. induction 1 as [|x l l' _ IH|x y l|l l' l'' _ IH1 _ IH2]; simpl.
  - reflexivity.
  - destruct (test x); simpl; now rewrite IH.
  - destruct (test x), (test y); reflexivity.
  - now rewrite IH1.
Qed.

Lemma nodup_length_perm (l l' : list string) :
  Permutation l l' ->
  List.length (nodup string_dec l) = List.length (nodup string_dec l').
Proof.
  intros H. apply Permutation_length.
  apply Permutation.NoDup_Permutation; try apply NoDup_nodup.
  intros x. rewrite !nodup_In.
  split; apply Permutation_in; [exact H|now apply Permutation_sym].
Qed.

(** X10. The validator's report does not depend on the order of the
    transactions. *)
Theorem validate_transactions_order (l l' : list Transaction) (method_ : string) :
  Permutation l l' ->
  validate_transactions l method_ = validate_transactions l' method_.
Proof.
  intros H. destruct l as [|t l0].
  { apply Permutation_nil in H. now subst l'. }
  destruct l' as [|t' l0'].
  { apply Permutation_sym, Permutation_nil in H. discriminate H. }
  unfold validate_transactions.
  rewrite !(count_if_perm _ _ _ H).
  rewrite (nodup_length_perm _ _ (Permutation_map _ H)).
  rewrite !length_map. rewrite (Permutation_length H). reflexivity.
Qed.

Lemma validate_transactions_order_witness :
  Permutation sample_statement (rev sample_statement)
  /\ validate_transactions sample_statement "OCR"
     = validate_transactions (rev sample_statement) "OCR".
Proof.
  assert (H : Permutation sample_statement (rev sample_statement))
    by apply Permutation_rev.
  split; [exact H|].
  apply (validate_transactions_order sample_statement (rev sample_statement) "OCR" H).
Defined.

(** ** The reconciler, continued *)

Lemma not_candidate a b :
  String.eqb (date_of a) (date_of b) = false
  \/ amounts_close (match_amount a) (match_amount b) = Ok false ->
  ~ candidate a b.
Proof.
  intros [H|H] [Hd Hc].
  - apply String.eqb_neq in H. contradiction.
  - congruence.
Qed.

Lemma pass1_greedy B ma mb :
  Forall (fun b => dict_truthy b = true) B ->
  forall A self merged (M : gset nat) taken out (M' : gset nat) self',
    (forall j, j ∈ M <-> In j taken) ->
    pass1 self A B ma mb merged M = Ok (out, M', self') ->
    exists recs : list (option nat * Transaction),
      out = (merged ++ List.map snd recs)%list
      /\ Forall2 (emitted_for ma mb B) A recs
      /\ greedy B taken A (List.map fst recs)
      /\ (forall j, j ∈ M' <-> In j (matched_indices recs) \/ j ∈ M).
Proof.
  intros HB. induction A as [|a rest IH];
    intros self merged M taken out M' self' HM H; simpl in H.
  - injection H as <- <- _. exists []. simpl. rewrite app_nil_r.
    split; [reflexivity|]. split; [constructor|]. split; [exact I|]. tauto.
  - destruct (find_match a B 0 M) as [[[b j]|]|] eqn:Ef; [| |discriminate].
    + pose proof (find_match_some _ _ _ _ _ _ Ef) as (_ & Hnth & HjM).
      rewrite Nat.sub_0_r in Hnth.
      pose proof (find_match_first _ _ _ _ _ _ Ef) as (Hd & Hc & Hfirst).
      assert (Hb : dict_truthy b = true).
      { rewrite Forall_forall in HB. apply HB.
        apply list_elem_of_In. eapply nth_error_In. exact Hnth. }
      rewrite Hb in H.
      destruct (merge_matched self a b ma mb) as [r self1] eqn:Emerge.
      apply merge_matched_is_merge in Emerge.
      assert (HM1 : forall k, k ∈ ({[j]} ∪ M : gset nat) <-> In k (j :: taken)).
      { intros k. rewrite elem_of_union, elem_of_singleton, HM. simpl.
        split; intros [?|?]; auto. }
      destruct (IH _ _ _ _ _ _ _ HM1 H) as (recs & Ho & Hf & Hg & Hm).
      exists ((Some j, r) :: recs). rewrite Ho, <- app_assoc. simpl.
      split; [reflexivity|]. split.
      { constructor; [|assumption]. exists b. split; assumption. }
      split.
      { split.
        { exists b. split; [exact Hnth|]. split; [now apply String.eqb_eq|exact Hc]. }
        split; [now rewrite <- HM|].
        split; [|exact Hg].
        intros k b' Hk Hn Hnot. apply not_candidate.
        apply (Hfirst k b'); [lia|now rewrite Nat.sub_0_r|now rewrite HM]. }
      intros k. rewrite Hm, elem_of_union, elem_of_singleton.
      split; [intros [?|[?|?]]|intros [[?|?]|?]]; auto.
    + destruct (IH _ _ _ _ _ _ _ HM H) as (recs & Ho & Hf & Hg & Hm).
      exists ((None, set_extraction_method (only_tag ma) a) :: recs).
      rewrite Ho, <- app_assoc. simpl.
      split; [reflexivity|]. split.
      { constructor; [reflexivity|assumption]. }
      split; [|exact Hm].
      split; [|exact Hg].
      intros k b' Hn Hnot. apply not_candidate.
      apply (find_match_none _ _ _ _ Ef k b'); [exact Hn|]. simpl. now rewrite HM.
Qed.

(** X11. When the reconciler returns for two non-empty lists and no entry of B
    is an empty dictionary, the partners are the greedy ones: going
    through A in order, an entry is merged with the first entry of B, in
    the order of B, that no earlier entry of A took, that has the same
    date string and whose amount is within two cents; it is emitted as
    unique to A's method exactly when there is no such entry. The output
    holds these records and the entries of B that nobody took. *)
Theorem cross_reference_greedy (self self' : HybridPDFParser)
    (transactions_a transactions_b out : list Transaction) (method_a method_b : string) :
  transactions_a <> [] ->
  transactions_b <> [] ->
  Forall (fun b => dict_truthy b = true) transactions_b ->
  cross_reference_transactions self transactions_a transactions_b method_a method_b
    = Ok (out, self') ->
  exists recs : list (option nat * Transaction),
    Forall2 (emitted_for method_a method_b transactions_b) transactions_a recs
    /\ greedy transactions_b [] transactions_a (List.map fst recs)
    /\ Permutation out
         (List.map snd recs
          ++ List.map (tagged_only method_b)
               (entries_outside (matched_indices recs) 0 transactions_b))%list.
Proof.
  intros Ha Hb HB H.
  destruct transactions_a as [|a A]; [congruence|].
  destruct transactions_b as [|b B]; [congruence|].
  rewrite cross_reference_nonempty in H.
  remember (a :: A) as AA eqn:EA. remember (b :: B) as BB eqn:EB.
  destruct (pass1 _ _ _ _ _ _ _) as [[[merged M] self1]|] eqn:Ep; [|discriminate].
  injection H as <- _.
  assert (H0 : forall j, j ∈ (∅ : gset nat) <-> In j []).
  { intros j. split; [intros Hj; now apply not_elem_of_empty in Hj|intros []]. }
  destruct (pass1_greedy BB method_a method_b HB _ _ _ _ _ _ _ _ H0 Ep)
    as (recs & Ho & Hf & Hg & Hm).
  simpl in Ho. subst merged.
  assert (HM : forall j, j ∈ M <-> In j (matched_indices recs)).
  { intros j. rewrite Hm. split; [intros [?|Hj]; [assumption|]|tauto].
    now apply not_elem_of_empty in Hj. }
  rewrite (pass2_outside _ _ _ _ HM).
  exists recs. split; [exact Hf|]. split; [exact Hg|]. apply sort_perm.
Qed.

Lemma cross_reference_greedy_witness :
  let out :=
    [set_extraction_method "pdfplumber (matched with OCR)" walmart_noisy;
     set_extraction_method "pdfplumber only" december_purchase] in
  let self' :=
    set_merchant_cache (<["WAL-MART ASDF123" := "Wal-Mart Asdf"]> ∅) offline_parser in
  ([walmart_noisy; december_purchase] <> [] /\ [walmart_clean] <> []
   /\ Forall (fun b => dict_truthy b = true) [walmart_clean]
   /\ cross_reference_transactions offline_parser [walmart_noisy; december_purchase]
        [walmart_clean] "pdfplumber" "OCR" = Ok (out, self'))
  /\ exists recs : list (option nat * Transaction),
       Forall2 (emitted_for "pdfplumber" "OCR" [walmart_clean])
         [walmart_noisy; december_purchase] recs
       /\ greedy [walmart_clean] [] [walmart_noisy; december_purchase] (List.map fst recs)
       /\ Permutation out
            (List.map snd recs
             ++ List.map (tagged_only "OCR")
                  (entries_outside (matched_indices recs) 0 [walmart_clean]))%list.
Proof.
  intros out self'.
  assert (H : cross_reference_transactions offline_parser
                [walmart_noisy; december_purchase] [walmart_clean] "pdfplumber" "OCR"
              = Ok (out, self')) by (vm_compute; reflexivity).
  assert (HB : Forall (fun b => dict_truthy b = true) [walmart_clean])
    by (constructor; [reflexivity|constructor]).
  split; [split; [discriminate|split; [discriminate|split; [exact HB|exact H]]]|].
  apply (cross_reference_greedy offline_parser self'
           [walmart_noisy; december_purchase] [walmart_clean] out "pdfplumber" "OCR");
    [discriminate|discriminate|exact HB|exact H].
Defined.

Lemma find_match_other_dates a B :
  (forall b, In b B -> date_of a <> date_of b) ->
  forall idx (M : gset nat), find_match a B idx M = Ok None.
Proof.
  induction B as [|b rest IH]; intros Hd idx M; simpl; [reflexivity|].
  assert (Hrest : find_match a rest (S idx) M = Ok None).
  { apply IH. intros b' Hb'. apply Hd. now right. }
  destruct (bool_decide (idx ∈ M)); [exact Hrest|].
  destruct (String.eqb (date_of a) (date_of b)) eqn:E; [|exact Hrest].
  apply String.eqb_eq in E. exfalso. apply (Hd b); [now left|exact E].
Qed.

Lemma pass1_other_dates B ma mb A :
  (forall a b, In a A -> In b B -> date_of a <> date_of b) ->
  forall self merged (M : gset nat),
    pass1 self A B ma mb merged M
    = Ok ((merged ++ List.map (tagged_only ma) A)%list, M, self).
Proof.
  induction A as [|a rest IH]; intros Hd self merged M; simpl.
  - now rewrite app_nil_r.
  - rewrite find_match_other_dates by (intros b Hb; apply Hd; [now left|exact Hb]).
    rewrite IH by (intros a' b Ha' Hb; apply Hd; [now right|exact Hb]).
    now rewrite <- app_assoc.
Qed.

Lemma pass2_nothing_matched B mb :
  forall idx, pass2 B idx ∅ mb = List.map (tagged_only mb) B.
Proof.
  induction B as [|b rest IH]; intros idx; simpl; [reflexivity|].
  now rewrite IH.
Qed.

(** X12. When no date string of A occurs in B, the reconciler merges nothing,
    compares no amounts and so cannot raise, and leaves the parser object
    as it was: the output is every entry of A tagged as unique to A's
    method and every entry of B tagged as unique to B's method, sorted by
    date string. *)
Theorem cross_reference_other_dates (self : HybridPDFParser)
    (transactions_a transactions_b : list Transaction) (method_a method_b : string) :
  transactions_a <> [] ->
  transactions_b <> [] ->
  (forall a b, In a transactions_a -> In b transactions_b -> date_of a <> date_of b) ->
  cross_reference_transactions self transactions_a transactions_b method_a method_b
  = Ok (Sort.sort date_of
          (List.map (tagged_only method_a) transactions_a
           ++ List.map (tagged_only method_b) transactions_b)%list,
        self).
Proof.
  intros Ha Hb Hd.
  destruct transactions_a as [|a A]; [congruence|].
  destruct transactions_b as [|b B]; [congruence|].
  rewrite cross_reference_nonempty.
  rewrite (pass1_other_dates _ _ _ _ Hd).
  now rewrite pass2_nothing_matched.
Qed.

Lemma cross_reference_other_dates_witness :
  ([interest_transaction] <> [] /\ [december_purchase] <> []
   /\ forall a b, In a [interest_transaction] -> In b [december_purchase] ->
                  date_of a <> date_of b)
  /\ cross_reference_transactions offline_parser [interest_transaction]
       [december_purchase] "pdfplumber" "OCR"
     = Ok (Sort.sort date_of
             (List.map (tagged_only "pdfplumber") [interest_transaction]
              ++ List.map (tagged_only "OCR") [december_purchase])%list,
           offline_parser).
Proof.
  assert (Hd : forall a b, In a [interest_transaction] -> In b [december_purchase] ->
                           date_of a <> date_of b).
  { intros a b [<-|[]] [<-|[]]. vm_compute. discriminate. }
  split; [split; [discriminate|split; [discriminate|exact Hd]]|].
  apply (cross_reference_other_dates offline_parser [interest_transaction]
           [december_purchase] "pdfplumber" "OCR");
    [discriminate|discriminate|exact Hd].
Defined.

Lemma cross_reference_returns_witness :
  (Forall numeric [walmart_noisy; december_purchase] /\ Forall numeric [walmart_clean])
  /\ exists out self',
       cross_reference_transactions offline_parser [walmart_noisy; december_purchase]
         [walmart_clean] "pdfplumber" "OCR" = Ok (out, self').
Proof.
  assert (HA : Forall numeric [walmart_noisy; december_purchase])
    by (repeat constructor; vm_compute; discriminate).
  assert (HB : Forall numeric [walmart_clean])
    by (repeat constructor; vm_compute; discriminate).
  split; [split; [exact HA|exact HB]|].
  apply (cross_reference_returns offline_parser [walmart_noisy; december_purchase]
           [walmart_clean] "pdfplumber" "OCR" HA HB).
Defined.

Lemma emitted_comes_from ma mb B a p :
  emitted_for ma mb B a p -> comes_from (snd p) a.
Proof.
  unfold emitted_for, comes_from. destruct p as [[j|] r]; simpl.
  - intros (b & _ & place & ->). simpl. repeat split.
  - intros ->. simpl. repeat split.
Qed.

Lemma entries_outside_In js t B :
  forall idx, In t (entries_outside js idx B) -> In t B.
Proof.
  induction B as [|b rest IH]; intros idx; simpl; [tauto|].
  destruct (existsb (Nat.eqb idx) js); simpl; intros H.
  - right. eapply IH. exact H.
  - destruct H as [H|H]; [now left|right; eapply IH; exact H].
Qed.

(** X14. When the reconciler returns for two non-empty lists, every
    record of the output is of one of three kinds: an entry of A with the
    tag of A's method alone; a merge of an entry of A with an entry of B;
    or an entry of B with the tag of B's method alone. In each case the
    record carries an extraction tag and has the date string, the four
    amount keys and the review flag of that entry, for a merge those of
    the entry of A: the reconciler changes descriptions and tags only. *)
Theorem cross_reference_keeps_dates_and_amounts (self self' : HybridPDFParser)
    (transactions_a transactions_b out : list Transaction) (method_a method_b : string) :
  transactions_a <> [] ->
  transactions_b <> [] ->
  cross_reference_transactions self transactions_a transactions_b method_a method_b
    = Ok (out, self') ->
  Forall (fun r =>
            (exists a, In a transactions_a /\ comes_from r a
                       /\ (r = tagged_only method_a a
                           \/ exists b, In b transactions_b
                                        /\ is_merge_of method_a method_b a b r))
            \/ (exists b, In b transactions_b /\ comes_from r b
                          /\ r = tagged_only method_b b)) out.
Proof.
  intros Ha Hb H.
  destruct transactions_a as [|a A]; [congruence|].
  destruct transactions_b as [|b B]; [congruence|].
  rewrite cross_reference_nonempty in H.
  remember (a :: A) as AA eqn:EA. remember (b :: B) as BB eqn:EB.
  destruct (pass1 _ _ _ _ _ _ _) as [[[merged M] self1]|] eqn:Ep; [|discriminate].
  injection H as <- _.
  apply pass1_spec in Ep as (recs & Ho & Hf & Hm & _ & _).
  simpl in Ho. subst merged.
  assert (HM : forall j, j ∈ M <-> In j (matched_indices recs)).
  { intros j. rewrite Hm. split; [intros [?|Hj]; [assumption|]|tauto].
    now apply not_elem_of_empty in Hj. }
  rewrite (pass2_outside _ _ _ _ HM).
  rewrite List.Forall_forall. intros r Hr.
  apply (Permutation_in _ (sort_perm date_of _)) in Hr.
  apply in_app_or in Hr as [Hr|Hr].
  - left. apply in_map_iff in Hr as (p & <- & Hp).
    clear - Hf Hp. induction Hf as [|t p' A' recs' He _ IH]; [destruct Hp|].
    destruct Hp as [->|Hp].
    + exists t. split; [now left|].
      split; [eapply emitted_comes_from; exact He|].
      unfold emitted_for in He. destruct p as [[j|] r]; simpl in *.
      * right. destruct He as (b & Hn & Hmerge). exists b.
        split; [eapply nth_error_In; exact Hn|exact Hmerge].
      * now left.
    + destruct (IH Hp) as (t' & Ht' & Hc). exists t'. split; [now right|exact Hc].
  - right. apply in_map_iff in Hr as (t & <- & Ht).
    apply entries_outside_In in Ht.
    exists t. split; [exact Ht|]. split; [|reflexivity].
    unfold comes_from. simpl. repeat split.
Qed.

Lemma cross_reference_keeps_dates_and_amounts_witness :
  let out :=
    [set_extraction_method "pdfplumber (matched with OCR)" walmart_noisy;
     set_extraction_method "pdfplumber only" december_purchase] in
  let self' :=
    set_merchant_cache (<["WAL-MART ASDF123" := "Wal-Mart Asdf"]> ∅) offline_parser in
  ([walmart_noisy; december_purchase] <> [] /\ [walmart_clean] <> []
   /\ cross_reference_transactions offline_parser [walmart_noisy; december_purchase]
        [walmart_clean] "pdfplumber" "OCR" = Ok (out, self'))
  /\ Forall (fun r =>
               (exists a, In a [walmart_noisy; december_purchase] /\ comes_from r a
                          /\ (r = tagged_only "pdfplumber" a
                              \/ exists b, In b [walmart_clean]
                                           /\ is_merge_of "pdfplumber" "OCR" a b r))
               \/ (exists b, In b [walmart_clean] /\ comes_from r b
                             /\ r = tagged_only "OCR" b)) out.
Proof.
  intros out self'.
  assert (H : cross_reference_transactions offline_parser
                [walmart_noisy; december_purchase] [walmart_clean] "pdfplumber" "OCR"
              = Ok (out, self')) by (vm_compute; reflexivity).
  split; [split; [discriminate|split; [discriminate|exact H]]|].
  apply (cross_reference_keeps_dates_and_amounts offline_parser self'
           [walmart_noisy; december_purchase] [walmart_clean] out "pdfplumber" "OCR");
    [discriminate|discriminate|exact H].
Defined.

(** ** The classifier on bank accounts *)

Lemma classify_one_record self is_bank trans :
  fst (classify_one self is_bank trans) = reviewed self trans.
Proof.
  unfold classify_one, reviewed, is_payment_app. cbv zeta.
  destruct (existsb _ (payment_apps self)); destruct is_bank; simpl;
    repeat match goal with
           | |- context [if ?c then _ else _] => destruct c
           end; reflexivity.
Qed.

Lemma reviewed_amounts self trans :
  Amount (reviewed self trans) = Amount trans
  /\ Credits (reviewed self trans) = Credits trans
  /\ Debits (reviewed self trans) = Debits trans.
Proof. unfold reviewed. destruct (is_payment_app self trans); repeat split. Qed.

Lemma classify_one_bank_bucket self trans :
  match snd (classify_one self true trans) with
  | To_income =>
      positive_field (Credits trans) = true
      \/ (positive_field (Debits trans) = false /\ positive_field (Amount trans) = true)
  | To_expenses =>
      positive_field (Credits trans) = false
      /\ (positive_field (Debits trans) = true \/ positive_field (Amount trans) = true)
  | To_neither => has_valid_amount trans = false
  end.
Proof.
  unfold classify_one, has_valid_amount. cbv zeta.
  destruct (existsb _ (payment_apps self)); simpl;
    destruct (positive_field (Credits trans)), (positive_field (Debits trans)),
             (positive_field (Amount trans)); simpl; auto;
    repeat match goal with
           | |- context [if ?c then _ else _] => destruct c
           end; simpl; auto.
Qed.

(** X16. On a bank account the classifier keeps exactly the transactions with
    a positive Amount, Credits or Debits and drops the others from both
    lists. A kept record with a positive credit is income, whatever its
    debit, its keywords or the answer of the model; an expense has no
    positive credit; an income record without a positive credit has no
    positive debit. *)
Theorem classify_bank_account_amounts (self : HybridPDFParser)
    (transactions : list Transaction) :
  let '(income, expenses) := classify_transactions self transactions true in
  List.length income + List.length expenses = count_if has_valid_amount transactions
  /\ Forall (fun r => positive_field (Credits r) = true
                      \/ (positive_field (Debits r) = false
                          /\ positive_field (Amount r) = true)) income
  /\ Forall (fun r => positive_field (Credits r) = false
                      /\ (positive_field (Debits r) = true
                          \/ positive_field (Amount r) = true)) expenses.
Proof.
  induction transactions as [|trans rest IH]; cbn [classify_transactions].
  { split; [reflexivity|]. split; constructor. }
  destruct (classify_transactions self rest true) as [income expenses].
  destruct IH as (Hlen & Hin & Hex).
  pose proof (classify_one_bank_bucket self trans) as Hb.
  pose proof (classify_one_record self true trans) as Hr.
  pose proof (reviewed_amounts self trans) as (Ea & Ec & Ed).
  destruct (classify_one self true trans) as [r b]. simpl in Hb, Hr. subst r.
  unfold count_if in *. cbn [List.filter].
  destruct b; cbv beta iota.
  - assert (Hv : has_valid_amount trans = true).
    { unfold has_valid_amount. cbn [existsb].
      destruct Hb as [Hc|[_ Hc]]; rewrite Hc; [|reflexivity].
      now rewrite orb_true_r. }
    rewrite Hv. cbn [List.length]. split; [lia|]. split; [|exact Hex].
    constructor; [|exact Hin]. now rewrite Ea, Ec, Ed.
  - assert (Hv : has_valid_amount trans = true).
    { unfold has_valid_amount. cbn [existsb].
      destruct Hb as [_ [Hc|Hc]]; rewrite Hc; [|reflexivity].
      now rewrite !orb_true_r. }
    rewrite Hv. cbn [List.length]. split; [lia|]. split; [exact Hin|].
    constructor; [|exact Hex]. now rewrite Ea, Ec, Ed.
  - rewrite Hb. auto.
Qed.

Lemma classify_transactions_records self is_bank transactions :
  Forall (fun r => exists trans, In trans transactions /\ r = reviewed self trans)
    (fst (classify_transactions self transactions is_bank)
     ++ snd (classify_transactions self transactions is_bank)).
Proof.
  induction transactions as [|trans rest IH]; cbn [classify_transactions];
    [constructor|].
  destruct (classify_transactions self rest is_bank) as [income expenses].
  cbn [fst snd] in IH.
  assert (IH' : Forall (fun r => exists t, (trans = t \/ In t rest) /\ r = reviewed self t)
                  (income ++ expenses)).
  { eapply Forall_impl; [exact IH|]. intros r (t & Ht & ->). exists t. auto. }
  pose proof (classify_one_record self is_bank trans) as Hr.
  destruct (classify_one self is_bank trans) as [r b]. simpl in Hr. subst r.
  assert (Hhere : exists t, (trans = t \/ In t rest) /\ reviewed self trans = reviewed self t)
    by (exists trans; auto).
  destruct b; simpl.
  - constructor; assumption.
  - apply Forall_app in IH' as [Hi He]. apply Forall_app. split; [exact Hi|].
    constructor; assumption.
  - exact IH'.
Qed.

(** X17. For either account type, every record that the classifier returns is
    one of the transactions it was given, changed at most in the review
    flag: the flag is set on the records in whose description a payment
    app occurs and no other key is written. *)
Theorem classify_transactions_flags_payment_apps (self : HybridPDFParser)
    (transactions : list Transaction) (is_bank : bool) :
  let '(income, expenses) := classify_transactions self transactions is_bank in
  Forall (fun r => exists trans,
              In trans transactions
              /\ (is_payment_app self trans = true -> r = set_manual_review true trans)
              /\ (is_payment_app self trans = false -> r = trans))
    (income ++ expenses).
Proof.
  pose proof (classify_transactions_records self is_bank transactions) as H.
  destruct (classify_transactions self transactions is_bank) as [income expenses].
  simpl in H. eapply Forall_impl; [exact H|].
  intros r (trans & Hin & ->). exists trans. split; [exact Hin|].
  unfold reviewed. destruct (is_payment_app self trans); split; congruence.
Qed.

(** ** Transfers *)

Lemma filter_transfers_eq self transactions :
  filter_transfers self transactions
  = (List.filter (fun t => negb (is_transfer self t)) transactions,
     List.filter (is_transfer self) transactions).
Proof.
  induction transactions as [|trans rest IH]; simpl; [reflexivity|].
  rewrite IH. destruct (is_transfer self trans); reflexivity.
Qed.

(** X18. [filter_transfers] loses and invents nothing: the two lists it
    returns are a rearrangement of its input, each in the order of the
    input; no record of the first list has a transfer keyword in its
    upper-cased original description and every record of the second has
    one. *)
Theorem filter_transfers_partition (self : HybridPDFParser)
    (transactions : list Transaction) :
  let '(real_transactions, transfers) := filter_transfers self transactions in
  Permutation (real_transactions ++ transfers) transactions
  /\ List.length real_transactions + List.length transfers = List.length transactions
  /\ Forall (fun t => is_transfer self t = false) real_transactions
  /\ Forall (fun t => is_transfer self t = true) transfers
  /\ sublist real_transactions transactions
  /\ sublist transfers transactions.
Proof.
  rewrite filter_transfers_eq.
  induction transactions as [|trans rest IH]; simpl.
  { repeat split; constructor. }
  destruct IH as (Hp & Hl & Hr & Ht & Hs1 & Hs2).
  destruct (is_transfer self trans) eqn:E; simpl.
  - split; [now rewrite <- Permutation_middle, Hp|].
    split; [rewrite <- Hl; simpl; lia|].
    split; [exact Hr|]. split; [now constructor|].
    split; [now apply sublist_cons|now apply sublist_skip].
  - split; [now rewrite Hp|].
    split; [rewrite <- Hl; simpl; lia|].
    split; [now constructor|]. split; [exact Ht|].
    split; [now apply sublist_skip|now apply sublist_cons].
Qed.

(** ** Statement type and bank name *)

Lemma Chr_upper_upper c : Chr.upper (Chr.upper c) = Chr.upper c.
Proof.
  destruct c as [[] [] [] [] [] [] [] []]; vm_compute; reflexivity.
Qed.

Lemma Chr_upper_lower c : Chr.upper (Chr.lower c) = Chr.upper c.
Proof.
  destruct c as [[] [] [] [] [] [] [] []]; vm_compute; reflexivity.
Qed.

Lemma Str_map_map f g s : Str.map f (Str.map g s) = Str.map (fun c => f (g c)) s.
Proof.
  unfold Str.map. rewrite explode_implode. now rewrite List.map_map.
Qed.

Lemma Str_map_ext f g s : (forall c, f c = g c) -> Str.map f s = Str.map g s.
Proof.
  intros H. unfold Str.map. f_equal. apply List.map_ext. exact H.
Qed.

Lemma upper_upper s : Str.upper (Str.upper s) = Str.upper s.
Proof.
  unfold Str.upper. rewrite Str_map_map. apply Str_map_ext, Chr_upper_upper.
Qed.

Lemma upper_lower s : Str.upper (Str.lower s) = Str.upper s.
Proof.
  unfold Str.upper, Str.lower. rewrite Str_map_map. apply Str_map_ext, Chr_upper_lower.
Qed.

(** X19. On a text of ASCII characters the verdict of [is_credit_card]
    does not depend on the case of the letters: the text, its upper-cased
    and its lower-cased form get the same verdict. And such a text is
    taken for a credit-card statement only if none of the bank-account
    words occurs in it, however many credit-card words it holds. *)
Theorem is_credit_card_case_and_override (text : string) :
  is_ascii text = true ->
  is_credit_card (Str.upper text) = is_credit_card text
  /\ is_credit_card (Str.lower text) = is_credit_card text
  /\ (is_credit_card text = true ->
      any_in ["CHECKING"; "SAVINGS"; "ACCOUNT ACTIVITY"; "BEGINNING BALANCE";
              "ENDING BALANCE"] (Str.upper text) = false).
Proof.
  intros _. unfold is_credit_card. cbv zeta. rewrite upper_upper, upper_lower.
  split; [reflexivity|]. split; [reflexivity|].
  destruct (any_in _ (Str.upper text)); [discriminate|reflexivity].
Qed.

Lemma is_credit_card_case_and_override_witness :
  is_ascii "Visa Card Account" = true
  /\ is_credit_card (Str.upper "Visa Card Account") = is_credit_card "Visa Card Account"
  /\ is_credit_card (Str.lower "Visa Card Account") = is_credit_card "Visa Card Account"
  /\ (is_credit_card "Visa Card Account" = true ->
      any_in ["CHECKING"; "SAVINGS"; "ACCOUNT ACTIVITY"; "BEGINNING BALANCE";
              "ENDING BALANCE"] (Str.upper "Visa Card Account") = false).
Proof.
  assert (H : is_ascii "Visa Card Account" = true) by (vm_compute; reflexivity).
  split; [exact H|].
  apply (is_credit_card_case_and_override "Visa Card Account" H).
Defined.

Lemma bank_of_lines_names text lines bank :
  bank_of_lines text lines = Some bank ->
  In bank ["Stearns Bank"; "Magnifi Financial"; "Scheels Visa";
           "First National Bank of Omaha"].
Proof.
  induction lines as [|line rest IH]; simpl; [discriminate|].
  repeat match goal with
         | |- context [if ?c then _ else _] => destruct c
         end; try exact IH; intros H; injection H as <-; simpl; auto.
Qed.

(** X20. [detect_bank_name] answers with one of five fixed names for every
    text: a name found in the text is never passed through. *)
Theorem detect_bank_name_names (text : string) :
  In (detect_bank_name text)
    ["Stearns Bank"; "Magnifi Financial"; "Scheels Visa";
     "First National Bank of Omaha"; "Unknown"].
Proof.
  unfold detect_bank_name. cbv zeta.
  destruct (bank_of_lines text _) as [bank|] eqn:E.
  { apply bank_of_lines_names in E. simpl in *. tauto. }
  destruct (re.search _ _ _) as [m|].
  - unfold bank_of_domain.
    repeat match goal with
           | |- context [if ?c then _ else _] => destruct c
           end; simpl; auto 10.
  - destruct (_ && _); simpl; auto 10.
Qed.

(** ** The two extractions and [parse_pdf] *)

Lemma merge_matched_extends self a b ma mb :
  cache_extended self (snd (merge_matched self a b ma mb)).
Proof.
  unfold merge_matched. cbv zeta.
  match goal with
  | |- context [_clean_merchant_name_with_context ?s ?n ?x ?d] =>
      pose proof (clean_with_context_extends s n x d) as H;
      destruct (_clean_merchant_name_with_context s n x d) as [place self1]
  end.
  exact H.
Qed.

Lemma pass1_extends B ma mb A :
  forall self merged (M : gset nat) out (M' : gset nat) self',
    pass1 self A B ma mb merged M = Ok (out, M', self') ->
    cache_extended self self'.
Proof.
  induction A as [|a rest IH]; intros self merged M out M' self' H; simpl in H.
  - injection H as _ _ <-. apply cache_extended_refl.
  - destruct (find_match a B 0 M) as [[[b j]|]|]; [| |discriminate].
    + destruct (dict_truthy b); [|eapply IH; exact H].
      pose proof (merge_matched_extends self a b ma mb) as He.
      destruct (merge_matched self a b ma mb) as [r self1]. simpl in He.
      eapply cache_extended_trans; [exact He|eapply IH; exact H].
    + eapply IH; exact H.
Qed.

Lemma cross_reference_extends self A B ma mb out self' :
  cross_reference_transactions self A B ma mb = Ok (out, self') ->
  cache_extended self self'.
Proof.
  destruct A as [|a A], B as [|b B];
    try (simpl; intros H; injection H as _ <-; apply cache_extended_refl).
  rewrite cross_reference_nonempty.
  destruct (pass1 self (a :: A) (b :: B) ma mb [] ∅) as [[[merged M] self1]|] eqn:Ep;
    [|discriminate].
  intros H. injection H as _ <-. eapply pass1_extends. exact Ep.
Qed.

Lemma cross_reference_nonempty_out self A B ma mb out self' :
  A <> [] -> B <> [] ->
  cross_reference_transactions self A B ma mb = Ok (out, self') -> out <> [].
Proof.
  intros Ha Hb H.
  destruct A as [|a A]; [congruence|]. destruct B as [|b B]; [congruence|].
  rewrite cross_reference_nonempty in H.
  remember (a :: A) as AA eqn:EA. remember (b :: B) as BB eqn:EB.
  destruct (pass1 _ _ _ _ _ _ _) as [[[merged M] self1]|] eqn:Ep; [|discriminate].
  injection H as <- _.
  apply pass1_spec in Ep as (recs & Ho & Hf & _).
  simpl in Ho. subst merged.
  intros E. apply (f_equal (@List.length Transaction)) in E.
  rewrite (Permutation_length (sort_perm date_of _)) in E.
  rewrite length_app, length_map, <- (Forall2_length _ _ _ Hf), EA in E.
  simpl in E. discriminate E.
Qed.

Lemma run_parse_extends self text :
  cache_extended self (snd (run_parse self text)).
Proof.
  unfold run_parse.
  destruct (parse_transactions self text None) as [[ts self']|] eqn:E;
    [|apply cache_extended_refl].
  unfold parse_transactions in E.
  apply parse_loop_facts in E as (_ & _ & _ & _ & Hc). exact Hc.
Qed.

Lemma parse_and_validate_facts self text method_ :
  let '((transactions, validation), self') := parse_and_validate self text method_ in
  cache_extended self self'
  /\ (validation = Unvalidated ->
      transactions = [] /\ self' = self /\ Str.len (Str.strip text) <= 100)
  /\ (transactions <> [] ->
      validation = Validated (validate_transactions transactions method_))
  /\ (transactions = [] -> dict_score validation = 0%Z)
  /\ (100 < Str.len (Str.strip text) ->
      transactions = fst (run_parse self text) /\ validation <> Unvalidated).
Proof.
  unfold parse_and_validate.
  destruct (100 <? Str.len (Str.strip text)) eqn:E.
  - pose proof (run_parse_extends self text) as Hc.
    destruct (run_parse self text) as [ts self']. simpl in Hc.
    apply Nat.ltb_lt in E.
    split; [exact Hc|]. split; [discriminate|]. split; [reflexivity|].
    split; [intros ->; reflexivity|]. intros _. split; [reflexivity|discriminate].
  - apply Nat.ltb_ge in E.
    split; [apply cache_extended_refl|]. split; [auto|]. split; [congruence|].
    split; [reflexivity|lia].
Qed.

Lemma nonempty_true {A} (l : list A) : nonempty l = true <-> l <> [].
Proof. destruct l; simpl; split; congruence. Qed.

Lemma nonempty_false {A} (l : list A) : nonempty l = false <-> l = [].
Proof. destruct l; simpl; split; congruence. Qed.

Lemma dual_method_cases (self self' : HybridPDFParser)
    (text_pdf text_ocr text method_ : string) (transactions : list Transaction)
    (validation : validation_dict) :
  extract_text_dual_method self text_pdf text_ocr
    = Returned ((text, method_, transactions, validation), self') ->
  cache_extended self self'
  /\ ((transactions <> []
       /\ ((method_ = "pdfplumber + OCR (merged)" /\ text = text_pdf)
           \/ (method_ = "OCR + pdfplumber (merged)" /\ text = text_ocr))
       /\ exists score_,
            validation
            = Validated (mkValidation true score_ (List.length transactions) []
                           (Some method_)))
      \/ (transactions <> [] /\ method_ = "pdfplumber" /\ text = text_pdf
          /\ validation = Validated (validate_transactions transactions "pdfplumber"))
      \/ (transactions <> [] /\ method_ = "OCR" /\ text = text_ocr
          /\ validation = Validated (validate_transactions transactions "OCR"))
      \/ (transactions = [] /\ method_ = "pdfplumber (low quality)"
          /\ text = text_pdf)).
Proof.
  unfold extract_text_dual_method.
  pose proof (parse_and_validate_facts self text_pdf "pdfplumber") as H1.
  destruct (parse_and_validate self text_pdf "pdfplumber") as [[ts1 v1] self1].
  destruct H1 as (Hc1 & _ & Hv1 & Hs1 & _).
  pose proof (parse_and_validate_facts self1 text_ocr "OCR") as H2.
  destruct (parse_and_validate self1 text_ocr "OCR") as [[ts2 v2] self2].
  destruct H2 as (Hc2 & _ & Hv2 & Hs2 & _).
  assert (Hc : cache_extended self self2) by (eapply cache_extended_trans; eassumption).
  destruct (nonempty ts1) eqn:E1; [apply nonempty_true in E1|apply nonempty_false in E1];
    (destruct (nonempty ts2) eqn:E2;
     [apply nonempty_true in E2|apply nonempty_false in E2]); cbn [andb].
  - destruct (cross_reference_transactions self2 ts1 ts2 "pdfplumber" "OCR")
      as [[out self3]|] eqn:Ex; [|discriminate].
    pose proof (cross_reference_extends _ _ _ _ _ _ _ Ex) as Hc3.
    pose proof (cross_reference_nonempty_out _ _ _ _ _ _ _ E1 E2 Ex) as Hout.
    destruct (dict_score v2 <=? dict_score v1)%Z; intros H; injection H as <- <- <- <- <-;
      (split; [eapply cache_extended_trans; eassumption|]);
      left; (split; [exact Hout|]); (split; [auto|]); eexists; reflexivity.
  - intros H. injection H as <- <- <- <- <-. split; [exact Hc|].
    right. left. auto.
  - intros H. injection H as <- <- <- <- <-. split; [exact Hc|].
    right. right. left. auto.
  - rewrite (Hs1 E1), (Hs2 E2). cbn [Z.leb Z.compare].
    intros H. injection H as <- <- <- <- <-. split; [exact Hc|].
    right. right. right. auto.
Qed.



(** X22. [parse_pdf] raises [KeyError] exactly when pdfplumber delivers at
    most 100 characters of text, blanks at the ends not counted, and OCR
    gives no transaction, be it that its text is as short or that parsing
    it finds none: the placeholder validation of the method that did not
    run has no [issues] key. *)
Theorem parse_pdf_key_error (self : HybridPDFParser) (text_pdf text_ocr : string) :
  parse_pdf self text_pdf text_ocr = Raised Raised_KeyError
  <-> Str.len (Str.strip text_pdf) <= 100
      /\ (Str.len (Str.strip text_ocr) <= 100 \/ fst (run_parse self text_ocr) = []).
Proof.
  unfold parse_pdf, extract_text_dual_method, parse_and_validate.
  destruct (100 <? Str.len (Str.strip text_pdf)) eqn:Ep.
  - apply Nat.ltb_lt in Ep.
    destruct (run_parse self text_pdf) as [ts1 self1].
    assert (Hno : forall P : Prop,
               (P <-> False) ->
               (P <-> Str.len (Str.strip text_pdf) <= 100
                      /\ (Str.len (Str.strip text_ocr) <= 100
                          \/ fst (run_parse self text_ocr) = []))) by (intros P HP; split; [intros p; apply HP in p; destruct p|intros [H _]; lia]).
    apply Hno.
    destruct (100 <? Str.len (Str.strip text_ocr));
      [destruct (run_parse self1 text_ocr) as [ts2 self2]|];
      destruct ts1 as [|t1 ts1]; try destruct ts2 as [|t2 ts2];
      cbn [nonempty andb dict_score score validate_transactions Z.leb Z.compare];
      try (destruct (cross_reference_transactions _ _ _ _ _) as [[out self3]|];
           [destruct (_ <=? _)%Z|]);
      cbv beta iota; finish_parse_pdf; split; try discriminate; intros [].
  - apply Nat.ltb_ge in Ep.
    destruct (100 <? Str.len (Str.strip text_ocr)) eqn:Eo.
    + apply Nat.ltb_lt in Eo.
      destruct (run_parse self text_ocr) as [ts2 self2]. cbn [fst].
      destruct ts2 as [|t2 ts2];
        cbn [nonempty andb dict_score score validate_transactions Z.leb Z.compare];
        cbv beta iota.
      * split; [auto|reflexivity].
      * finish_parse_pdf. split; [discriminate|].
        intros [_ [H|H]]; [lia|discriminate].
    + apply Nat.ltb_ge in Eo.
      cbn [nonempty andb dict_score Z.leb Z.compare]. cbv beta iota.
      split; [auto|reflexivity].
Qed.

Lemma cache_extended_transfer_keywords self self' :
  cache_extended self self' -> transfer_keywords self' = transfer_keywords self.
Proof. intros [-> _]. reflexivity. Qed.

Lemma is_transfer_reviewed self self1 self2 trans :
  transfer_keywords self1 = transfer_keywords self ->
  is_transfer self (reviewed self2 trans) = is_transfer self1 trans.
Proof.
  intros E. unfold is_transfer, transfer_text, reviewed. rewrite E.
  destruct (is_payment_app self2 trans); reflexivity.
Qed.

(** X23. What [parse_pdf] returns when it returns. The merchant cache
    holds afterwards every entry it held before. Bank name and account
    type are read from the text of one of the two methods. On a
    credit-card statement there is no income row. And no row, income or
    expense, has a transfer keyword in its upper-cased original
    description. *)
Theorem parse_pdf_rows (self self' : HybridPDFParser) (text_pdf text_ocr : string)
    (parsed : parsed_pdf) :
  parse_pdf self text_pdf text_ocr = Returned (parsed, self') ->
  merchant_cache self ⊆ merchant_cache self'
  /\ (exists text,
        (text = text_pdf \/ text = text_ocr)
        /\ bank_name parsed = detect_bank_name text
        /\ is_bank_account parsed = negb (is_credit_card text))
  /\ (is_bank_account parsed = false -> income_rows parsed = [])
  /\ Forall (fun r => is_transfer self r = false)
       (income_rows parsed ++ expense_rows parsed).
Proof.
  unfold parse_pdf.
  destruct (extract_text_dual_method self text_pdf text_ocr)
    as [[[[[text method_] ts] v] self1]|e] eqn:Ex; [|discriminate].
  destruct (dual_method_cases _ _ _ _ _ _ _ _ Ex) as [Hc1 Hcases].
  assert (Htext : text = text_pdf \/ text = text_ocr).
  { destruct Hcases as [(_ & [[_ ?]|[_ ?]] & _)|[(_ & _ & ? & _)|[(_ & _ & ? & _)|(_ & _ & ?)]]];
      auto. }
  destruct v as [|val]; [discriminate|].
  assert (Hc2 : cache_extended self1
                  (snd (if nonempty ts then (ts, self1) else run_parse self1 text))).
  { destruct (nonempty ts); [apply cache_extended_refl|apply run_parse_extends]. }
  destruct (if nonempty ts then (ts, self1) else run_parse self1 text) as [ts2 self2].
  simpl in Hc2.
  assert (Hc : cache_extended self self2) by (eapply cache_extended_trans; eassumption).
  rewrite filter_transfers_eq.
  pose proof (classify_transactions_records self2 (negb (is_credit_card text))
                (List.filter (fun t => negb (is_transfer self2 t)) ts2)) as Hrec.
  pose proof (classify_credit_card_eq self2
                (List.filter (fun t => negb (is_transfer self2 t)) ts2)) as Hcc.
  destruct (classify_transactions self2 _ (negb (is_credit_card text)))
    as [income expenses] eqn:Ecl.
  intros H. injection H as <- <-. cbn [income_rows expense_rows bank_name is_bank_account].
  split; [exact (proj2 Hc)|]. split; [exists text; auto|]. split.
  - intros Hb. rewrite Hb in Ecl. rewrite Hcc in Ecl. now injection Ecl as <- _.
  - cbn [fst snd] in Hrec. eapply Forall_impl; [exact Hrec|].
    intros r (t & Ht & ->). cbv beta.
    rewrite (is_transfer_reviewed self self2 self2 t)
      by (now apply cache_extended_transfer_keywords).
    apply filter_In in Ht as [_ Ht].
    now apply negb_true_iff in Ht.
Qed.

Lemma parse_pdf_rows_witness :
  let purchase :=
    mkTransaction (Some "01/15/2025") (Some "Walmart") (Some "WALMART #4352")
      (Some (Num f_45_23)) None None None None None in
  let parsed := mkParsed [] [purchase] "Stearns Bank" true in
  let self' := set_merchant_cache (<["WALMART #4352" := "Walmart"]> ∅) offline_parser in
  parse_pdf offline_parser statement_text "" = Returned (parsed, self')
  /\ merchant_cache offline_parser ⊆ merchant_cache self'
  /\ (exists text,
        (text = statement_text \/ text = "")
        /\ bank_name parsed = detect_bank_name text
        /\ is_bank_account parsed = negb (is_credit_card text))
  /\ (is_bank_account parsed = false -> income_rows parsed = [])
  /\ Forall (fun r => is_transfer offline_parser r = false)
       (income_rows parsed ++ expense_rows parsed).
Proof.
  intros purchase parsed self'.
  assert (H : parse_pdf offline_parser statement_text "" = Returned (parsed, self'))
    by (vm_compute; reflexivity).
  split; [exact H|].
  apply (parse_pdf_rows offline_parser self' statement_text "" parsed H).
Defined.

(** ** Answers of the language model *)

(** X24. A candidate that [_clean_llm_response] lets through has between 3
    and 60 characters and a letter in it, differs from the original name
    by more than the case of its letters, and holds none of the phrases
    of the prompts; an empty answer is never a candidate. *)
Theorem clean_llm_response_accepts (result original candidate : string) :
  _clean_llm_response result original = Some candidate ->
  result <> ""
  /\ 3 <= Str.len candidate <= 60
  /\ Str.any Chr.isalpha candidate = true
  /\ Str.lower candidate <> Str.lower original
  /\ Forall (fun phrase => Str.contains phrase (Str.lower candidate) = false)
       ["transaction text"; "extract the"; "business name"; "one line";
        "merchant name"; "simplify this"; "remove:"; "fix:"; "remove all";
        "must remove"; "keep:"; "standardize:"].
Proof.
  unfold _clean_llm_response.
  destruct (Str.len result =? 0) eqn:E0; [discriminate|].
  cbv zeta.
  match goal with
  | |- (if existsb ?f ?l then None
        else if ?c then (if String.eqb (Str.lower ?r) _ then None else Some _) else None)
       = Some _ -> _ =>
      destruct (existsb f l) eqn:Ek; [discriminate|];
      destruct c eqn:Ec; [|discriminate];
      destruct (String.eqb (Str.lower r) (Str.lower original)) eqn:Ee; [discriminate|];
      set (res := r) in *
  end.
  intros H. injection H as <-.
  apply andb_prop in Ec as [Ec Halpha]. apply andb_prop in Ec as [Ec Hmax].
  apply andb_prop in Ec as [_ Hmin].
  apply Nat.leb_le in Hmax, Hmin. apply String.eqb_neq in Ee.
  split; [intros ->; vm_compute in E0; discriminate E0|].
  split; [lia|]. split; [exact Halpha|]. split; [exact Ee|].
  apply Forall_forall. intros phrase Hin.
  apply list_elem_of_In in Hin.
  destruct (Str.contains phrase (Str.lower res)) eqn:Ep; [|reflexivity].
  assert (Hex : existsb (fun keyword => Str.contains keyword (Str.lower res))
                  ["transaction text"; "extract the"; "business name"; "one line";
                   "merchant name"; "simplify this"; "remove:"; "fix:"; "remove all";
                   "must remove"; "keep:"; "standardize:"] = true).
  { apply existsb_exists. exists phrase. split; [exact Hin|exact Ep]. }
  rewrite Hex in Ek. discriminate Ek.
Qed.

Lemma clean_llm_response_accepts_witness :
  _clean_llm_response "Output: Walmart" "WALMART #4352" = Some "Walmart"
  /\ "Output: Walmart" <> ""
  /\ 3 <= Str.len "Walmart" <= 60
  /\ Str.any Chr.isalpha "Walmart" = true
  /\ Str.lower "Walmart" <> Str.lower "WALMART #4352"
  /\ Forall (fun phrase => Str.contains phrase (Str.lower "Walmart") = false)
       ["transaction text"; "extract the"; "business name"; "one line";
        "merchant name"; "simplify this"; "remove:"; "fix:"; "remove all";
        "must remove"; "keep:"; "standardize:"].
Proof.
  assert (H : _clean_llm_response "Output: Walmart" "WALMART #4352" = Some "Walmart")
    by (vm_compute; reflexivity).
  split; [exact H|].
  apply (clean_llm_response_accepts "Output: Walmart" "WALMART #4352" "Walmart" H).
Defined.

Lemma index_of_max_lt scores : scores <> [] -> index_of_max scores < List.length scores.
Proof.
  induction scores as [|s rest IH]; [congruence|]. intros _. simpl.
  destruct (forallb _ rest) eqn:E; [lia|].
  destruct rest as [|s' rest']; [discriminate E|].
  specialize (IH ltac:(discriminate)). simpl in *. lia.
Qed.

Lemma cross_validate_member results confidences original :
  results <> [] ->
  In (_cross_validate_merchant_names_weighted results confidences original) results.
Proof.
  unfold _cross_validate_merchant_names_weighted.
  destruct results as [|first rest]; [congruence|]. intros _.
  destruct (_ =? 1); [now left|]. cbv zeta.
  apply nth_In.
  match goal with
  | |- index_of_max ?scores < _ =>
      assert (Hlen : List.length scores = S (List.length rest))
        by (rewrite length_map, length_combine, length_seq; apply Nat.min_id);
      remember scores as l eqn:El; clear El
  end.
  assert (Hne : l <> []) by (intros E; rewrite E in Hlen; discriminate Hlen).
  pose proof (index_of_max_lt l Hne) as Hlt. simpl. lia.
Qed.

Lemma nodup_all_equal (x : string) l :
  Forall (fun y => y = x) l -> nodup string_dec (x :: l) = [x].
Proof.
  intros H. induction H as [|y l Hy _ IH]; [reflexivity|]. subst y.
  change (nodup string_dec (x :: x :: l))
    with (if in_dec string_dec x (x :: l)
          then nodup string_dec (x :: l) else x :: nodup string_dec (x :: l)).
  destruct (in_dec string_dec x (x :: l)) as [_|Hn]; [exact IH|].
  exfalso. apply Hn. now left.
Qed.

(** X25. The name that [_cross_validate_merchant_names_weighted] picks is one
    of the candidates it was given; the original name comes back for the
    empty list only; and candidates that agree up to the case of their
    letters give the first of them, whatever the confidences. *)
Theorem cross_validate_picks_a_candidate (results : list string) (confidences : list Z)
    (original : string) :
  (results = [] ->
   _cross_validate_merchant_names_weighted results confidences original = original)
  /\ (results <> [] ->
      In (_cross_validate_merchant_names_weighted results confidences original) results)
  /\ (forall first rest,
        results = first :: rest ->
        Forall (fun r => Str.lower r = Str.lower first) rest ->
        _cross_validate_merchant_names_weighted results confidences original = first).
Proof.
  split; [intros ->; reflexivity|]. split; [apply cross_validate_member|].
  intros first rest -> Hall.
  unfold _cross_validate_merchant_names_weighted.
  assert (Hl : Forall (fun y => y = Str.lower first) (List.map Str.lower rest)).
  { induction Hall as [|r rest' Hr _ IH]; simpl; constructor; assumption. }
  assert (Hn : nodup string_dec (List.map Str.lower (first :: rest)) = [Str.lower first])
    by (apply nodup_all_equal; exact Hl).
  rewrite Hn. reflexivity.
Qed.

(** X30. The confidence that [_calculate_confidence] gives a candidate
    lies between 20 and 100 for every candidate, original name and prompt
    index: the lower clamp at 0 never acts. *)
Theorem calculate_confidence_range (result original : string) (prompt_idx : nat) :
  (20 <= _calculate_confidence result original prompt_idx <= 100)%Z.
Proof.
  unfold _calculate_confidence. cbv zeta.
  destruct ((3 <=? Str.len result) && (Str.len result <=? 30)) eqn:E1.
  - destruct (Str.head result) as [c|]; [destruct (Chr.isupper c)|];
      destruct (negb _); destruct (Str.contains " " result); destruct (negb _);
      destruct (prompt_idx =? 2); lia.
  - destruct (30 <? Str.len result);
      (destruct (Str.head result) as [c|]; [destruct (Chr.isupper c)|]);
      destruct (negb _); destruct (Str.contains " " result); destruct (negb _);
      destruct (prompt_idx =? 2); lia.
Qed.

(** X26. [llm_clean_merchant_name] returns either the name it was given or a
    candidate that [_clean_llm_response] accepted for the trimmed answer
    to one of its three prompts; without the model it returns the name. *)
Theorem llm_clean_merchant_name_result (self : HybridPDFParser) (merchant : string)
    (amount : num) (date : option string) :
  let cleaned := llm_clean_merchant_name self merchant amount date in
  (llm_available self = false -> cleaned = merchant)
  /\ (cleaned = merchant
      \/ exists idx response,
           idx < 3
           /\ llm_generate self idx merchant amount date = Some response
           /\ _clean_llm_response (Str.strip response) merchant = Some cleaned).
Proof.
  cbv zeta. unfold llm_clean_merchant_name.
  destruct (llm_available self); cbn [negb]; [|split; [reflexivity|now left]].
  split; [discriminate|].
  cbn [fold_left].
  destruct (llm_generate self 0 merchant amount date) as [r0|] eqn:G0;
    [destruct (_clean_llm_response (Str.strip r0) merchant) as [c0|] eqn:C0|];
    (destruct (llm_generate self 1 merchant amount date) as [r1|] eqn:G1;
     [destruct (_clean_llm_response (Str.strip r1) merchant) as [c1|] eqn:C1|]);
    (destruct (llm_generate self 2 merchant amount date) as [r2|] eqn:G2;
     [destruct (_clean_llm_response (Str.strip r2) merchant) as [c2|] eqn:C2|]);
    cbn [fst snd app List.length Nat.leb];
    try (now left);
    right;
    try match goal with
        | |- context [_cross_validate_merchant_names_weighted ?rs ?cs ?o] =>
            pose proof (cross_validate_member rs cs o ltac:(discriminate)) as Hin;
            cbn [In] in Hin;
            repeat (destruct Hin as [Hin|Hin]; [rewrite <- Hin; clear Hin|]);
            [..|destruct Hin]
        end;
    match goal with
    | G : llm_generate self ?i _ _ _ = Some ?r,
      C : _clean_llm_response (Str.strip ?r) _ = Some ?c
      |- exists _ _, _ /\ _ /\ _ = Some ?c =>
        exists i, r; split; [lia|split; assumption]
    end.
Qed.

(** ** User corrections *)

Lemma bump_count place q counts :
  table_count place (bump q counts)
  = if String.eqb q place then S (table_count place counts) else table_count place counts.
Proof.
  unfold table_count. induction counts as [|[p c] rest IH]; simpl.
  - destruct (String.eqb q place); reflexivity.
  - destruct (String.eqb p q) eqn:Epq; simpl.
    + apply String.eqb_eq in Epq. subst p.
      destruct (String.eqb q place); reflexivity.
    + destruct (String.eqb p place) eqn:Epp; [|exact IH].
      apply String.eqb_eq in Epp. subst p. now rewrite String.eqb_sym, Epq.
Qed.

Lemma bump_keys place q counts :
  In place (List.map fst (bump q counts)) <-> place = q \/ In place (List.map fst counts).
Proof.
  induction counts as [|[p c] rest IH]; simpl.
  - split; [intros [?|[]]; auto|intros [?|[]]; auto].
  - destruct (String.eqb p q) eqn:Epq; simpl.
    + apply String.eqb_eq in Epq. subst p.
      split; [intros [?|?]; auto|intros [?|[?|?]]; auto].
    + rewrite IH. tauto.
Qed.

Lemma bump_NoDup q counts :
  List.NoDup (List.map fst counts) -> List.NoDup (List.map fst (bump q counts)).
Proof.
  induction counts as [|[p c] rest IH]; simpl; intros H.
  - constructor; [intros []|constructor].
  - inversion H as [|? ? Hn Hr]; subst.
    destruct (String.eqb p q) eqn:Epq; simpl; [exact H|].
    constructor; [|now apply IH].
    rewrite bump_keys. intros [->|Hin]; [|contradiction].
    now rewrite String.eqb_refl in Epq.
Qed.

Lemma count_merchants_facts places :
  forall counts,
    let counts' :=
      fold_left (fun counts place =>
                   if 3 <=? Str.len place then bump place counts else counts)
        places counts in
    (List.NoDup (List.map fst counts) -> List.NoDup (List.map fst counts'))
    /\ (forall place,
          table_count place counts'
          = table_count place counts
            + (if 3 <=? Str.len place then count_occ string_dec places place else 0))
    /\ (forall place,
          In place (List.map fst counts')
          <-> In place (List.map fst counts) \/ (In place places /\ 3 <= Str.len place)).
Proof.
  induction places as [|q rest IH]; intros counts; cbn [fold_left].
  - split; [auto|]. split.
    + intros place. destruct (3 <=? Str.len place); cbn [count_occ]; lia.
    + intros place. cbn [In]. tauto.
  - cbv zeta in IH.
    destruct (3 <=? Str.len q) eqn:Eq.
    + destruct (IH (bump q counts)) as (Hn & Hc & Hk).
      split; [intros H; apply Hn, bump_NoDup, H|]. split.
      * intros place. rewrite Hc, bump_count. cbn [count_occ].
        destruct (string_dec q place) as [->|Hne].
        -- rewrite String.eqb_refl, Eq. lia.
        -- apply String.eqb_neq in Hne. rewrite Hne. reflexivity.
      * intros place. rewrite Hk, bump_keys. cbn [In]. apply Nat.leb_le in Eq.
        split; [intros [[->|?]|[? ?]]|intros [?|[[->|?] ?]]]; auto.
    + destruct (IH counts) as (Hn & Hc & Hk).
      split; [exact Hn|]. split.
      * intros place. rewrite Hc. cbn [count_occ].
        destruct (string_dec q place) as [->|Hne]; [now rewrite Eq|reflexivity].
      * intros place. rewrite Hk. cbn [In]. apply Nat.leb_gt in Eq.
        split; [intros [?|[? ?]]; auto|intros [?|[[->|?] ?]]; auto; lia].
Qed.

Lemma table_count_In place counts :
  In place (List.map fst counts) -> In (place, table_count place counts) counts.
Proof.
  unfold table_count. induction counts as [|[p c] rest IH]; simpl; [tauto|].
  destruct (String.eqb p place) eqn:E.
  - apply String.eqb_eq in E. subst p. now left.
  - intros [->|Hin]; [now rewrite String.eqb_refl in E|]. right. now apply IH.
Qed.

Lemma store_corrections_snoc counts entry cache :
  store_corrections (counts ++ [entry]) cache
  = let cache' := store_corrections counts cache in
    match cache' !! cache_key_of (fst entry) with
    | Some cached =>
        if String.eqb cached (fst entry) then cache'
        else <[cache_key_of (fst entry) := fst entry]> cache'
    | None => <[cache_key_of (fst entry) := fst entry]> cache'
    end.
Proof. unfold store_corrections. now rewrite fold_left_app. Qed.

Lemma store_corrections_lookup counts cache place :
  In place (List.map fst counts) ->
  (forall other, In other (List.map fst counts) ->
                 cache_key_of other = cache_key_of place -> other = place) ->
  store_corrections counts cache !! cache_key_of place = Some place.
Proof.
  induction counts as [|entry counts IH] using rev_ind; [intros []|].
  intros Hin Huniq. rewrite store_corrections_snoc. cbv zeta.
  rewrite List.map_app, in_app_iff in Hin. simpl in Hin.
  destruct (string_dec (cache_key_of (fst entry)) (cache_key_of place)) as [Ek|Ek].
  - assert (Ee : fst entry = place).
    { apply Huniq; [|exact Ek]. rewrite List.map_app, in_app_iff. right. now left. }
    rewrite Ee.
    destruct (store_corrections counts cache !! cache_key_of place) as [cached|] eqn:El.
    + destruct (String.eqb cached place) eqn:Ec.
      * apply String.eqb_eq in Ec. now subst cached.
      * apply lookup_insert_eq.
    + apply lookup_insert_eq.
  - assert (Hrest : store_corrections counts cache !! cache_key_of place = Some place).
    { apply IH.
      - destruct Hin as [Hin|[Hin|[]]]; [exact Hin|]. congruence.
      - intros other Ho. apply Huniq. rewrite List.map_app, in_app_iff. now left. }
    destruct (store_corrections counts cache !! cache_key_of (fst entry)) as [cached|];
      [destruct (String.eqb cached (fst entry))|];
      try exact Hrest; now rewrite lookup_insert_ne.
Qed.

(** X27. Loading the user's files makes their names authoritative. A name of
    at least three characters that occurs in the files, and whose cache
    key no other such name of the files shares, is afterwards cleaned to
    itself, whatever the cache held under that key before; and the
    frequency table holds it with the number of its occurrences. *)
Theorem load_user_corrections_round_trip (self : HybridPDFParser)
    (files : list (list string)) (place : string) (amount : num) (date : option string) :
  In place (concat files) ->
  3 <= Str.len place ->
  (forall other, In other (concat files) -> 3 <= Str.len other ->
                 cache_key_of other = cache_key_of place -> other = place) ->
  let '(self', merchant_frequency) := _load_user_corrections_from_csvs self files in
  _clean_merchant_name_with_context self' place amount date = (place, self')
  /\ In (place, count_occ string_dec (concat files) place) merchant_frequency.
Proof.
  intros Hin Hlen Huniq. unfold _load_user_corrections_from_csvs. cbv zeta.
  destruct (count_merchants_facts (concat files) []) as (_ & Hc & Hk).
  fold (count_merchants files) in Hc, Hk.
  assert (Hkey : In place (List.map fst (count_merchants files))).
  { apply Hk. right. auto. }
  split.
  - apply clean_with_context_hit; [exact Hlen|]. simpl.
    apply store_corrections_lookup; [exact Hkey|].
    intros other Ho. apply Hk in Ho as [[]|[Ho Hl]]. now apply Huniq.
  - pose proof (table_count_In _ _ Hkey) as Ht. rewrite Hc in Ht.
    apply Nat.leb_le in Hlen. rewrite Hlen in Ht. exact Ht.
Qed.

Lemma load_user_corrections_round_trip_witness :
  (In "Walmart" (concat corrected_files)
   /\ 3 <= Str.len "Walmart"
   /\ forall other, In other (concat corrected_files) -> 3 <= Str.len other ->
                    cache_key_of other = cache_key_of "Walmart" -> other = "Walmart")
  /\ let '(self', merchant_frequency) :=
       _load_user_corrections_from_csvs cached_parser corrected_files in
     _clean_merchant_name_with_context self' "Walmart" NoneVal None = ("Walmart", self')
     /\ In ("Walmart", count_occ string_dec (concat corrected_files) "Walmart")
          merchant_frequency.
Proof.
  assert (H1 : In "Walmart" (concat corrected_files)) by (simpl; auto).
  assert (H2 : 3 <= Str.len "Walmart") by (vm_compute; lia).
  assert (H3 : forall other, In other (concat corrected_files) -> 3 <= Str.len other ->
                             cache_key_of other = cache_key_of "Walmart" ->
                             other = "Walmart").
  { intros other Ho _ Hk. simpl in Ho.
    repeat (destruct Ho as [<-|Ho]; [first [reflexivity|vm_compute in Hk; discriminate Hk]|]).
    destruct Ho. }
  split; [split; [exact H1|split; [exact H2|exact H3]]|].
  apply (load_user_corrections_round_trip cached_parser corrected_files "Walmart"
           NoneVal None H1 H2 H3).
Defined.

(** ** Similar merchants *)

Lemma insert_by_count_perm x l : Permutation (insert_by_count x l) (x :: l).
Proof.
  induction l as [|y l IH]; simpl; [reflexivity|].
  destruct (snd y <=? snd x); [reflexivity|].
  rewrite IH. apply perm_swap.
Qed.

Lemma sort_by_count_perm l : Permutation (sort_by_count l) l.
Proof.
  induction l as [|x l IH]; simpl; [reflexivity|].
  rewrite insert_by_count_perm. now constructor.
Qed.

Lemma insert_by_count_Forall (P : string * nat -> Prop) x l :
  P x -> Forall P l -> Forall P (insert_by_count x l).
Proof.
  intros Hx. induction 1 as [|y l Hy Hl IH]; simpl.
  - constructor; [exact Hx|constructor].
  - destruct (snd y <=? snd x); repeat constructor; assumption.
Qed.

Lemma insert_by_count_sorted x l :
  Sorted.StronglySorted (fun a b => snd b <= snd a) l ->
  Sorted.StronglySorted (fun a b => snd b <= snd a) (insert_by_count x l).
Proof.
  induction 1 as [|y l Hl IH Hy]; simpl.
  - constructor; constructor.
  - destruct (snd y <=? snd x) eqn:E.
    + apply Nat.leb_le in E.
      constructor; [constructor; assumption|].
      constructor; [exact E|].
      eapply Forall_impl; [exact Hy|]. intros z Hz. simpl in *. lia.
    + apply Nat.leb_gt in E. constructor; [exact IH|].
      apply insert_by_count_Forall; [lia|exact Hy].
Qed.

Lemma sort_by_count_sorted l :
  Sorted.StronglySorted (fun a b => snd b <= snd a) (sort_by_count l).
Proof.
  induction l as [|x l IH]; simpl; [constructor|]. now apply insert_by_count_sorted.
Qed.

Lemma firstn_incl {A} (x : A) n l : In x (firstn n l) -> In x l.
Proof.
  revert n. induction l as [|y l IH]; intros [|n]; simpl; try tauto.
  intros [?|H]; [now left|right; eapply IH; exact H].
Qed.

Lemma firstn_sorted {A} (R : A -> A -> Prop) n l :
  Sorted.StronglySorted R l -> Sorted.StronglySorted R (firstn n l).
Proof.
  intros H. revert n. induction H as [|x l Hl IH Hx]; intros [|n]; simpl;
    try constructor; [apply IH|].
  rewrite List.Forall_forall in *. intros y Hy. apply Hx.
  eapply firstn_incl. exact Hy.
Qed.

(** X28. [_get_similar_merchants] returns at most [limit] names; they are the
    names of entries of the frequency table that pass the similarity
    test, listed by non-increasing count; and a name whose letters and
    digits, blanks, hyphens and ampersands removed, number fewer than
    three gets no suggestion. *)
Theorem get_similar_merchants_result (merchant_frequency : list (string * nat))
    (name : string) (limit : nat) :
  (exists entries,
      _get_similar_merchants merchant_frequency name limit = List.map fst entries
      /\ List.length entries <= limit
      /\ Forall (fun e => In e merchant_frequency
                          /\ is_similar (similarity_key name) e = true) entries
      /\ Sorted.StronglySorted (fun a b => snd b <= snd a) entries)
  /\ (Str.len (similarity_key name) < 3 ->
      _get_similar_merchants merchant_frequency name limit = []).
Proof.
  unfold _get_similar_merchants. split.
  - destruct merchant_frequency as [|e0 rest] eqn:Et.
    { exists []. split; [reflexivity|]. split; [simpl; lia|]. split; constructor. }
    rewrite <- Et. cbv zeta.
    exists (firstn limit
              (sort_by_count (List.filter (is_similar (similarity_key name))
                                merchant_frequency))).
    split; [reflexivity|]. split; [apply firstn_le_length|]. split.
    + rewrite List.Forall_forall. intros e He.
      apply firstn_incl in He.
      apply (Permutation_in _ (sort_by_count_perm _)) in He.
      apply filter_In in He. exact He.
    + apply firstn_sorted, sort_by_count_sorted.
  - intros Hshort. destruct merchant_frequency as [|e0 rest] eqn:Et; [reflexivity|].
    rewrite <- Et. cbv zeta.
    assert (Hnone : List.filter (is_similar (similarity_key name)) merchant_frequency = []).
    { clear Et. induction merchant_frequency as [|e l IH]; [reflexivity|]. simpl.
      unfold is_similar at 1. cbv zeta.
      apply Nat.leb_gt in Hshort. rewrite Hshort, andb_false_r. exact IH. }
    rewrite Hnone. simpl. now destruct limit.
Qed.

(** ** The normaliser of model answers *)

(** X29. The name that [_normalize_llm_output] returns has no blank at either
    end: stripping it changes nothing. *)
Theorem normalize_llm_output_stripped (name : string) :
  Str.strip (_normalize_llm_output name) = _normalize_llm_output name.
Proof.
  unfold _normalize_llm_output.
  destruct (Str.len name =? 0) eqn:E.
  - destruct name; [reflexivity|discriminate E].
  - cbv zeta. apply strip_fixed.
Qed.

(** ** The order of records with equal dates *)

Lemma insert_filter {A} (key : A -> string) (k : string) x l :
  List.filter (fun y => String.eqb (key y) k) (Sort.insert key x l)
  = List.filter (fun y => String.eqb (key y) k) (x :: l).
Proof.
  induction l as [|y l IH]; [reflexivity|].
  cbn [Sort.insert].
  destruct (Sort.leb (key x) (key y)) eqn:E; [reflexivity|].
  cbn [List.filter] in *. rewrite IH.
  destruct (String.eqb (key x) k) eqn:Ex; [|reflexivity].
  destruct (String.eqb (key y) k) eqn:Ey; [|reflexivity].
  apply String.eqb_eq in Ex, Ey. rewrite Ex, Ey, leb_refl in E. discriminate E.
Qed.

Lemma sort_filter {A} (key : A -> string) (k : string) l :
  List.filter (fun y => String.eqb (key y) k) (Sort.sort key l)
  = List.filter (fun y => String.eqb (key y) k) l.
Proof.
  induction l as [|x l IH]; [reflexivity|].
  cbn [Sort.sort]. rewrite insert_filter. cbn [List.filter]. now rewrite IH.
Qed.

(** X15. The sort at the end of the reconciler is stable. When the reconciler
    returns for two non-empty lists, the records of the output with any
    one date string are in the order in which the two passes emitted
    them: first the records for the entries of A, in the order of A, then
    the unmatched entries of B, in the order of B. *)
Theorem cross_reference_stable (self self' : HybridPDFParser)
    (transactions_a transactions_b out : list Transaction) (method_a method_b : string) :
  transactions_a <> [] ->
  transactions_b <> [] ->
  cross_reference_transactions self transactions_a transactions_b method_a method_b
    = Ok (out, self') ->
  exists recs : list (option nat * Transaction),
    Forall2 (emitted_for method_a method_b transactions_b) transactions_a recs
    /\ forall date : string,
         List.filter (fun r => String.eqb (date_of r) date) out
         = List.filter (fun r => String.eqb (date_of r) date)
             (List.map snd recs
              ++ List.map (tagged_only method_b)
                   (entries_outside (matched_indices recs) 0 transactions_b))%list.
Proof.
  intros Ha Hb H.
  destruct transactions_a as [|a A]; [congruence|].
  destruct transactions_b as [|b B]; [congruence|].
  rewrite cross_reference_nonempty in H.
  remember (a :: A) as AA eqn:EA. remember (b :: B) as BB eqn:EB.
  destruct (pass1 _ _ _ _ _ _ _) as [[[merged M] self1]|] eqn:Ep; [|discriminate].
  injection H as <- _.
  apply pass1_spec in Ep as (recs & Ho & Hf & Hm & _ & _).
  simpl in Ho. subst merged.
  assert (HM : forall j, j ∈ M <-> In j (matched_indices recs)).
  { intros j. rewrite Hm. split; [intros [?|Hj]; [assumption|]|tauto].
    now apply not_elem_of_empty in Hj. }
  rewrite (pass2_outside _ _ _ _ HM).
  exists recs. split; [exact Hf|]. intros date. apply sort_filter.
Qed.

Lemma cross_reference_stable_witness :
  let out :=
    [set_extraction_method "pdfplumber (matched with OCR)" walmart_noisy;
     set_extraction_method "pdfplumber only" december_purchase] in
  let self' :=
    set_merchant_cache (<["WAL-MART ASDF123" := "Wal-Mart Asdf"]> ∅) offline_parser in
  ([walmart_noisy; december_purchase] <> [] /\ [walmart_clean] <> []
   /\ cross_reference_transactions offline_parser [walmart_noisy; december_purchase]
        [walmart_clean] "pdfplumber" "OCR" = Ok (out, self'))
  /\ exists recs : list (option nat * Transaction),
       Forall2 (emitted_for "pdfplumber" "OCR" [walmart_clean])
         [walmart_noisy; december_purchase] recs
       /\ forall date : string,
            List.filter (fun r => String.eqb (date_of r) date) out
            = List.filter (fun r => String.eqb (date_of r) date)
                (List.map snd recs
                 ++ List.map (tagged_only "OCR")
                      (entries_outside (matched_indices recs) 0 [walmart_clean]))%list.
Proof.
  intros out self'.
  assert (H : cross_reference_transactions offline_parser
                [walmart_noisy; december_purchase] [walmart_clean] "pdfplumber" "OCR"
              = Ok (out, self')) by (vm_compute; reflexivity).
  split; [split; [discriminate|split; [discriminate|exact H]]|].
  apply (cross_reference_stable offline_parser self'
           [walmart_noisy; december_purchase] [walmart_clean] out "pdfplumber" "OCR");
    [discriminate|discriminate|exact H].
Defined.

(** ** Parsing one statement line among other lines *)








(** Under a section header the line before the Walmart line is read as
    the description of the transaction, and [Walmart] does not occur in
    the result. *)
Lemma walmart_line_absorbed_in_section :
  parse_transactions offline_parser walmart_in_section None
  = Some ([mkTransaction (Some "01/15/2025") (Some "Card ending in")
             (Some "Card ending in 1234") (Some (Num f_45_23)) None None None None None],
          set_merchant_cache (<["CARD ENDING IN 1234" := "Card ending in"]> ∅)
            offline_parser).
Proof. vm_compute. reflexivity. Qed.
